(** * Sub-Frame-Selector: the analysis engine, embedded and verified

    A shallow embedding of the Python package [src/analysis]
    ([statistics.py], [metrics.py], [star_detector.py], [fits_reader.py],
    [analyzer.py]) together with the properties its specification states.

    Modelling conventions.
    - A Python [float] is idealised as a real number ([R]): rounding,
      overflow and underflow are not modelled.  Where the code tests for
      them ([np.isfinite] in [statistics.py]) the non-finite values are
      explicit constructors of [pyfloat].  A statement that depends on
      rounding is checked on IEEE binary64 floats in the module
      [Binary64].
    - A numpy 1-D array is a [list R]; a 2-D image is a list of rows.
    - An exception is a value of [exn]; code that can raise returns
      [result A] and [try]/[except] is [try_except].
    - The operating system and the third-party libraries (pathlib,
      astropy, photutils, scipy) are not part of the repository: they are
      the fields of the records [OS], [Scipy] and [Photutils], which the
      embedded functions take as arguments.
    - Python dictionaries with a fixed set of keys are records; a key that
      the code reads with [.get(key, default)] is an [option] field. *)

From Stdlib Require Import String Ascii.
From Stdlib Require Import Reals Lra Lia ZArith Bool Arith List.
From Stdlib Require Import Permutation Sorted.
From Stdlib Require Floats.PrimFloat.
Import ListNotations.

Open Scope R_scope.

(** ** Python exceptions and results *)

Module Python.

Inductive exn_class : Type :=
| FileNotFoundError
| OSError
| ValueError
| TypeError
| IndexError
| RuntimeError.

(** An exception object: its class and the text [str(e)] returns. *)
Record exn : Type := mkExn { exn_cls : exn_class; exn_str : string }.

Definition exn_class_eqb (a b : exn_class) : bool :=
  match a, b with
  | FileNotFoundError, FileNotFoundError | OSError, OSError
  | ValueError, ValueError | TypeError, TypeError
  | IndexError, IndexError | RuntimeError, RuntimeError => true
  | _, _ => false
  end.

(** [isinstance(e, cls)]: [FileNotFoundError] is a subclass of [OSError]. *)
Definition isinstance (e : exn) (cls : exn_class) : bool :=
  exn_class_eqb (exn_cls e) cls ||
  match exn_cls e, cls with
  | FileNotFoundError, OSError => true
  | _, _ => false
  end.

Inductive result (A : Type) : Type :=
| Ok (a : A)
| Raise (e : exn).
Arguments Ok {A} a.
Arguments Raise {A} e.

Definition bind {A B} (m : result A) (k : A -> result B) : result B :=
  match m with
  | Ok a => k a
  | Raise e => Raise e
  end.

(** [try: body  except Exception as e: handler(e)] -- every class of
    [exn_class] derives from [Exception]. *)
Definition try_except {A} (body : result A) (handler : exn -> result A) : result A :=
  match body with
  | Ok a => Ok a
  | Raise e => handler e
  end.

End Python.
Import Python.

Notation "x <- m ;; k" := (bind m (fun x => k))
  (at level 61, m at next level, right associativity).

(** ** numpy primitives on idealised floats *)

Module Numpy.

Definition Rleb (x y : R) : bool := if Rle_dec x y then true else false.
Definition Rltb (x y : R) : bool := if Rlt_dec x y then true else false.
Definition Reqb (x y : R) : bool := if Req_dec_T x y then true else false.

(** Ascending sort (insertion sort; the result is what [np.sort] returns). *)
Fixpoint insert (x : R) (l : list R) : list R :=
  match l with
  | [] => [x]
  | y :: t => if Rleb x y then x :: y :: t else y :: insert x t
  end.

Fixpoint np_sort (l : list R) : list R :=
  match l with
  | [] => []
  | x :: t => insert x (np_sort t)
  end.

Definition np_sum (l : list R) : R := fold_right Rplus 0 l.

Definition np_mean (l : list R) : R := np_sum l / INR (length l).

(** [np.median]: the middle element of the sorted array, or the mean of
    the two middle elements.  numpy returns NaN on an empty array; the
    callers below guard that case, discard the value, or take the median
    of the pixels of an image, which is never empty; the model returns [0]
    there. *)
Definition np_median (a : list R) : R :=
  let s := np_sort a in
  let n := length a in
  if Nat.even n
  then (nth (n / 2 - 1) s 0 + nth (n / 2) s 0) / 2
  else nth (n / 2) s 0.

(** [np.std]: population standard deviation. *)
Definition np_std (a : list R) : R :=
  let m := np_mean a in
  sqrt (np_mean (map (fun x => (x - m) * (x - m)) a)).

Definition np_min (a : list R) : R :=
  match a with [] => 0 | x :: t => fold_left Rmin t x end.

Definition np_max (a : list R) : R :=
  match a with [] => 0 | x :: t => fold_left Rmax t x end.

(** [np.percentile(a, q)] with the default linear interpolation. *)
Definition np_percentile (a : list R) (q : R) : R :=
  let s := np_sort a in
  let pos := INR (length a - 1) * (q / 100) in
  let lo := Z.to_nat (Int_part pos) in
  let fr := pos - INR lo in
  nth lo s 0 + fr * (nth (Nat.min (S lo) (length a - 1)) s 0 - nth lo s 0).

(** A 2-D image: the list of its rows.  [shape0] is [image.shape[0]],
    [shape1] is [image.shape[1]], [ravel] is [image.ravel()]. *)
Definition Image : Type := list (list R).

Definition shape0 (image : Image) : nat := length image.

Definition shape1 (image : Image) : nat :=
  match image with [] => 0%nat | row :: _ => length row end.

Definition ravel (image : Image) : list R := concat image.

(** [image[r, c]] for indices inside the array. *)
Definition pixel (image : Image) (r c : nat) : R := nth c (nth r image []) 0.

End Numpy.
Import Numpy.

(** ** statistics.py *)

Module Statistics.

(** A value of a metric batch: a finite float, or one of the values
    [np.isfinite] rejects. *)
Inductive pyfloat : Type :=
| Finite (r : R)
| NaN
| PosInf
| NegInf.

Definition isfinite (v : pyfloat) : bool :=
  match v with Finite _ => true | _ => false end.

(** [values[valid_mask]]: the finite entries, in order. *)
Fixpoint finite_values (values : list pyfloat) : list R :=
  match values with
  | [] => []
  | Finite r :: t => r :: finite_values t
  | _ :: t => finite_values t
  end.

Record MetricStats : Type := mkStats {
  st_median : R;
  st_sigma : R;
  st_mad : R;
  st_band_1sigma : R * R;
  st_band_2sigma : R * R;
  st_min : R;
  st_max : R
}.

Definition MAD_SCALE_FACTOR : R := 1.4826.

Definition _empty_result : MetricStats :=
  mkStats 0 0 0 (0, 0) (0, 0) 0 0.

Definition median_absolute_deviation (values : list R) : R :=
  if (length values =? 0)%nat then 0
  else
    let median := np_median values in
    np_median (map (fun x => Rabs (x - median)) values).

Definition calculate_bands (values : list pyfloat) : MetricStats :=
  if (length values =? 0)%nat then _empty_result
  else if negb (existsb isfinite values) then _empty_result
  else
    let values := finite_values values in
    let median := np_median values in
    let mad := median_absolute_deviation values in
    let sigma := mad * MAD_SCALE_FACTOR in
    let sigma := if Reqb sigma 0 then 0.001 else sigma in
    mkStats median sigma mad
            (median - sigma, median + sigma)
            (median - 2 * sigma, median + 2 * sigma)
            (np_min values) (np_max values).

(** [abs(value - median) > sigma_threshold * sigma] on a possibly
    non-finite [value]: a NaN compares false, an infinite deviation
    exceeds every finite bound. *)
Definition is_outlier (value : pyfloat) (stats : MetricStats)
           (sigma_threshold : R) : bool :=
  if Reqb (st_sigma stats) 0 then false
  else
    match value with
    | Finite v =>
        let deviation := Rabs (v - st_median stats) in
        Rltb (sigma_threshold * st_sigma stats) deviation
    | NaN => false
    | PosInf | NegInf => true
    end.

Fixpoint outliers_from (i : nat) (values : list pyfloat)
         (stats : MetricStats) (sigma_threshold : R) : list nat :=
  match values with
  | [] => []
  | val :: t =>
      if isfinite val && is_outlier val stats sigma_threshold
      then i :: outliers_from (S i) t stats sigma_threshold
      else outliers_from (S i) t stats sigma_threshold
  end.

Definition get_outlier_indices (values : list pyfloat)
           (sigma_threshold : R) : list nat :=
  let stats := calculate_bands values in
  outliers_from 0 values stats sigma_threshold.

Definition get_sigma_deviation (value : R) (stats : MetricStats) : R :=
  if Reqb (st_sigma stats) 0 then 0
  else (value - st_median stats) / st_sigma stats.

End Statistics.
Import Statistics.


(** ** metrics.py *)

Module Metrics.

(** One entry of the list returned by [StarDetector.fit_psf].  The keys
    ['fit_success'] and ['amplitude'] are read with [.get] and a default,
    so they may be absent. *)
Record PSFResult : Type := mkPSF {
  psf_x : R;
  psf_y : R;
  fwhm_x : R;
  fwhm_y : R;
  amplitude : option R;
  fit_success : option bool
}.

(** [star.get('fit_success', True)] *)
Definition get_fit_success (star : PSFResult) : bool :=
  match fit_success star with Some b => b | None => true end.

(** [star.get('amplitude', 0)] *)
Definition get_amplitude (star : PSFResult) : R :=
  match amplitude star with Some a => a | None => 0 end.

Record FrameMetrics : Type := mkMetrics {
  m_fwhm : R;
  m_fwhm_arcsec : option R;
  m_eccentricity : R;
  m_snr : R;
  m_star_count : nat;
  m_background : R
}.

Definition is_empty {A} (l : list A) : bool :=
  match l with [] => true | _ => false end.

(** The loop of [calculate_fwhm]: the geometric mean of the two widths of
    every star whose flag is (or defaults to) true.  [np.sqrt] of a
    negative product is nan in the code; [R] has no such value, so the
    embedding stands for the code on the entries whose widths have the
    same sign, and the statements about the value of [calculate_fwhm]
    are made for such entries. *)
Fixpoint fwhm_values (psf_results : list PSFResult) : list R :=
  match psf_results with
  | [] => []
  | star :: rest =>
      if get_fit_success star
      then sqrt (fwhm_x star * fwhm_y star) :: fwhm_values rest
      else fwhm_values rest
  end.

Definition calculate_fwhm (psf_results : list PSFResult) : R :=
  if is_empty psf_results then 0
  else
    let values := fwhm_values psf_results in
    if is_empty values then 0 else np_median values.

(** The body of the loop of [calculate_eccentricity] for one star. *)
Definition star_eccentricity (star : PSFResult) : option R :=
  let a := Rmax (fwhm_x star) (fwhm_y star) in
  let b := Rmin (fwhm_x star) (fwhm_y star) in
  if Rltb 0 a then
    let ratio := b / a in
    let ratio_sq := Rmin (ratio ^ 2) 1 in
    Some (sqrt (1 - ratio_sq))
  else None.

Fixpoint ecc_values (psf_results : list PSFResult) : list R :=
  match psf_results with
  | [] => []
  | star :: rest =>
      if get_fit_success star
      then match star_eccentricity star with
           | Some e => e :: ecc_values rest
           | None => ecc_values rest
           end
      else ecc_values rest
  end.

Definition calculate_eccentricity (psf_results : list PSFResult) : R :=
  if is_empty psf_results then 0
  else
    let values := ecc_values psf_results in
    if is_empty values then 0 else np_median values.

Fixpoint _sigma_clip_loop (iters : nat) (clipped : list R) (sigma : R) : list R :=
  match iters with
  | O => clipped
  | S iters' =>
      let median := np_median clipped in
      let std := np_std clipped in
      if Reqb std 0 then clipped
      else
        let new_clipped :=
          filter (fun v => Rltb (Rabs (v - median)) (sigma * std)) clipped in
        if (length new_clipped =? length clipped)%nat then clipped
        else _sigma_clip_loop iters' new_clipped sigma
  end.

Definition _sigma_clip (data : list R) (sigma : R) (max_iters : nat) : list R :=
  _sigma_clip_loop max_iters data sigma.

Definition _estimate_noise (image : Image) : R :=
  let clipped := _sigma_clip (ravel image) 3.0 5 in
  if (length clipped =? 0)%nat then 1.0 else np_std clipped.

(** The amplitudes [calculate_snr] averages. *)
Fixpoint snr_amplitudes (psf_results : list PSFResult) : list R :=
  match psf_results with
  | [] => []
  | star :: rest =>
      if get_fit_success star && Rltb 0 (get_amplitude star)
      then get_amplitude star :: snr_amplitudes rest
      else snr_amplitudes rest
  end.

Definition calculate_snr (image : Image) (psf_results : list PSFResult) : R :=
  if is_empty psf_results then 0
  else
    let amplitudes := snr_amplitudes psf_results in
    if is_empty amplitudes then 0
    else
      let mean_signal := np_mean amplitudes in
      let background_noise := _estimate_noise image in
      if Rleb background_noise 0 then 0
      else mean_signal / background_noise.

Definition calculate_star_count (psf_results : list PSFResult) : nat :=
  if is_empty psf_results then 0%nat
  else length (filter get_fit_success psf_results).

Definition calculate_background (image : Image) : R :=
  np_median (_sigma_clip (ravel image) 3.0 5).

(** [image_scale] is falsy when it is [None] or [0.0]. *)
Definition truthy_float (v : option R) : bool :=
  match v with Some r => negb (Reqb r 0) | None => false end.

Definition calculate_all (image : Image) (psf_results : list PSFResult)
           (image_scale : option R) : FrameMetrics :=
  let fwhm_pixels := calculate_fwhm psf_results in
  let fwhm_arcsec :=
    match image_scale with
    | Some scale => if truthy_float image_scale then Some (fwhm_pixels * scale) else None
    | None => None
    end in
  mkMetrics fwhm_pixels fwhm_arcsec
            (calculate_eccentricity psf_results)
            (calculate_snr image psf_results)
            (calculate_star_count psf_results)
            (calculate_background image).

End Metrics.
Import Metrics.

(** The eccentricity of one star as the specification words it:
    [sqrt(1 - (min(fwhm_x,fwhm_y)/max(fwhm_x,fwhm_y))^2)], the squared ratio
    clamped to at most 1 before the square root. *)
Definition spec_eccentricity (star : PSFResult) : R :=
  sqrt (1 - Rmin ((Rmin (fwhm_x star) (fwhm_y star) /
                   Rmax (fwhm_x star) (fwhm_y star)) ^ 2) 1).

(** The geometric mean of the two widths of one star. *)
Definition spec_fwhm (star : PSFResult) : R :=
  sqrt (fwhm_x star * fwhm_y star).

(** The median of a list of per-star values, 0.0 when there is none. *)
Definition median_or_zero (values : list R) : R :=
  if is_empty values then 0 else np_median values.

(** The entries the specification selects: those whose ['fit_success'] is
    true. *)
Definition spec_successful (star : PSFResult) : bool :=
  match fit_success star with Some true => true | _ => false end.

(** The eccentricity metric as the specification words it: the median of
    [spec_eccentricity] over the entries with fit_success true, 0.0 when
    there is none. *)
Definition spec_calculate_eccentricity (psf_results : list PSFResult) : R :=
  median_or_zero (map spec_eccentricity (filter spec_successful psf_results)).

(** The flag of an entry read from the record itself: true or absent. *)
Definition flag_not_false (star : PSFResult) : bool :=
  match fit_success star with Some false => false | _ => true end.

(** The entries the eccentricity is taken over: the flag is true or
    absent and the larger width is positive. *)
Definition counts_for_eccentricity (star : PSFResult) : bool :=
  flag_not_false star && Rltb 0 (Rmax (fwhm_x star) (fwhm_y star)).

(** The entry with its flag written out as true. *)
Definition with_flag_true (star : PSFResult) : PSFResult :=
  mkPSF (psf_x star) (psf_y star) (fwhm_x star) (fwhm_y star)
        (amplitude star) (Some true).

(** The signal-to-noise ratio over a list of amplitudes. *)
Definition snr_of_amplitudes (image : Image) (amplitudes : list R) : R :=
  if is_empty amplitudes then 0
  else if Rleb (_estimate_noise image) 0 then 0
  else np_mean amplitudes / _estimate_noise image.

(** ** The eccentricity of one star on IEEE binary64 floats *)

Module Binary64.

Import PrimFloat.

(** [max(x, y)] and [min(x, y)] of Python: the first argument unless the
    second is larger (smaller). *)
Definition py_max (x y : float) : float := if ltb x y then y else x.
Definition py_min (x y : float) : float := if ltb y x then y else x.

(** The body of the loop of [calculate_eccentricity] for one star, every
    operation rounded to binary64; [ratio ** 2] is the rounded square. *)
Definition star_eccentricity (fwhm_x fwhm_y : float) : option float :=
  let a := py_max fwhm_x fwhm_y in
  let b := py_min fwhm_x fwhm_y in
  if ltb zero a then
    let ratio := div b a in
    let ratio_sq := py_min (mul ratio ratio) one in
    Some (sqrt (sub one ratio_sq))
  else None.

(** 2^-30, a positive width far below one pixel. *)
Definition narrow : float := 0x1p-30%float.

End Binary64.

(** ** fits_reader.py *)

Module FitsReader.

(** The value of a header card as astropy hands it out. *)
Inductive hval : Type :=
| HStr (s : string)
| HInt (z : Z)
| HFloat (r : R)
| HBool (b : bool)
| HUndefined.

(** [dict(hdu.header)] *)
Definition Header : Type := list (string * hval).

Fixpoint header_get (key : string) (header : Header) : option hval :=
  match header with
  | [] => None
  | (k, v) :: rest => if String.eqb k key then Some v else header_get key rest
  end.

(** The pixel array of an HDU, by number of dimensions.  The model covers
    the HDUs whose array has at most three dimensions ([Arr1] stands for
    every array of fewer than two); [load_file] hands an array of four or
    more dimensions on as it is, which no function of the package is
    written for. *)
Inductive ndarray : Type :=
| Arr1 (a : list R)
| Arr2 (a : Image)
| Arr3 (planes : list Image).

Record HDU : Type := mkHDU { hdu_header : Header; hdu_data : option ndarray }.

(** What the code asks of the operating system, of [pathlib], of the
    built-in [float], of [astropy.io.fits] and of numpy's cast to
    [np.float32]: [float32 v] is the value a pixel [v] has after
    [astype(np.float32)]. *)
Record OS : Type := mkOS {
  path_exists : string -> bool;
  path_is_dir : string -> bool;
  path_iterdir : string -> list string;
  path_name : string -> string;
  path_suffix : string -> string;
  path_str : string -> string;
  str_lower : string -> string;
  float_of_str : string -> option R;
  fits_open : string -> result (list HDU);
  float32 : R -> R
}.

(** [data.astype(np.float32)]: every pixel is cast, the shape is kept. *)
Definition astype_float32 (os : OS) (data : Image) : Image :=
  map (map (float32 os)) data.

Definition SUPPORTED_EXTENSIONS : list string :=
  [".fits"; ".fit"; ".fts"]%string.

(** Truth value of a header value in [if header[key]]. *)
Definition truthy (v : hval) : bool :=
  match v with
  | HStr s => negb (String.eqb s "")
  | HInt z => negb (Z.eqb z 0)
  | HFloat r => negb (Reqb r 0)
  | HBool b => b
  | HUndefined => true
  end.

(** [float(v)] *)
Definition py_float (os : OS) (v : hval) : result R :=
  match v with
  | HStr s =>
      match float_of_str os s with
      | Some r => Ok r
      | None => Raise (mkExn ValueError "could not convert string to float")
      end
  | HInt z => Ok (IZR z)
  | HFloat r => Ok r
  | HBool b => Ok (if b then 1 else 0)
  | HUndefined => Raise (mkExn TypeError "float() argument must be a string or a real number")
  end.

Fixpoint load_file_loop (os : OS) (hdul : list HDU) : option (result Image) :=
  match hdul with
  | [] => None
  | hdu :: rest =>
      match hdu_data hdu with
      | Some (Arr2 data) => Some (Ok (astype_float32 os data))
      | Some (Arr3 planes) =>
          match planes with
          | data :: _ => Some (Ok (astype_float32 os data))
          | [] => Some (Raise (mkExn IndexError "index 0 is out of bounds for axis 0 with size 0"))
          end
      | Some (Arr1 _) | None => load_file_loop os rest
      end
  end.

Definition load_file (os : OS) (filepath : string) : result Image :=
  if negb (path_exists os filepath)
  then Raise (mkExn FileNotFoundError ("FITS file not found: " ++ path_str os filepath)%string)
  else
    hdul <- fits_open os filepath ;;
    match load_file_loop os hdul with
    | Some r => r
    | None => Raise (mkExn ValueError ("No image data found in FITS file: " ++ path_str os filepath)%string)
    end.

(** A file entry of a batch: the dict with keys 'path' and 'filename'. *)
Record FileInfo : Type := mkFile { path : string; filename : string }.

Fixpoint insert_by_filename (f : FileInfo) (l : list FileInfo) : list FileInfo :=
  match l with
  | [] => [f]
  | g :: t =>
      if String.leb (filename f) (filename g) then f :: g :: t
      else g :: insert_by_filename f t
  end.

Fixpoint sort_by_filename (l : list FileInfo) : list FileInfo :=
  match l with
  | [] => []
  | f :: t => insert_by_filename f (sort_by_filename t)
  end.

Definition load_folder (os : OS) (folder_path : string) : result (list FileInfo) :=
  if negb (path_exists os folder_path)
  then Raise (mkExn FileNotFoundError ("Folder not found: " ++ folder_path)%string)
  else if negb (path_is_dir os folder_path)
  then Raise (mkExn ValueError ("Path is not a directory: " ++ folder_path)%string)
  else
    let files :=
      map (fun filepath => mkFile (path_str os filepath) (path_name os filepath))
          (filter (fun filepath =>
                     existsb (String.eqb (str_lower os (path_suffix os filepath)))
                             SUPPORTED_EXTENSIONS)
                  (path_iterdir os folder_path)) in
    Ok (sort_by_filename files).

Fixpoint get_header_loop (hdul : list HDU) : Header :=
  match hdul with
  | [] => []
  | hdu :: rest =>
      if is_empty (hdu_header hdu) then get_header_loop rest else hdu_header hdu
  end.

Definition get_header (os : OS) (filepath : string) : result Header :=
  hdul <- fits_open os filepath ;;
  Ok (get_header_loop hdul).

Record ImagingParams : Type := mkParams {
  pixel_size_um : option R;
  focal_length_mm : option R;
  aperture_mm : option R;
  image_scale : option R
}.

(** One of the three key loops of [get_imaging_params]: the first key that
    is in the header with a truthy value [float] accepts.  Only
    [ValueError] and [TypeError] are caught. *)
Fixpoint first_float (os : OS) (keys : list string) (header : Header)
  : result (option R) :=
  match keys with
  | [] => Ok None
  | key :: rest =>
      match header_get key header with
      | Some v =>
          if truthy v then
            match py_float os v with
            | Ok r => Ok (Some r)
            | Raise e =>
                if isinstance e ValueError || isinstance e TypeError
                then first_float os rest header
                else Raise e
            end
          else first_float os rest header
      | None => first_float os rest header
      end
  end.

Definition pixel_size_keys : list string :=
  ["XPIXSZ"; "PIXSIZE"; "PIXSIZE1"; "XPIXELSZ"; "PIXSCALE"]%string.
Definition focal_length_keys : list string :=
  ["FOCALLEN"; "FOCAL"; "FOCALLENGTH"; "FL"]%string.
Definition aperture_keys : list string :=
  ["APTDIA"; "DIAMETER"; "APERTURE"; "APTDIAMM"]%string.

Definition get_imaging_params (os : OS) (filepath : string) : result ImagingParams :=
  header <- get_header os filepath ;;
  pixel_size <- first_float os pixel_size_keys header ;;
  focal_length <- first_float os focal_length_keys header ;;
  aperture <- first_float os aperture_keys header ;;
  let image_scale :=
    match pixel_size, focal_length with
    | Some p, Some f =>
        if truthy_float pixel_size && truthy_float focal_length && Rltb 0 f
        then Some ((p / f) * 206.265)
        else None
    | _, _ => None
    end in
  Ok (mkParams pixel_size focal_length aperture image_scale).

End FitsReader.
Import FitsReader.

(** ** star_detector.py *)

Module Detector.

(** A detected star: the dict with keys 'x', 'y', 'flux', 'peak'. *)
Record Candidate : Type := mkStar {
  star_x : R;
  star_y : R;
  star_flux : R;
  star_peak : R
}.

Record StarDetector : Type := mkDetector {
  fwhm_estimate : R;
  threshold_sigma : R;
  max_stars : Z;
  box_size : Z
}.

(** [StarDetector.__init__]: an even [box_size] is made odd. *)
Definition StarDetector_init (fwhm_estimate threshold_sigma : R)
           (max_stars box_size : Z) : StarDetector :=
  mkDetector fwhm_estimate threshold_sigma max_stars
             (if (box_size mod 2 =? 1)%Z then box_size else (box_size + 1)%Z).

(** A row of the table [DAOStarFinder] returns. *)
Record Source : Type := mkSource {
  xcentroid : R;
  ycentroid : R;
  src_flux : R;
  src_peak : R
}.

(** [photutils]: [Background2D] gives the background array and its median
    rms or raises; the finder gives a table, or [None] when it finds
    nothing. *)
Record Photutils : Type := mkPhotutils {
  Background2D : Image -> result (Image * R);
  DAOStarFinder : R -> R -> Image -> result (option (list Source))
}.

(** The six parameters of the fitted Gaussian, in the order of [popt]. *)
Record GaussParams : Type := mkGauss {
  g_amplitude : R;
  g_x0 : R;
  g_y0 : R;
  g_sigma_x : R;
  g_sigma_y : R;
  g_offset : R
}.

(** [scipy.ndimage] and [scipy.optimize.curve_fit]. *)
Record Scipy : Type := mkScipy {
  gaussian_filter : Image -> R -> Image;
  maximum_filter : Image -> Z -> Image;
  label : list (list bool) -> list (list nat) * nat;
  curve_fit : (R * R -> GaussParams -> R) -> list (R * R) -> list R ->
              GaussParams -> list pyfloat -> list pyfloat -> nat ->
              result GaussParams
}.

(** [int(r)]: truncation towards zero. *)
Definition py_int (r : R) : Z :=
  if Rleb 0 r then Int_part r else (- Int_part (- r))%Z.

(** [round(r)]: to the nearest integer, a tie to the even one. *)
Definition py_round (r : R) : Z :=
  let f := Int_part r in
  let d := r - IZR f in
  if Rltb d (1 / 2) then f
  else if Rltb (1 / 2) d then (f + 1)%Z
  else if Z.even f then f else (f + 1)%Z.

(** An index of a slice brought into [0, n], as Python does. *)
Definition slice_index (n : nat) (i : Z) : nat :=
  if (i <? 0)%Z then Z.to_nat (Z.max (i + Z.of_nat n) 0)
  else Nat.min (Z.to_nat i) n.

(** [l[a:b]] *)
Definition py_slice {A} (l : list A) (a b : Z) : list A :=
  let lo := slice_index (length l) a in
  let hi := slice_index (length l) b in
  firstn (hi - lo) (skipn lo l).

(** [l.sort(key=key, reverse=True)]: descending, equal keys keep their
    order. *)
Fixpoint insert_desc {A} (key : A -> R) (a : A) (l : list A) : list A :=
  match l with
  | [] => [a]
  | b :: rest =>
      if Rleb (key b) (key a) then a :: b :: rest
      else b :: insert_desc key a rest
  end.

Fixpoint sort_desc {A} (key : A -> R) (l : list A) : list A :=
  match l with
  | [] => []
  | a :: rest => insert_desc key a (sort_desc key rest)
  end.

(** The order a descending sort establishes. *)
Definition desc {A} (key : A -> R) (a b : A) : Prop := key b <= key a.

Definition image_sub_scalar (image : Image) (v : R) : Image :=
  map (map (fun p => p - v)) image.

Fixpoint zip_with {A B C} (f : A -> B -> C) (l : list A) (m : list B) : list C :=
  match l, m with
  | a :: l', b :: m' => f a b :: zip_with f l' m'
  | _, _ => []
  end.

Definition image_sub_array (image background : Image) : Image :=
  zip_with (zip_with Rminus) image background.

(** [np.std(image[image < np.percentile(image, 90)])] *)
Definition std_below_p90 (image : Image) : R :=
  let flat := ravel image in
  np_std (filter (fun v => Rltb v (np_percentile flat 90)) flat).

Definition source_to_star (row : Source) : Candidate :=
  mkStar (xcentroid row) (ycentroid row) (src_flux row) (src_peak row).

Definition _detect_with_photutils (ph : Photutils) (self : StarDetector)
           (image : Image) : result (list Candidate) :=
  bg <- try_except
          (bkg <- Background2D ph image ;;
           Ok (image_sub_array image (fst bkg), snd bkg))
          (fun _ =>
             let bkg_value := np_median (ravel image) in
             Ok (image_sub_scalar image bkg_value, std_below_p90 image)) ;;
  let image_sub := fst bg in
  let bkg_rms := snd bg in
  let threshold := threshold_sigma self * bkg_rms in
  sources <- DAOStarFinder ph (fwhm_estimate self) threshold image_sub ;;
  match sources with
  | None => Ok []
  | Some sources =>
      let sources := sort_desc src_flux sources in
      let sources :=
        if (Z.of_nat (length sources) >? max_stars self)%Z
        then py_slice sources 0 (max_stars self)
        else sources in
      Ok (map source_to_star sources)
  end.

Definition enumerate {A} (l : list A) : list (nat * A) :=
  combine (seq 0 (length l)) l.

(** [np.where(labeled == i)]: the (row, column) pairs, row by row. *)
Definition where_label (labeled : list (list nat)) (i : nat) : list (nat * nat) :=
  flat_map (fun rrow =>
              map (fun cl => (fst rrow, fst cl))
                  (filter (fun cl => (snd cl =? i)%nat) (enumerate (snd rrow))))
           (enumerate labeled).

(** The body of the loop of [_detect_simple] for the region labelled [i]. *)
Definition simple_star (image : Image) (bkg : R) (labeled : list (list nat))
           (i : nat) : option Candidate :=
  let coords := where_label labeled i in
  if (0 <? length coords)%nat then
    let y_center := np_mean (map (fun rc => INR (fst rc)) coords) in
    let x_center := np_mean (map (fun rc => INR (snd rc)) coords) in
    let peak_val :=
      pixel image (Z.to_nat (py_int y_center)) (Z.to_nat (py_int x_center)) in
    Some (mkStar x_center y_center
                 (np_sum (map (fun rc => pixel image (fst rc) (snd rc) - bkg) coords))
                 peak_val)
  else None.

Fixpoint simple_stars (image : Image) (bkg : R) (labeled : list (list nat))
         (labels : list nat) : list Candidate :=
  match labels with
  | [] => []
  | i :: rest =>
      match simple_star image bkg labeled i with
      | Some star => star :: simple_stars image bkg labeled rest
      | None => simple_stars image bkg labeled rest
      end
  end.

(** [range(1, stop)] *)
Definition range_from_1 (stop : Z) : list nat :=
  seq 1 (Z.to_nat (stop - 1)).

Definition _detect_simple (sp : Scipy) (self : StarDetector) (image : Image)
  : list Candidate :=
  let bkg := np_median (ravel image) in
  let std := std_below_p90 image in
  let smoothed :=
    gaussian_filter sp (image_sub_scalar image bkg) (fwhm_estimate self / 2.355) in
  let threshold := threshold_sigma self * std in
  let data_max := maximum_filter sp smoothed (py_int (fwhm_estimate self * 2)) in
  let peaks :=
    zip_with (zip_with (fun s m => Reqb s m && Rltb threshold s)) smoothed data_max in
  let labeled := fst (label sp peaks) in
  let num_features := snd (label sp peaks) in
  let stars :=
    simple_stars image bkg labeled
      (range_from_1 (Z.min (Z.of_nat num_features + 1) (max_stars self + 1))) in
  let stars := sort_desc star_flux stars in
  py_slice stars 0 (max_stars self).

(** [photutils] is [None] when importing it fails. *)
Definition detect_stars (photutils : option Photutils) (sp : Scipy)
           (self : StarDetector) (image : Image) : result (list Candidate) :=
  match photutils with
  | Some ph => _detect_with_photutils ph self image
  | None => Ok (_detect_simple sp self image)
  end.

(** The model handed to [curve_fit].  The solver evaluates it inside the
    bounds of the fit, where both widths are at least 0.5; with a width
    of zero the code divides by zero, and the statements about the model
    are made for widths that are not zero. *)
Definition _gaussian_2d (xy : R * R) (p : GaussParams) : R :=
  g_offset p +
  g_amplitude p *
  exp (- ((fst xy - g_x0 p) ^ 2 / (2 * g_sigma_x p ^ 2) +
          (snd xy - g_y0 p) ^ 2 / (2 * g_sigma_y p ^ 2))).

(** The dict [_fit_gaussian_2d] returns for an accepted fit. *)
Record FitResult : Type := mkFit {
  fit_fwhm_x : R;
  fit_fwhm_y : R;
  fit_amplitude : R
}.

(** [cutout[r, c]], which raises when an index is out of range. *)
Definition getitem2 (a : Image) (r c : nat) : result R :=
  match nth_error a r with
  | Some row =>
      match nth_error row c with
      | Some v => Ok v
      | None => Raise (mkExn IndexError "index is out of bounds for axis 1")
      end
  | None => Raise (mkExn IndexError "index is out of bounds for axis 0")
  end.

(** [np.vstack([x.ravel(), y.ravel()])] for [y, x = np.mgrid[0:size, 0:size]] *)
Definition grid_xy (size : nat) : list (R * R) :=
  flat_map (fun r => map (fun c => (INR c, INR r)) (seq 0 size)) (seq 0 size).

(** The [curve_fit] call of [_fit_gaussian_2d] with its initial guess and
    its bounds. *)
Definition fit_call (sp : Scipy) (self : StarDetector) (cutout : Image)
           (amplitude offset : R) : result GaussParams :=
  let size := shape0 cutout in
  let center := (size / 2)%nat in
  let sigma_guess := fwhm_estimate self / 2.355 in
  curve_fit sp _gaussian_2d (grid_xy size) (ravel cutout)
            (mkGauss amplitude (INR center) (INR center) sigma_guess sigma_guess offset)
            [Finite 0; Finite 0; Finite 0; Finite 0.5; Finite 0.5; NegInf]
            [PosInf; Finite (INR size); Finite (INR size);
             Finite (INR size / 2); Finite (INR size / 2); PosInf]
            1000.

(** The sanity check on the fitted widths. *)
Definition widths_rejected (size : nat) (fwhm_x fwhm_y : R) : bool :=
  Rltb fwhm_x 0.5 || Rltb fwhm_y 0.5 ||
  Rltb (INR size) fwhm_x || Rltb (INR size) fwhm_y.

Definition _fit_gaussian_2d (sp : Scipy) (self : StarDetector) (cutout : Image)
  : result (option FitResult) :=
  let size := shape0 cutout in
  let center := (size / 2)%nat in
  let offset := np_percentile (ravel cutout) 10 in
  center_value <- getitem2 cutout center center ;;
  let amplitude := center_value - offset in
  try_except
    (popt <- fit_call sp self cutout amplitude offset ;;
     let fwhm_x := 2.355 * g_sigma_x popt in
     let fwhm_y := 2.355 * g_sigma_y popt in
     if widths_rejected size fwhm_x fwhm_y then Ok None
     else Ok (Some (mkFit fwhm_x fwhm_y (g_amplitude popt))))
    (fun _ => Ok None).

(** The bounds test of [fit_psf]: true when the candidate is skipped. *)
Definition window_outside (image : Image) (half_box x y : Z) : bool :=
  (x - half_box <? 0)%Z ||
  (x + half_box >=? Z.of_nat (shape1 image))%Z ||
  (y - half_box <? 0)%Z ||
  (y + half_box >=? Z.of_nat (shape0 image))%Z.

(** [image[y - half_box:y + half_box + 1, x - half_box:x + half_box + 1]] *)
Definition extract_cutout (image : Image) (half_box x y : Z) : Image :=
  map (fun row => py_slice row (x - half_box) (x + half_box + 1))
      (py_slice image (y - half_box) (y + half_box + 1)).

Definition fitted_entry (star : Candidate) (fit : FitResult) : PSFResult :=
  mkPSF (star_x star) (star_y star) (fit_fwhm_x fit) (fit_fwhm_y fit)
        (Some (fit_amplitude fit)) (Some true).

Definition fallback_entry (self : StarDetector) (star : Candidate) : PSFResult :=
  mkPSF (star_x star) (star_y star) (fwhm_estimate self) (fwhm_estimate self)
        (Some (star_peak star)) (Some false).

Fixpoint fit_psf_loop (sp : Scipy) (self : StarDetector) (image : Image)
         (half_box : Z) (stars : list Candidate) (results : list PSFResult)
  : result (list PSFResult) :=
  match stars with
  | [] => Ok results
  | star :: rest =>
      let x := py_round (star_x star) in
      let y := py_round (star_y star) in
      if window_outside image half_box x y
      then fit_psf_loop sp self image half_box rest results
      else
        let cutout := extract_cutout image half_box x y in
        fit_result <- _fit_gaussian_2d sp self cutout ;;
        match fit_result with
        | Some fit =>
            fit_psf_loop sp self image half_box rest
                         (results ++ [fitted_entry star fit])
        | None =>
            fit_psf_loop sp self image half_box rest
                         (results ++ [fallback_entry self star])
        end
  end.

Definition fit_psf (sp : Scipy) (self : StarDetector) (image : Image)
           (stars : list Candidate) : result (list PSFResult) :=
  let half_box := (box_size self / 2)%Z in
  fit_psf_loop sp self image half_box stars [].

End Detector.
Import Detector.

(** A numpy array has rows of one length. *)
Definition rectangular (image : Image) : Prop :=
  Forall (fun row => length row = shape1 image) image.

(** The fitting window of a candidate exceeds the image bounds, as the
    specification words it: some pixel of the square of half-width
    [half_box] around (x, y) has a coordinate outside the image. *)
Definition window_exceeds (image : Image) (half_box x y : Z) : Prop :=
  (x - half_box < 0 \/ x + half_box > Z.of_nat (shape1 image) - 1 \/
   y - half_box < 0 \/ y + half_box > Z.of_nat (shape0 image) - 1)%Z.

(** The candidate passes the bounds test of [fit_psf]. *)
Definition star_kept (self : StarDetector) (image : Image) (star : Candidate) : bool :=
  negb (window_outside image (box_size self / 2)
                       (py_round (star_x star)) (py_round (star_y star))).

Definition star_cutout (self : StarDetector) (image : Image) (star : Candidate)
  : Image :=
  extract_cutout image (box_size self / 2)
                 (py_round (star_x star)) (py_round (star_y star)).

(** What the solver answers on the window of a candidate. *)
Definition star_fit (sp : Scipy) (self : StarDetector) (image : Image)
           (star : Candidate) : result GaussParams :=
  let cutout := star_cutout self image star in
  let offset := np_percentile (ravel cutout) 10 in
  let center := (shape0 cutout / 2)%nat in
  fit_call sp self cutout (pixel cutout center center - offset) offset.

(** The fit fails, or it yields a width below 0.5 px or above [box_size]. *)
Definition fit_unusable (sp : Scipy) (self : StarDetector) (image : Image)
           (star : Candidate) : Prop :=
  match star_fit sp self image star with
  | Raise _ => True
  | Ok popt =>
      2.355 * g_sigma_x popt < 0.5 \/ 2.355 * g_sigma_y popt < 0.5 \/
      2.355 * g_sigma_x popt > IZR (box_size self) \/
      2.355 * g_sigma_y popt > IZR (box_size self)
  end.

(** The entry [fit_psf] has to emit for a candidate that passed the bounds
    test. *)
Definition emitted (sp : Scipy) (self : StarDetector) (image : Image)
           (star : Candidate) (r : PSFResult) : Prop :=
  psf_x r = star_x star /\ psf_y r = star_y star /\
  (fit_unusable sp self image star ->
   fwhm_x r = fwhm_estimate self /\ fwhm_y r = fwhm_estimate self /\
   amplitude r = Some (star_peak star) /\ fit_success r = Some false) /\
  (~ fit_unusable sp self image star ->
   exists popt,
     star_fit sp self image star = Ok popt /\
     fwhm_x r = 2.355 * g_sigma_x popt /\ fwhm_y r = 2.355 * g_sigma_y popt /\
     amplitude r = Some (g_amplitude popt) /\ fit_success r = Some true).

(** ** analyzer.py *)

Module Analyzer.

(** Everything outside the repository the analyzer runs on.  [photutils]
    is [None] when the package cannot be imported. *)
Record Libs : Type := mkLibs {
  libs_os : OS;
  libs_photutils : option Photutils;
  libs_scipy : Scipy;
  cpu_count : Z
}.

(** The dict returned for one file: with the metrics and the two star
    counts, or with 'metrics' None and the 'error' text. *)
Inductive FileResult : Type :=
| Analyzed (filepath filename : string) (metrics : FrameMetrics)
           (star_count_detected star_count_fitted : nat)
| Failed (filepath filename : string) (error : string).

Definition result_filepath (r : FileResult) : string :=
  match r with Analyzed p _ _ _ _ => p | Failed p _ _ => p end.

Definition result_filename (r : FileResult) : string :=
  match r with Analyzed _ n _ _ _ => n | Failed _ n _ => n end.

(** [r.get('metrics')] *)
Definition result_metrics (r : FileResult) : option FrameMetrics :=
  match r with Analyzed _ _ m _ _ => Some m | Failed _ _ _ => None end.

(** [r.get('error')] *)
Definition result_error (r : FileResult) : option string :=
  match r with Analyzed _ _ _ _ _ => None | Failed _ _ e => Some e end.

(** The argument tuple of the worker function. *)
Record WorkerArgs : Type := mkArgs {
  arg_filepath : string;
  arg_fwhm_estimate : R;
  arg_threshold_sigma : R;
  arg_max_stars : Z;
  arg_image_scale : option R
}.

Definition _analyze_single_file (libs : Libs) (args : WorkerArgs)
  : result FileResult :=
  let filepath := arg_filepath args in
  try_except
    (let detector :=
       StarDetector_init (arg_fwhm_estimate args) (arg_threshold_sigma args)
                         (arg_max_stars args) 15 in
     image <- load_file (libs_os libs) filepath ;;
     stars <- detect_stars (libs_photutils libs) (libs_scipy libs) detector image ;;
     psf_results <- fit_psf (libs_scipy libs) detector image stars ;;
     let metrics := calculate_all image psf_results (arg_image_scale args) in
     Ok (Analyzed filepath (path_name (libs_os libs) filepath) metrics
                  (length stars) (length psf_results)))
    (fun e =>
       Ok (Failed filepath (path_name (libs_os libs) filepath) (exn_str e))).

Record SubframeAnalyzer : Type := mkAnalyzer {
  an_fwhm_estimate : R;
  an_threshold_sigma : R;
  an_max_stars : Z;
  num_workers : Z;
  star_detector : StarDetector
}.

(** [SubframeAnalyzer.__init__] *)
Definition SubframeAnalyzer_init (libs : Libs) (fwhm_estimate threshold_sigma : R)
           (max_stars : Z) (num_workers : option Z) : SubframeAnalyzer :=
  let num_workers :=
    match num_workers with
    | None => Z.max 1 (cpu_count libs - 2)
    | Some n => n
    end in
  mkAnalyzer fwhm_estimate threshold_sigma max_stars
             (Z.max 1 (Z.min (cpu_count libs) num_workers))
             (StarDetector_init fwhm_estimate threshold_sigma max_stars 15).

Definition analyze_file (libs : Libs) (self : SubframeAnalyzer)
           (filepath : string) (image_scale : option R) : result FileResult :=
  image <- load_file (libs_os libs) filepath ;;
  image_scale <-
    match image_scale with
    | None =>
        imaging_params <- get_imaging_params (libs_os libs) filepath ;;
        Ok (FitsReader.image_scale imaging_params)
    | Some _ => Ok image_scale
    end ;;
  stars <- detect_stars (libs_photutils libs) (libs_scipy libs)
                        (star_detector self) image ;;
  psf_results <- fit_psf (libs_scipy libs) (star_detector self) image stars ;;
  let metrics := calculate_all image psf_results image_scale in
  Ok (Analyzed filepath (path_name (libs_os libs) filepath) metrics
               (length stars) (length psf_results)).

(** A call of the progress callback: (current, total, filename). *)
Definition Progress : Type := (nat * nat * string)%type.

(** The [try]/[except] of the loop of [_analyze_sequential]: the result
    appended for one file. *)
Definition sequential_result (libs : Libs) (self : SubframeAnalyzer)
           (image_scale : option R) (file_info : FileInfo) : FileResult :=
  match analyze_file libs self (path file_info) image_scale with
  | Ok r => r
  | Raise e => Failed (path file_info) (filename file_info) (exn_str e)
  end.

(** The loop of [_analyze_sequential]; [i] is the index of the next file,
    [results] and [log] what has been appended and reported so far. *)
Fixpoint _analyze_sequential_loop (libs : Libs) (self : SubframeAnalyzer)
         (files : list FileInfo) (i total : nat) (progress_callback : bool)
         (image_scale : option R) (results : list FileResult)
         (log : list Progress) : list FileResult * list Progress :=
  match files with
  | [] => (results, log)
  | file_info :: rest =>
      let log :=
        if progress_callback
        then log ++ [((i + 1)%nat, total, filename file_info)]
        else log in
      let result := sequential_result libs self image_scale file_info in
      _analyze_sequential_loop libs self rest (S i) total progress_callback
                               image_scale (results ++ [result]) log
  end.

Definition _analyze_sequential (libs : Libs) (self : SubframeAnalyzer)
           (files : list FileInfo) (total : nat) (progress_callback : bool)
           (image_scale : option R) : list FileResult * list Progress :=
  _analyze_sequential_loop libs self files 0 total progress_callback
                           image_scale [] [].

(** [multiprocessing.Pool.imap]: the workers finish the tasks in the order
    [schedule] lists their indices; every finished task is stored under
    its index, and the iterator hands the stored results over in the
    order of the tasks. *)
Definition pool_finished {A B} (f : A -> B) (tasks : list A) (schedule : list nat)
  : list (nat * B) :=
  flat_map (fun i => match nth_error tasks i with
                     | Some a => [(i, f a)]
                     | None => []
                     end) schedule.

Fixpoint finished_get {B} (i : nat) (finished : list (nat * B)) : option B :=
  match finished with
  | [] => None
  | (j, b) :: rest => if (j =? i)%nat then Some b else finished_get i rest
  end.

Definition pool_imap {A B} (f : A -> B) (tasks : list A) (schedule : list nat)
  : list B :=
  let finished := pool_finished f tasks schedule in
  flat_map (fun i => match finished_get i finished with
                     | Some b => [b]
                     | None => []
                     end) (seq 0 (length tasks)).

(** The loop of [_analyze_parallel] over what [imap] yields. *)
Fixpoint _analyze_parallel_loop (yielded : list (result FileResult))
         (completed total : nat) (progress_callback : bool)
         (results : list FileResult) (log : list Progress)
  : result (list FileResult * list Progress) :=
  match yielded with
  | [] => Ok (results, log)
  | item :: rest =>
      result <- item ;;
      let completed := (completed + 1)%nat in
      let results := results ++ [result] in
      let log :=
        if progress_callback
        then log ++ [(completed, total, result_filename result)]
        else log in
      _analyze_parallel_loop rest completed total progress_callback results log
  end.

Definition _analyze_parallel (libs : Libs) (self : SubframeAnalyzer)
           (files : list FileInfo) (total : nat) (workers : Z)
           (progress_callback : bool) (image_scale : option R)
           (schedule : list nat) : result (list FileResult * list Progress) :=
  let args_list :=
    map (fun f => mkArgs (path f) (an_fwhm_estimate self) (an_threshold_sigma self)
                         (an_max_stars self) image_scale) files in
  _analyze_parallel_loop (pool_imap (_analyze_single_file libs) args_list schedule)
                         0 total progress_callback [] [].

(** What the metrics dict of a frame holds under a name: [None] when the
    name is not a key, [Some None] for the Python value [None]
    (['fwhm_arcsec'] of a frame analysed without an image scale), else the
    number.  The metrics of [FrameMetrics] are reals, so the numbers are
    finite: a frame with a nan metric is outside the model. *)
Definition metric_value (metric : string) (m : FrameMetrics)
  : option (option pyfloat) :=
  if String.eqb metric "fwhm" then Some (Some (Finite (m_fwhm m)))
  else if String.eqb metric "fwhm_arcsec" then
    Some (match m_fwhm_arcsec m with Some v => Some (Finite v) | None => None end)
  else if String.eqb metric "eccentricity" then Some (Some (Finite (m_eccentricity m)))
  else if String.eqb metric "snr" then Some (Some (Finite (m_snr m)))
  else if String.eqb metric "star_count" then
    Some (Some (Finite (INR (m_star_count m))))
  else if String.eqb metric "background" then Some (Some (Finite (m_background m)))
  else None.

(** [np.asarray(values, dtype=np.float64)] on one element of an array of
    Python objects: [None] is read as nan. *)
Definition as_float64 (v : option pyfloat) : pyfloat :=
  match v with Some f => f | None => NaN end.

(** statistics.py, [calculate_all_metric_stats]: the dict from metric name
    to statistics, in insertion order. *)
Definition calculate_all_metric_stats (metrics_list : list FrameMetrics)
  : list (string * MetricStats) :=
  if is_empty metrics_list then []
  else
    let metric_names :=
      ["fwhm"; "eccentricity"; "snr"; "star_count"; "background"]%string in
    let result :=
      map (fun metric =>
             (metric,
              calculate_bands
                (map (fun m => match metric_value metric m with
                               | Some v => as_float64 v
                               | None => Finite 0
                               end) metrics_list)))
          metric_names in
    let fwhm_arcsec_values := map m_fwhm_arcsec metrics_list in
    if existsb (fun v => match v with Some _ => true | None => false end)
               fwhm_arcsec_values
    then
      result ++
      [("fwhm_arcsec"%string,
        calculate_bands
          (map (fun v => match v with Some r => Finite r | None => NaN end)
               fwhm_arcsec_values))]
    else result.

Record BatchResult : Type := mkBatch {
  total_files : nat;
  results : list FileResult;
  statistics : list (string * MetricStats);
  workers_used : Z;
  imaging_params : option ImagingParams;
  folder : option string
}.

(** [[r['metrics'] for r in results if r.get('metrics')]] *)
Fixpoint valid_metrics (results : list FileResult) : list FrameMetrics :=
  match results with
  | [] => []
  | r :: rest =>
      match result_metrics r with
      | Some m => m :: valid_metrics rest
      | None => valid_metrics rest
      end
  end.

Definition analyze_files (libs : Libs) (self : SubframeAnalyzer)
           (files : list FileInfo) (progress_callback use_parallel : bool)
           (schedule : list nat) : result (BatchResult * list Progress) :=
  let total := length files in
  match files with
  | [] => Ok (mkBatch 0 [] [] 0 None None, [])
  | first :: _ =>
      imaging_params <- get_imaging_params (libs_os libs) (path first) ;;
      let image_scale := FitsReader.image_scale imaging_params in
      let workers := num_workers self in
      run <-
        (if use_parallel && (workers >? 1)%Z && (1 <? total)%nat
         then
           r <- _analyze_parallel libs self files total workers
                                  progress_callback image_scale schedule ;;
           Ok (r, workers)
         else
           Ok (_analyze_sequential libs self files total progress_callback
                                   image_scale, 1%Z)) ;;
      let results := fst (fst run) in
      let log := snd (fst run) in
      let workers := snd run in
      let statistics := calculate_all_metric_stats (valid_metrics results) in
      Ok (mkBatch total results statistics workers (Some imaging_params) None, log)
  end.

Definition analyze_folder (libs : Libs) (self : SubframeAnalyzer)
           (folder_path : string) (progress_callback use_parallel : bool)
           (schedule : list nat) : result (BatchResult * list Progress) :=
  files <- load_folder (libs_os libs) folder_path ;;
  run <- analyze_files libs self files progress_callback use_parallel schedule ;;
  let result := fst run in
  Ok (mkBatch (total_files result) (results result) (statistics result)
              (workers_used result) (imaging_params result) (Some folder_path),
      snd run).

(** The values [get_outliers] collects: the entry of the metrics dict, or
    [np.nan] for a result without metrics or without the key. *)
Definition outlier_values (results : list FileResult) (metric : string)
  : list (option pyfloat) :=
  map (fun r => match result_metrics r with
                | Some m => match metric_value metric m with
                            | Some v => v
                            | None => Some NaN
                            end
                | None => Some NaN
                end) results.

(** The loop of [get_outlier_indices] over the array [get_outliers]
    builds.  As soon as one value is [None] that array holds Python
    objects, and [np.isfinite(None)] raises [TypeError]. *)
Fixpoint outliers_from_objects (i : nat) (values : list (option pyfloat))
         (stats : MetricStats) (sigma_threshold : R) (outliers : list nat)
  : result (list nat) :=
  match values with
  | [] => Ok outliers
  | None :: _ =>
      Raise (mkExn TypeError
               "ufunc 'isfinite' not supported for the input types, and the inputs could not be safely coerced to any supported types according to the casting rule ''safe''")
  | Some val :: t =>
      outliers_from_objects (S i) t stats sigma_threshold
        (if isfinite val && is_outlier val stats sigma_threshold
         then outliers ++ [i] else outliers)
  end.

(** [get_outliers], with the call of [get_outlier_indices] on the array of
    collected values: [calculate_bands] casts it to float64, the loop
    reads its elements as they are. *)
Definition get_outliers (results : list FileResult) (metric : string)
           (sigma_threshold : R) : result (list nat) :=
  let values := outlier_values results metric in
  let stats := calculate_bands (map as_float64 values) in
  outliers_from_objects 0 values stats sigma_threshold [].

End Analyzer.
Import Analyzer.

(** The value of a metadata field as the specification words it: the first
    key of the ordered list that is present in the header with a value
    [float] accepts. *)
Fixpoint spec_first_parseable (os : OS) (keys : list string) (header : Header)
  : option R :=
  match keys with
  | [] => None
  | key :: rest =>
      match header_get key header with
      | Some v =>
          match py_float os v with
          | Ok r => Some r
          | Raise _ => spec_first_parseable os rest header
          end
      | None => spec_first_parseable os rest header
      end
  end.

(** The image scale as the specification words it: derived exactly when
    both inputs are present and the focal length is positive. *)
Definition spec_image_scale (pixel_size focal_length : option R) : option R :=
  match pixel_size, focal_length with
  | Some p, Some f => if Rltb 0 f then Some ((p / f) * 206.265) else None
  | _, _ => None
  end.

(** A header value the key loops can use: truthy and accepted by [float]. *)
Definition usable (os : OS) (v : hval) : option R :=
  if truthy v then
    match py_float os v with Ok r => Some r | Raise _ => None end
  else None.

(** The first key of the list that is present with a usable value. *)
Fixpoint first_usable (os : OS) (keys : list string) (header : Header)
  : option R :=
  match keys with
  | [] => None
  | key :: rest =>
      match header_get key header with
      | Some v =>
          match usable os v with
          | Some r => Some r
          | None => first_usable os rest header
          end
      | None => first_usable os rest header
      end
  end.

(** ** A small file system to run the code on *)

Module Demo.

Inductive entry : Type :=
| Dir (children : list string)
| FitsFile (hdul : list HDU)
| Garbage.

Definition Disk : Type := list (string * entry).

Fixpoint disk_get (p : string) (disk : Disk) : option entry :=
  match disk with
  | [] => None
  | (q, e) :: rest => if String.eqb q p then Some e else disk_get p rest
  end.

(** The text after the last '/'. *)
Fixpoint posix_name_from (s acc : string) : string :=
  match s with
  | EmptyString => acc
  | String c rest =>
      if Ascii.eqb c "/" then posix_name_from rest EmptyString
      else posix_name_from rest (acc ++ String c EmptyString)%string
  end.

Definition posix_name (p : string) : string := posix_name_from p EmptyString.

(** The text from the last '.' of a name on, when there is one. *)
Fixpoint posix_suffix_from (s : string) (acc : option string) : string :=
  match s with
  | EmptyString => match acc with Some x => x | None => EmptyString end
  | String c rest =>
      if Ascii.eqb c "."
      then posix_suffix_from rest (Some (String c EmptyString))
      else posix_suffix_from rest
             (match acc with
              | Some x => Some (x ++ String c EmptyString)%string
              | None => None
              end)
  end.

Definition posix_suffix (p : string) : string :=
  posix_suffix_from (posix_name p) None.

Definition ascii_lower (c : ascii) : ascii :=
  let n := nat_of_ascii c in
  if (65 <=? n)%nat && (n <=? 90)%nat then ascii_of_nat (n + 32) else c.

Fixpoint lower (s : string) : string :=
  match s with
  | EmptyString => EmptyString
  | String c rest => String (ascii_lower c) (lower rest)
  end.

(** [float] on the literals the examples use. *)
Definition demo_float (s : string) : option R :=
  if String.eqb s "0.0" then Some 0
  else if String.eqb s "3.76" then Some 3.76
  else None.

(** The operating system over a disk.  The pixels stored on the disks
    below are small integers, which float32 holds exactly, so the cast
    leaves a pixel as it is. *)
Definition disk_os (disk : Disk) : OS :=
  mkOS
    (fun p => match disk_get p disk with Some _ => true | None => false end)
    (fun p => match disk_get p disk with Some (Dir _) => true | _ => false end)
    (fun p => match disk_get p disk with Some (Dir c) => c | _ => [] end)
    posix_name
    posix_suffix
    (fun p => p)
    lower
    demo_float
    (fun p =>
       match disk_get p disk with
       | Some (FitsFile hdul) => Ok hdul
       | Some Garbage =>
           Raise (mkExn OSError "No SIMPLE card found, this file does not appear to be a valid FITS file")
       | Some (Dir _) => Raise (mkExn OSError "Is a directory")
       | None => Raise (mkExn FileNotFoundError "No such file or directory")
       end)
    (fun v => v).

(** A frame whose header gives a pixel size of zero under the first key. *)
Definition zero_pixel_header : Header :=
  [("XPIXSZ", HFloat 0); ("PIXSIZE", HFloat 3.76); ("FOCALLEN", HFloat 400)]%string.

Definition zero_pixel_disk : Disk :=
  [("zero.fits", FitsFile [mkHDU zero_pixel_header None])]%string.

(** Stand-ins for scipy on a strip of seven pixels holding three stars of
    flux 1, 5 and 3: no smoothing, and the labelling of the three peaks in
    scan order.  The solver never converges. *)
Definition strip : Image := [[1; 0; 5; 0; 3; 0; 0]].

Definition strip_labels : list (list nat) := [[1; 0; 2; 0; 3; 0; 0]%nat].

Definition strip_scipy : Scipy :=
  mkScipy (fun image _ => image)
          (fun image _ => image)
          (fun _ => (strip_labels, 3%nat))
          (fun _ _ _ _ _ _ _ =>
             Raise (mkExn RuntimeError "Optimal parameters not found")).

(** A detector that keeps at most two stars. *)
Definition two_star_detector : StarDetector := StarDetector_init 5 5 2 15.

(** The three stars of the strip. *)
Definition strip_star_1 : Candidate := mkStar 0 0 1 1.
Definition strip_star_2 : Candidate := mkStar 2 0 5 5.
Definition strip_star_3 : Candidate := mkStar 4 0 3 3.

(** A frame whose pixel size card holds the text "0.0". *)
Definition text_zero_header : Header :=
  [("XPIXSZ", HStr "0.0"); ("FOCALLEN", HFloat 400)]%string.

Definition text_zero_disk : Disk :=
  [("text.fits", FitsFile [mkHDU text_zero_header None])]%string.

(** A detector library that finds no star. *)
Definition quiet_photutils : Photutils :=
  mkPhotutils (fun _ => Raise (mkExn ValueError "image too small"))
              (fun _ _ _ => Ok None).

(** A detector library whose finder returns a table of three sources, of
    flux 1, 5 and 3 in the order of the table. *)
Definition bright_photutils : Photutils :=
  mkPhotutils (fun _ => Raise (mkExn ValueError "image too small"))
              (fun _ _ _ => Ok (Some [mkSource 0 0 1 1; mkSource 2 0 5 5;
                                      mkSource 4 0 3 3])).

(** Frames in the current directory: one without optical metadata, one
    with pixel size and focal length, and a file that is not a FITS file. *)
Definition plain_header : Header := [("SIMPLE", HBool true)]%string.

Definition scale_header : Header :=
  [("SIMPLE", HBool true); ("XPIXSZ", HFloat 3.76); ("FOCALLEN", HFloat 400)]%string.

Definition batch_disk : Disk :=
  [("plain.fits", FitsFile [mkHDU plain_header (Some (Arr2 strip))]);
   ("scaled.fits", FitsFile [mkHDU scale_header (Some (Arr2 strip))]);
   ("broken.fits", Garbage);
   (".", Dir ["plain.fits"; "scaled.fits"; "broken.fits"])]%string.

Definition batch_libs : Libs :=
  mkLibs (disk_os batch_disk) (Some quiet_photutils) strip_scipy 8.

Definition batch_analyzer : SubframeAnalyzer :=
  SubframeAnalyzer_init batch_libs 5 5 500 None.

Definition plain_file : FileInfo := mkFile "plain.fits" "plain.fits".
Definition scaled_file : FileInfo := mkFile "scaled.fits" "scaled.fits".
Definition broken_file : FileInfo := mkFile "broken.fits" "broken.fits".

End Demo.


(** ** Predicates on results *)

(** The three star counts of a result that carries metrics are ordered and
    capped: counted stars, fitted stars, detected stars, [max_stars]. *)
Definition counts_ordered (max_stars : Z) (r : FileResult) : Prop :=
  match r with
  | Analyzed _ _ metrics detected fitted =>
      (m_star_count metrics <= fitted)%nat /\ (fitted <= detected)%nat /\
      (Z.of_nat detected <= max_stars)%Z
  | Failed _ _ _ => True
  end.

(* ================================================================= *)
(** * Properties *)

Section NumpyFacts.

Lemma Rleb_true x y : Rleb x y = true <-> x <= y.
Proof. unfold Rleb. destruct (Rle_dec x y); split; intros; auto; discriminate. Qed.

Lemma Rleb_false x y : Rleb x y = false <-> y < x.
Proof.
  unfold Rleb. destruct (Rle_dec x y); split; intros; auto; try discriminate; lra.
Qed.

Lemma Rltb_true x y : Rltb x y = true <-> x < y.
Proof. unfold Rltb. destruct (Rlt_dec x y); split; intros; auto; discriminate. Qed.

Lemma Rltb_false x y : Rltb x y = false <-> y <= x.
Proof.
  unfold Rltb. destruct (Rlt_dec x y); split; intros; auto; try discriminate; lra.
Qed.

Lemma Reqb_true x y : Reqb x y = true <-> x = y.
Proof. unfold Reqb. destruct (Req_dec_T x y); split; intros; auto; discriminate. Qed.

Lemma Reqb_false x y : Reqb x y = false <-> x <> y.
Proof.
  unfold Reqb. destruct (Req_dec_T x y); split; intros; auto; try discriminate.
  contradiction.
Qed.

End NumpyFacts.

(** Decide the comparisons between closed reals left in the goal. *)
Ltac Rbool :=
  repeat match goal with
  | |- context [Reqb ?a ?b] =>
      first [ rewrite (proj2 (Reqb_true a b)) by lra
            | rewrite (proj2 (Reqb_false a b)) by lra ]
  | |- context [Rleb ?a ?b] =>
      first [ rewrite (proj2 (Rleb_true a b)) by lra
            | rewrite (proj2 (Rleb_false a b)) by lra ]
  | |- context [Rltb ?a ?b] =>
      first [ rewrite (proj2 (Rltb_true a b)) by lra
            | rewrite (proj2 (Rltb_false a b)) by lra ]
  end.

(** Run the two insertion sorts on closed lists. *)
Ltac Rsort :=
  repeat (cbn [np_sort insert sort_desc insert_desc star_flux src_flux]; Rbool).


(** ** Sorting and the median *)

Section SortFacts.

Lemma insert_perm x l : Permutation (insert x l) (x :: l).
Proof.
  induction l as [|y t IH]; simpl; auto.
  destruct (Rleb x y); auto.
  rewrite IH. apply perm_swap.
Qed.

Lemma np_sort_perm l : Permutation (np_sort l) l.
Proof.
  induction l as [|x t IH]; simpl; auto.
  rewrite insert_perm. auto.
Qed.

Lemma np_sort_length l : length (np_sort l) = length l.
Proof. apply Permutation_length, np_sort_perm. Qed.

Lemma insert_sorted x l :
  StronglySorted Rle l -> StronglySorted Rle (insert x l).
Proof.
  induction 1 as [|y t Ht IH Hy]; simpl.
  - repeat constructor.
  - destruct (Rleb x y) eqn:E.
    + apply Rleb_true in E. constructor.
      * constructor; assumption.
      * constructor; [assumption|].
        eapply Forall_impl; [|exact Hy]. intros; simpl in *; lra.
    + apply Rleb_false in E. constructor; [assumption|].
      eapply Permutation_Forall; [symmetry; apply insert_perm|].
      constructor; [lra | assumption].
Qed.

Lemma np_sort_sorted l : StronglySorted Rle (np_sort l).
Proof.
  induction l; simpl; [constructor | apply insert_sorted; assumption].
Qed.

(** Two sorted arrangements of the same values coincide. *)
Lemma sorted_perm_unique (l1 l2 : list R) :
  StronglySorted Rle l1 -> StronglySorted Rle l2 ->
  Permutation l1 l2 -> l1 = l2.
Proof.
  intros S1; revert l2.
  induction S1 as [|x t St IH Hx]; intros l2 S2 P.
  - apply Permutation_nil in P. now subst.
  - destruct l2 as [|y u].
    + apply Permutation_sym, Permutation_nil in P. discriminate.
    + inversion S2 as [|? ? Su Hy]; subst.
      assert (x = y) as ->.
      { assert (In x (y :: u)) as I1
          by (eapply Permutation_in; [exact P | left; reflexivity]).
        assert (In y (x :: t)) as I2
          by (eapply Permutation_in; [symmetry; exact P | left; reflexivity]).
        destruct I1 as [->|I1]; [reflexivity|].
        destruct I2 as [->|I2]; [reflexivity|].
        rewrite Forall_forall in Hx, Hy.
        apply Rle_antisym; auto. }
      f_equal. apply IH; [assumption|].
      eapply Permutation_cons_inv; exact P.
Qed.

Lemma np_sort_permutation a b : Permutation a b -> np_sort a = np_sort b.
Proof.
  intros P. apply sorted_perm_unique; try apply np_sort_sorted.
  rewrite !np_sort_perm. exact P.
Qed.

Lemma np_median_permutation a b : Permutation a b -> np_median a = np_median b.
Proof.
  intros P. unfold np_median.
  rewrite (np_sort_permutation a b P), (Permutation_length P). reflexivity.
Qed.

Lemma insert_repeat v n : insert v (repeat v n) = v :: repeat v n.
Proof.
  destruct n; simpl; [reflexivity|].
  assert (Rleb v v = true) as -> by (apply Rleb_true; lra). reflexivity.
Qed.

Lemma np_sort_repeat v n : np_sort (repeat v n) = repeat v n.
Proof.
  induction n; simpl; [reflexivity|]. rewrite IHn. apply insert_repeat.
Qed.

Lemma nth_repeat_lt v n i : (i < n)%nat -> nth i (repeat v n) 0 = v.
Proof.
  revert i; induction n; intros i H; [lia|].
  destruct i; simpl; [reflexivity | apply IHn; lia].
Qed.

Lemma np_median_repeat v n : np_median (repeat v (S n)) = v.
Proof.
  unfold np_median. rewrite np_sort_repeat, repeat_length.
  assert (S n / 2 < S n)%nat by (apply Nat.div_lt; lia).
  destruct (Nat.even (S n)).
  - rewrite !nth_repeat_lt by lia. lra.
  - apply nth_repeat_lt; assumption.
Qed.

(** The median of a non-empty array lies between two of its elements. *)
Lemma np_median_between (P : R -> Prop) (a : list R) :
  a <> [] ->
  (forall x y, P x -> P y -> P ((x + y) / 2)) ->
  Forall P a -> P (np_median a).
Proof.
  intros Hne Hmid Ha.
  assert (Hs : Forall P (np_sort a))
    by (eapply Permutation_Forall; [symmetry; apply np_sort_perm | exact Ha]).
  rewrite Forall_forall in Hs.
  assert (0 < length a)%nat by (destruct a; simpl; [congruence | lia]).
  assert (length a / 2 < length a)%nat by (apply Nat.div_lt; lia).
  unfold np_median. destruct (Nat.even (length a)).
  - apply Hmid; apply Hs, nth_In; rewrite np_sort_length; lia.
  - apply Hs, nth_In; rewrite np_sort_length; lia.
Qed.

End SortFacts.

(** ** statistics.py: bands, floor and outliers *)

Section StatisticsFacts.

Lemma existsb_isfinite_nil values :
  existsb isfinite values = false <-> finite_values values = [].
Proof.
  induction values as [|v t IH]; simpl; [tauto|].
  destruct v; simpl; try exact IH. split; discriminate.
Qed.

Lemma finite_values_permutation a b :
  Permutation a b -> Permutation (finite_values a) (finite_values b).
Proof.
  induction 1 as [|v a b P IH|v w a|a b c P1 IH1 P2 IH2]; simpl.
  - constructor.
  - destruct v; auto.
  - destruct v, w; auto. apply perm_swap.
  - etransitivity; eassumption.
Qed.

Lemma existsb_permutation {A} (f : A -> bool) a b :
  Permutation a b -> existsb f a = existsb f b.
Proof.
  induction 1; simpl; try congruence.
  destruct (f x), (f y); reflexivity.
Qed.

Lemma median_absolute_deviation_permutation a b :
  Permutation a b ->
  median_absolute_deviation a = median_absolute_deviation b.
Proof.
  intros P. unfold median_absolute_deviation.
  rewrite (Permutation_length P), (np_median_permutation a b P).
  destruct (length b =? 0)%nat; [reflexivity|].
  apply np_median_permutation, Permutation_map, P.
Qed.

Lemma finite_values_all_finite v values :
  Forall (eq (Finite v)) values ->
  finite_values values = repeat v (length values).
Proof.
  induction 1 as [|w t Hw Ht IH]; simpl; [reflexivity|].
  subst w. now rewrite IH.
Qed.

Lemma median_absolute_deviation_repeat v n :
  median_absolute_deviation (repeat v (S n)) = 0.
Proof.
  unfold median_absolute_deviation.
  rewrite repeat_length. simpl (S n =? 0)%nat. cbv iota.
  rewrite np_median_repeat.
  replace (map (fun x => Rabs (x - v)) (repeat v (S n))) with (repeat 0 (S n)).
  - apply np_median_repeat.
  - generalize (S n) as k. induction k; simpl; [reflexivity|].
    rewrite <- IHk. f_equal. rewrite Rminus_diag. symmetry. apply Rabs_R0.
Qed.

Lemma calculate_bands_identical v values :
  values <> [] -> Forall (eq (Finite v)) values ->
  calculate_bands values =
  mkStats v 0.001 0 (v - 0.001, v + 0.001) (v - 2 * 0.001, v + 2 * 0.001)
          (np_min (repeat v (length values))) (np_max (repeat v (length values))).
Proof.
  intros Hne Hall. unfold calculate_bands.
  rewrite (finite_values_all_finite v values Hall).
  destruct values as [|w t]; [congruence|].
  inversion Hall; subst. simpl length.
  simpl (S (length t) =? 0)%nat. cbv iota.
  simpl existsb. simpl negb. cbv iota.
  rewrite np_median_repeat, median_absolute_deviation_repeat.
  unfold Reqb. destruct (Req_dec_T (0 * MAD_SCALE_FACTOR) 0) as [_|N].
  - reflexivity.
  - exfalso. apply N. lra.
Qed.

Lemma outliers_from_none i values stats threshold :
  Forall (fun val => is_outlier val stats threshold = false) values ->
  outliers_from i values stats threshold = [].
Proof.
  intros H. revert i. induction H as [|val t Hv Ht IH]; intros i; simpl.
  - reflexivity.
  - rewrite Hv, andb_false_r. apply IH.
Qed.

(** C7: an empty batch, or a batch holding only NaN and infinities, gets the
    neutral statistics record: median, sigma and MAD are 0, both bands are
    (0, 0), min and max are 0.  [calculate_bands] is a total function: no
    branch of it can fail on such an input. *)
Theorem calculate_bands_empty_or_nonfinite (values : list pyfloat) :
  Forall (fun v => isfinite v = false) values ->
  calculate_bands values = _empty_result /\
  st_median (calculate_bands values) = 0 /\
  st_sigma (calculate_bands values) = 0 /\
  st_mad (calculate_bands values) = 0 /\
  st_band_1sigma (calculate_bands values) = (0, 0) /\
  st_band_2sigma (calculate_bands values) = (0, 0) /\
  st_min (calculate_bands values) = 0 /\
  st_max (calculate_bands values) = 0.
Proof.
  intros H.
  assert (E : calculate_bands values = _empty_result).
  { unfold calculate_bands.
    destruct (length values =? 0)%nat; [reflexivity|].
    assert (existsb isfinite values = false) as ->.
    { induction H as [|v t Hv Ht IH]; simpl; [reflexivity|]. now rewrite Hv. }
    reflexivity. }
  rewrite E. repeat split; reflexivity.
Qed.

Lemma calculate_bands_empty_or_nonfinite_witness :
  calculate_bands [] = _empty_result /\
  calculate_bands [NaN; PosInf; NegInf; NaN] = _empty_result.
Proof.
  split.
  - apply (calculate_bands_empty_or_nonfinite []). constructor.
  - apply (calculate_bands_empty_or_nonfinite [NaN; PosInf; NegInf; NaN]).
    repeat constructor.
Defined.

(** C6: on a non-empty batch of identical finite values the sigma reported
    by [calculate_bands] is the floor 0.001 (not 0), and with these
    statistics [is_outlier] rejects every value of the batch at threshold
    2.0, so [get_outlier_indices] returns no index. *)
Theorem identical_batch_sigma_floor_no_outlier (v : R) (values : list pyfloat) :
  values <> [] ->
  Forall (eq (Finite v)) values ->
  st_sigma (calculate_bands values) = 0.001 /\
  st_sigma (calculate_bands values) <> 0 /\
  Forall (fun val => is_outlier val (calculate_bands values) 2.0 = false) values /\
  get_outlier_indices values 2.0 = [].
Proof.
  intros Hne Hall.
  assert (Hout : Forall (fun val => is_outlier val (calculate_bands values) 2.0 = false)
                        values).
  { rewrite (calculate_bands_identical v values Hne Hall).
    eapply Forall_impl; [|exact Hall]. intros val <-.
    unfold is_outlier, Reqb, Rltb; simpl.
    destruct (Req_dec_T 0.001 0); [reflexivity|].
    destruct (Rlt_dec _ _) as [L|]; [|reflexivity].
    rewrite Rminus_diag, Rabs_R0 in L. lra. }
  rewrite (calculate_bands_identical v values Hne Hall) at 1 2.
  simpl. repeat split; try lra; [exact Hout|].
  unfold get_outlier_indices. apply outliers_from_none, Hout.
Qed.

Lemma identical_batch_sigma_floor_no_outlier_witness :
  st_sigma (calculate_bands [Finite 4; Finite 4; Finite 4]) = 0.001 /\
  get_outlier_indices [Finite 4; Finite 4; Finite 4] 2.0 = [].
Proof.
  destruct (identical_batch_sigma_floor_no_outlier 4 [Finite 4; Finite 4; Finite 4])
    as (H1 & _ & _ & H4).
  - discriminate.
  - repeat constructor.
  - split; [exact H1 | exact H4].
Defined.

(** C9: the median, the MAD and the sigma returned by [calculate_bands] do
    not depend on the order of the input values. *)
Theorem calculate_bands_permutation_invariant (values values' : list pyfloat) :
  Permutation values values' ->
  st_median (calculate_bands values) = st_median (calculate_bands values') /\
  st_mad (calculate_bands values) = st_mad (calculate_bands values') /\
  st_sigma (calculate_bands values) = st_sigma (calculate_bands values').
Proof.
  intros P. unfold calculate_bands.
  rewrite (Permutation_length P), (existsb_permutation isfinite _ _ P).
  destruct (length values' =? 0)%nat; [repeat split|].
  destruct (negb (existsb isfinite values')); [repeat split|].
  pose proof (finite_values_permutation _ _ P) as PF.
  simpl.
  rewrite (np_median_permutation _ _ PF),
          (median_absolute_deviation_permutation _ _ PF).
  repeat split.
Qed.

Lemma calculate_bands_permutation_invariant_witness :
  st_median (calculate_bands [Finite 1; NaN; Finite 3; Finite 2]) =
  st_median (calculate_bands [Finite 3; Finite 2; NaN; Finite 1]).
Proof.
  apply (calculate_bands_permutation_invariant
           [Finite 1; NaN; Finite 3; Finite 2]
           [Finite 3; Finite 2; NaN; Finite 1]).
  apply Permutation_cons_app with (l1 := [Finite 3; Finite 2; NaN]) (l2 := []).
  simpl.
  apply Permutation_cons_app with (l1 := [Finite 3; Finite 2]) (l2 := []).
  simpl. apply Permutation_refl.
Defined.

End StatisticsFacts.

(** ** metrics.py: eccentricity, FWHM and the star count *)

Section MetricsFacts.

Lemma star_eccentricity_positive star :
  0 < Rmax (fwhm_x star) (fwhm_y star) ->
  star_eccentricity star = Some (spec_eccentricity star).
Proof.
  intros H. unfold star_eccentricity, spec_eccentricity.
  apply Rltb_true in H. rewrite H. reflexivity.
Qed.

Lemma star_eccentricity_nonpositive star :
  Rmax (fwhm_x star) (fwhm_y star) <= 0 -> star_eccentricity star = None.
Proof.
  intros H. unfold star_eccentricity. apply Rltb_false in H. now rewrite H.
Qed.

Lemma spec_eccentricity_range star :
  0 < fwhm_x star -> 0 < fwhm_y star -> 0 <= spec_eccentricity star < 1.
Proof.
  intros Hx Hy. unfold spec_eccentricity.
  set (a := Rmax (fwhm_x star) (fwhm_y star)).
  set (b := Rmin (fwhm_x star) (fwhm_y star)).
  assert (Hb : 0 < b) by (unfold b; apply Rmin_glb_lt; assumption).
  assert (Hba : b <= a).
  { unfold a, b. eapply Rle_trans; [apply Rmin_l | apply Rmax_l]. }
  assert (Ha : 0 < a) by lra.
  assert (Hr : 0 < b / a <= 1).
  { split; [apply Rdiv_lt_0_compat; assumption|].
    apply (Rmult_le_reg_r a); [assumption|].
    unfold Rdiv. rewrite Rmult_assoc, Rinv_l by lra. lra. }
  assert (Hsq : 0 < (b / a) ^ 2 <= 1) by (simpl; nra).
  rewrite Rmin_left by lra.
  split; [apply sqrt_pos|].
  rewrite <- sqrt_1 at 2. apply sqrt_lt_1_alt. lra.
Qed.

Lemma spec_eccentricity_round star :
  0 < fwhm_x star -> fwhm_x star = fwhm_y star -> spec_eccentricity star = 0.
Proof.
  intros Hx E. unfold spec_eccentricity. rewrite <- E.
  rewrite (Rmin_left (fwhm_x star) (fwhm_x star)),
          (Rmax_left (fwhm_x star) (fwhm_x star)) by lra.
  replace (fwhm_x star / fwhm_x star) with 1 by (field; lra).
  rewrite Rmin_left by (simpl; lra).
  replace (1 - 1 ^ 2) with 0 by (simpl; lra). apply sqrt_0.
Qed.

(** Widths that passed the sanity check of the fitter (between 0.5 px and
    the box size) keep the eccentricity away from 1 by a fixed margin. *)
Lemma spec_eccentricity_margin star box :
  0.5 <= fwhm_x star <= box -> 0.5 <= fwhm_y star <= box ->
  spec_eccentricity star <= sqrt (1 - (0.5 / box) ^ 2).
Proof.
  intros Hx Hy. unfold spec_eccentricity.
  set (a := Rmax (fwhm_x star) (fwhm_y star)).
  set (b := Rmin (fwhm_x star) (fwhm_y star)).
  assert (Hb : 0.5 <= b) by (unfold b; apply Rmin_glb; lra).
  assert (Ha : a <= box) by (unfold a; apply Rmax_lub; lra).
  assert (Hba : b <= a).
  { unfold a, b. eapply Rle_trans; [apply Rmin_l | apply Rmax_l]. }
  assert (Hr : 0.5 / box <= b / a <= 1).
  { split.
    - apply (Rmult_le_reg_r (a * box)); [nra|].
      replace (0.5 / box * (a * box)) with (0.5 * a) by (field; lra).
      replace (b / a * (a * box)) with (b * box) by (field; lra).
      nra.
    - apply (Rmult_le_reg_r a); [lra|].
      replace (b / a * a) with b by (field; lra). lra. }
  assert (Hlow : 0 < 0.5 / box) by (apply Rdiv_lt_0_compat; lra).
  assert (Hsq : (0.5 / box) ^ 2 <= (b / a) ^ 2 <= 1) by (simpl; nra).
  rewrite Rmin_left by lra.
  apply sqrt_le_1_alt. lra.
Qed.

(** Whatever the widths, a star with equal widths never contributes anything
    but 0 to the list the median is taken of. *)
Lemma star_eccentricity_round star e :
  fwhm_x star = fwhm_y star -> star_eccentricity star = Some e -> e = 0.
Proof.
  intros E H. unfold star_eccentricity in H.
  destruct (Rltb 0 (Rmax (fwhm_x star) (fwhm_y star))) eqn:Ha; [|discriminate].
  apply Rltb_true in Ha. rewrite <- E in Ha. rewrite Rmax_left in Ha by lra.
  injection H as <-. apply (spec_eccentricity_round star Ha E).
Qed.

Lemma ecc_values_spec psf_results :
  Forall (fun s => get_fit_success s = true -> 0 < fwhm_x s /\ 0 < fwhm_y s)
         psf_results ->
  ecc_values psf_results =
  map spec_eccentricity (filter get_fit_success psf_results).
Proof.
  induction 1 as [|s t Hs Ht IH]; simpl; [reflexivity|].
  destruct (get_fit_success s) eqn:E; [|exact IH].
  destruct (Hs eq_refl) as [Hx Hy].
  rewrite star_eccentricity_positive.
  - simpl. now rewrite IH.
  - eapply Rlt_le_trans; [exact Hx | apply Rmax_l].
Qed.

Lemma fwhm_values_spec psf_results :
  fwhm_values psf_results = map spec_fwhm (filter get_fit_success psf_results).
Proof.
  induction psf_results as [|s t IH]; simpl; [reflexivity|].
  destruct (get_fit_success s); simpl; now rewrite IH.
Qed.

Lemma is_empty_map {A B} (f : A -> B) l : is_empty (map f l) = is_empty l.
Proof. destruct l; reflexivity. Qed.

Lemma filter_nil_of_nil {A} (f : A -> bool) l :
  is_empty l = true -> is_empty (filter f l) = true.
Proof. destruct l; simpl; [reflexivity | discriminate]. Qed.

Lemma calculate_eccentricity_median psf_results :
  Forall (fun s => get_fit_success s = true -> 0 < fwhm_x s /\ 0 < fwhm_y s)
         psf_results ->
  calculate_eccentricity psf_results =
  median_or_zero (map spec_eccentricity (filter get_fit_success psf_results)).
Proof.
  intros H. unfold calculate_eccentricity, median_or_zero.
  rewrite (ecc_values_spec _ H).
  destruct psf_results; reflexivity.
Qed.

Lemma median_or_zero_range values :
  Forall (fun e => 0 <= e < 1) values -> 0 <= median_or_zero values < 1.
Proof.
  intros H. unfold median_or_zero.
  destruct values as [|e t] eqn:E; simpl is_empty; cbv iota; [lra|].
  apply (np_median_between (fun e => 0 <= e < 1)); [discriminate | | exact H].
  intros; lra.
Qed.

Lemma median_or_zero_all_zero values :
  Forall (fun e => e = 0) values -> median_or_zero values = 0.
Proof.
  intros H. unfold median_or_zero.
  destruct values as [|e t] eqn:E; simpl is_empty; cbv iota; [reflexivity|].
  apply (np_median_between (fun e => e = 0)); [discriminate | | exact H].
  intros; lra.
Qed.

Lemma ecc_values_no_success psf_results :
  filter get_fit_success psf_results = [] -> ecc_values psf_results = [].
Proof.
  induction psf_results as [|s t IH]; simpl; [reflexivity|].
  destruct (get_fit_success s); [discriminate | exact IH].
Qed.

Lemma ecc_values_round psf_results :
  Forall (fun s => fwhm_x s = fwhm_y s) (filter get_fit_success psf_results) ->
  Forall (fun e => e = 0) (ecc_values psf_results).
Proof.
  induction psf_results as [|s t IH]; simpl; intros H; [constructor|].
  destruct (get_fit_success s); [|exact (IH H)].
  inversion H as [|? ? Hs Ht]; subst.
  destruct (star_eccentricity s) as [e|] eqn:E; [|exact (IH Ht)].
  constructor; [exact (star_eccentricity_round s e Hs E) | exact (IH Ht)].
Qed.

Lemma Forall_filter_guard {A} (f : A -> bool) (P : A -> Prop) l :
  Forall P (filter f l) -> Forall (fun a => f a = true -> P a) l.
Proof.
  induction l as [|a t IH]; simpl; intros H; [constructor|].
  destruct (f a) eqn:E.
  - inversion H as [|? ? Pa Pt]; subst.
    constructor; [intros _; exact Pa | exact (IH Pt)].
  - constructor; [intros; congruence | exact (IH H)].
Qed.

Lemma star_eccentricity_unit star e :
  star_eccentricity star = Some e -> 0 <= e <= 1.
Proof.
  unfold star_eccentricity.
  destruct (Rltb 0 (Rmax (fwhm_x star) (fwhm_y star))); [|discriminate].
  intros [= <-]. split; [apply sqrt_pos|].
  apply Rle_trans with (sqrt 1); [|rewrite sqrt_1; lra].
  apply sqrt_le_1_alt. cbv zeta.
  match goal with
  | |- 1 - Rmin ?q 1 <= 1 =>
      assert (0 <= q) by (first [apply pow2_ge_0 | nra]);
      assert (0 <= Rmin q 1) by (apply Rmin_glb; lra)
  end.
  lra.
Qed.

Lemma ecc_values_unit psf_results :
  Forall (fun e => 0 <= e <= 1) (ecc_values psf_results).
Proof.
  induction psf_results as [|s t IH]; simpl; [constructor|].
  destruct (get_fit_success s); [|exact IH].
  destruct (star_eccentricity s) as [e|] eqn:E; [|exact IH].
  constructor; [exact (star_eccentricity_unit s e E) | exact IH].
Qed.

(** The flag as the code reads it is the flag of the record: true unless
    the key is there with the value false. *)
Lemma get_fit_success_flag star : get_fit_success star = flag_not_false star.
Proof.
  unfold get_fit_success, flag_not_false.
  destruct (fit_success star) as [[|]|]; reflexivity.
Qed.

Lemma filter_get_fit_success psf_results :
  filter get_fit_success psf_results = filter flag_not_false psf_results.
Proof.
  apply filter_ext. intros s. apply get_fit_success_flag.
Qed.

(** The list the median is taken of: the formula of the specification on
    the entries whose flag is not false and whose larger width is
    positive. *)
Lemma ecc_values_counted psf_results :
  ecc_values psf_results =
  map spec_eccentricity (filter counts_for_eccentricity psf_results).
Proof.
  induction psf_results as [|s t IH]; simpl; [reflexivity|].
  unfold counts_for_eccentricity at 1. rewrite <- get_fit_success_flag.
  destruct (get_fit_success s); cbn [andb]; [|exact IH].
  unfold star_eccentricity.
  destruct (Rltb 0 (Rmax (fwhm_x s) (fwhm_y s))); cbn [map]; now rewrite IH.
Qed.

Lemma counted_spec_eccentricity_unit s :
  counts_for_eccentricity s = true -> 0 <= spec_eccentricity s <= 1.
Proof.
  unfold counts_for_eccentricity. intros H.
  apply andb_prop in H. destruct H as [_ H].
  apply (star_eccentricity_unit s). unfold star_eccentricity. now rewrite H.
Qed.

(** C5: for every list, [calculate_eccentricity] is the median of
    sqrt(1 - min((min/max)^2, 1)) over the entries whose fit_success is
    true or absent and whose larger width is positive, 0.0 when there is
    no such entry, in particular when no entry has its flag true or
    absent.  Every value the median is taken of lies in [0, 1] and is
    exactly 0 when fwhm_x = fwhm_y; the metric lies in [0, 1], and is
    exactly 0 when every entry whose flag is not false has equal
    widths. *)
Theorem calculate_eccentricity_correct (psf_results : list PSFResult) :
  let counted := filter counts_for_eccentricity psf_results in
  calculate_eccentricity psf_results =
    median_or_zero (map spec_eccentricity counted) /\
  (counted = [] -> calculate_eccentricity psf_results = 0) /\
  (filter flag_not_false psf_results = [] ->
   calculate_eccentricity psf_results = 0) /\
  (forall s, In s counted -> 0 <= spec_eccentricity s <= 1) /\
  (forall s, In s counted -> fwhm_x s = fwhm_y s -> spec_eccentricity s = 0) /\
  0 <= calculate_eccentricity psf_results <= 1 /\
  (Forall (fun s => fwhm_x s = fwhm_y s) (filter flag_not_false psf_results) ->
   calculate_eccentricity psf_results = 0).
Proof.
  intros counted.
  assert (Hmed : calculate_eccentricity psf_results =
                 median_or_zero (map spec_eccentricity counted)).
  { unfold calculate_eccentricity, median_or_zero.
    rewrite ecc_values_counted. fold counted.
    destruct psf_results as [|s t]; [reflexivity|]. reflexivity. }
  split; [exact Hmed|].
  split; [intros E; rewrite Hmed, E; reflexivity|].
  split.
  { intros E. unfold calculate_eccentricity.
    rewrite <- filter_get_fit_success in E.
    rewrite (ecc_values_no_success _ E). destruct psf_results; reflexivity. }
  split.
  { intros s Hs. apply filter_In in Hs.
    apply counted_spec_eccentricity_unit, Hs. }
  split.
  { intros s Hs E. apply filter_In in Hs. destruct Hs as [_ Hs].
    unfold counts_for_eccentricity in Hs. apply andb_prop in Hs.
    destruct Hs as [_ Ha]. apply Rltb_true in Ha.
    apply spec_eccentricity_round; [|exact E].
    rewrite <- E in Ha. rewrite Rmax_left in Ha by lra. exact Ha. }
  split.
  { unfold calculate_eccentricity.
    destruct (is_empty psf_results); [lra|].
    destruct (ecc_values psf_results) as [|e t] eqn:E; cbn [is_empty]; [lra|].
    apply (np_median_between (fun v => 0 <= v <= 1)); [discriminate | |].
    - intros; lra.
    - rewrite <- E. apply ecc_values_unit. }
  intros Hround. unfold calculate_eccentricity.
  destruct (is_empty psf_results); [reflexivity|].
  apply median_or_zero_all_zero, ecc_values_round.
  rewrite filter_get_fit_success. exact Hround.
Qed.

Lemma star_eccentricity_3_5 px py a f :
  star_eccentricity (mkPSF px py 3 5 a f) = Some (4 / 5).
Proof.
  unfold star_eccentricity. cbn [fwhm_x fwhm_y].
  rewrite (Rmax_right 3 5), (Rmin_left 3 5) by lra.
  assert (Rltb 0 5 = true) as -> by (apply Rltb_true; lra).
  rewrite Rmin_left by (simpl; lra).
  replace (1 - (3 / 5) ^ 2) with (4 / 5 * (4 / 5)) by (simpl; lra).
  rewrite sqrt_square by lra. reflexivity.
Qed.

Lemma np_median_1 v : np_median [v] = v.
Proof. reflexivity. Qed.

Lemma np_median_2 u v : u <= v -> np_median [u; v] = (u + v) / 2.
Proof.
  intros H. unfold np_median. cbn [length Nat.even np_sort insert].
  assert (Rleb u v = true) as -> by (apply Rleb_true; exact H).
  reflexivity.
Qed.

(** A list with an entry whose flag is absent, an entry the code skips
    for its widths, and a failed entry: the median is taken of the one
    entry that counts. *)
Lemma calculate_eccentricity_correct_witness :
  calculate_eccentricity
    [mkPSF 10 12 3 5 (Some 100) None;
     mkPSF 20 22 (-2) (-1) None (Some true);
     mkPSF 30 32 5 5 (Some 7) (Some false)] =
  median_or_zero [spec_eccentricity (mkPSF 10 12 3 5 (Some 100) None)].
Proof.
  destruct (calculate_eccentricity_correct
              [mkPSF 10 12 3 5 (Some 100) None;
               mkPSF 20 22 (-2) (-1) None (Some true);
               mkPSF 30 32 5 5 (Some 7) (Some false)]) as [H _].
  rewrite H. unfold counts_for_eccentricity, flag_not_false.
  cbn [filter fit_success fwhm_x fwhm_y andb].
  rewrite (Rmax_right 3 5), (Rmax_right (-2) (-1)) by lra.
  assert (Rltb 0 5 = true) as -> by (apply Rltb_true; lra).
  assert (Rltb 0 (-1) = false) as -> by (apply Rltb_false; lra).
  reflexivity.
Defined.

(** C5, as stated, fails on a list with a successful entry whose widths
    are not positive.  Both entries below have fit_success true.  The
    formula of the claim is defined on the first (min / max = 2, the
    square is clamped to 1, the value is 0), so the claim takes the median
    of 0 and 4/5; the code skips the entry at its test [a > 0] and returns
    4/5. *)
Lemma calculate_eccentricity_skips_nonpositive_widths :
  let psf_results :=
    [mkPSF 10 12 (-2) (-1) (Some 100) (Some true);
     mkPSF 20 22 3 5 (Some 50) (Some true)] in
  calculate_eccentricity psf_results = 4 / 5 /\
  spec_calculate_eccentricity psf_results = 2 / 5 /\
  calculate_eccentricity psf_results <> spec_calculate_eccentricity psf_results.
Proof.
  intros psf_results.
  assert (Hcode : calculate_eccentricity psf_results = 4 / 5).
  { unfold psf_results, calculate_eccentricity.
    cbn [is_empty ecc_values get_fit_success fit_success].
    rewrite star_eccentricity_3_5.
    unfold star_eccentricity. cbn [fwhm_x fwhm_y].
    rewrite (Rmax_right (-2) (-1)) by lra.
    assert (Rltb 0 (-1) = false) as -> by (apply Rltb_false; lra).
    cbn [is_empty]. apply np_median_1. }
  assert (Hspec : spec_calculate_eccentricity psf_results = 2 / 5).
  { unfold psf_results, spec_calculate_eccentricity, median_or_zero.
    cbn [filter spec_successful fit_success map is_empty].
    assert (E1 : spec_eccentricity (mkPSF 10 12 (-2) (-1) (Some 100) (Some true)) = 0).
    { unfold spec_eccentricity. cbn [fwhm_x fwhm_y].
      rewrite (Rmax_right (-2) (-1)), (Rmin_left (-2) (-1)) by lra.
      rewrite Rmin_right by (simpl; lra).
      replace (1 - 1) with 0 by lra. apply sqrt_0. }
    assert (E2 : spec_eccentricity (mkPSF 20 22 3 5 (Some 50) (Some true)) = 4 / 5).
    { pose proof (star_eccentricity_3_5 20 22 (Some 50) (Some true)) as H.
      unfold star_eccentricity in H. cbn [fwhm_x fwhm_y] in H.
      rewrite (Rmax_right 3 5) in H by lra.
      assert (Rltb 0 5 = true) as Hb by (apply Rltb_true; lra).
      rewrite Hb in H. injection H as H.
      unfold spec_eccentricity. cbn [fwhm_x fwhm_y].
      rewrite (Rmax_right 3 5) by lra. exact H. }
    rewrite E1, E2, np_median_2 by lra. lra. }
  split; [exact Hcode|]. split; [exact Hspec|].
  rewrite Hcode, Hspec. lra.
Qed.

(** The half-open range of the claim holds of the real numbers only.  On
    binary64 floats, with the positive widths 2^-30 and 1, the squared
    ratio 2^-60 is lost in [1 - ratio_sq] and the star's eccentricity is
    exactly 1.0. *)
Lemma star_eccentricity_binary64_reaches_one :
  Binary64.star_eccentricity Binary64.narrow PrimFloat.one = Some PrimFloat.one.
Proof. vm_compute. reflexivity. Qed.

Lemma filter_all_true {A} (f : A -> bool) l :
  Forall (fun a => f a = true) l -> filter f l = l.
Proof.
  induction 1 as [|a t Ha Ht IH]; simpl; [reflexivity|]. now rewrite Ha, IH.
Qed.

Lemma calculate_fwhm_median psf_results :
  calculate_fwhm psf_results =
  median_or_zero (map spec_fwhm (filter get_fit_success psf_results)).
Proof.
  unfold calculate_fwhm, median_or_zero. rewrite fwhm_values_spec.
  destruct psf_results; reflexivity.
Qed.

Lemma snr_amplitudes_spec psf_results :
  snr_amplitudes psf_results =
  filter (Rltb 0) (map get_amplitude (filter get_fit_success psf_results)).
Proof.
  induction psf_results as [|s t IH]; simpl; [reflexivity|].
  destruct (get_fit_success s); simpl; [|exact IH].
  destruct (Rltb 0 (get_amplitude s)); now rewrite IH.
Qed.

Lemma calculate_snr_amplitudes image psf_results :
  calculate_snr image psf_results =
  snr_of_amplitudes image (snr_amplitudes psf_results).
Proof.
  unfold calculate_snr, snr_of_amplitudes.
  destruct psf_results; reflexivity.
Qed.

Lemma with_flag_true_fwhm_values psf_results :
  Forall (fun s => get_fit_success s = true) psf_results ->
  fwhm_values (map with_flag_true psf_results) = fwhm_values psf_results.
Proof.
  induction 1 as [|s t Hs Ht IH]; simpl; [reflexivity|].
  now rewrite Hs, IH.
Qed.

Lemma with_flag_true_ecc_values psf_results :
  Forall (fun s => get_fit_success s = true) psf_results ->
  ecc_values (map with_flag_true psf_results) = ecc_values psf_results.
Proof.
  induction 1 as [|s t Hs Ht IH]; simpl; [reflexivity|].
  now rewrite Hs, IH.
Qed.

Lemma with_flag_true_snr_amplitudes psf_results :
  Forall (fun s => get_fit_success s = true) psf_results ->
  snr_amplitudes (map with_flag_true psf_results) = snr_amplitudes psf_results.
Proof.
  induction 1 as [|s t Hs Ht IH]; simpl; [reflexivity|].
  rewrite Hs, IH. reflexivity.
Qed.

Lemma with_flag_true_filter psf_results :
  Forall (fun s => get_fit_success s = true) psf_results ->
  length (filter get_fit_success (map with_flag_true psf_results)) =
  length (filter get_fit_success psf_results).
Proof.
  induction 1 as [|s t Hs Ht IH]; simpl; [reflexivity|].
  rewrite Hs. simpl. now rewrite IH.
Qed.

(** C10: an entry without the 'fit_success' key reads as a successful fit in
    every aggregation.  On a list of such entries with positive widths the
    star count is the length of the list, the FWHM and eccentricity are the
    medians over all the entries, and the SNR is the mean of the positive
    amplitudes of all the entries over the noise estimate (0.0 when there
    is no positive amplitude or no noise).  Writing the flag true into
    every entry changes no metric of the frame. *)
Theorem flagless_entries_count_as_successful (psf_results : list PSFResult) :
  Forall (fun s => fit_success s = None /\ 0 < fwhm_x s /\ 0 < fwhm_y s)
         psf_results ->
  Forall (fun s => get_fit_success s = true) psf_results /\
  calculate_star_count psf_results = length psf_results /\
  calculate_fwhm psf_results = median_or_zero (map spec_fwhm psf_results) /\
  calculate_eccentricity psf_results =
    median_or_zero (map spec_eccentricity psf_results) /\
  snr_amplitudes psf_results =
    filter (Rltb 0) (map get_amplitude psf_results) /\
  (forall image,
     calculate_snr image psf_results =
     snr_of_amplitudes image (filter (Rltb 0) (map get_amplitude psf_results))) /\
  (forall image image_scale,
     calculate_all image psf_results image_scale =
     calculate_all image (map with_flag_true psf_results) image_scale).
Proof.
  intros H.
  assert (Hok : Forall (fun s => get_fit_success s = true) psf_results).
  { eapply Forall_impl; [|exact H]. intros s (E & _).
    unfold get_fit_success. now rewrite E. }
  assert (Hpos : Forall (fun s => get_fit_success s = true ->
                                  0 < fwhm_x s /\ 0 < fwhm_y s) psf_results).
  { eapply Forall_impl; [|exact H]. intros s (_ & Hx & Hy) _. now split. }
  assert (Hamp : snr_amplitudes psf_results =
                 filter (Rltb 0) (map get_amplitude psf_results)).
  { now rewrite snr_amplitudes_spec, (filter_all_true _ _ Hok). }
  split; [exact Hok|].
  split.
  { unfold calculate_star_count. rewrite (filter_all_true _ _ Hok).
    destruct psf_results; reflexivity. }
  split.
  { now rewrite calculate_fwhm_median, (filter_all_true _ _ Hok). }
  split.
  { now rewrite (calculate_eccentricity_median _ Hpos), (filter_all_true _ _ Hok). }
  split; [exact Hamp|].
  split.
  { intros image. now rewrite calculate_snr_amplitudes, Hamp. }
  intros image image_scale.
  assert (Hf : calculate_fwhm (map with_flag_true psf_results) =
               calculate_fwhm psf_results).
  { unfold calculate_fwhm. rewrite (with_flag_true_fwhm_values _ Hok).
    destruct psf_results; reflexivity. }
  assert (He : calculate_eccentricity (map with_flag_true psf_results) =
               calculate_eccentricity psf_results).
  { unfold calculate_eccentricity. rewrite (with_flag_true_ecc_values _ Hok).
    destruct psf_results; reflexivity. }
  assert (Hs : calculate_snr image (map with_flag_true psf_results) =
               calculate_snr image psf_results).
  { rewrite !calculate_snr_amplitudes.
    now rewrite (with_flag_true_snr_amplitudes _ Hok). }
  assert (Hc : calculate_star_count (map with_flag_true psf_results) =
               calculate_star_count psf_results).
  { unfold calculate_star_count. rewrite (with_flag_true_filter _ Hok).
    destruct psf_results; reflexivity. }
  unfold calculate_all. rewrite Hf, He, Hs, Hc. reflexivity.
Qed.

Lemma flagless_entries_count_as_successful_witness :
  calculate_star_count
    [mkPSF 10 12 3 5 (Some 100) None; mkPSF 20 22 4 4 None None] = 2%nat.
Proof.
  apply (flagless_entries_count_as_successful
           [mkPSF 10 12 3 5 (Some 100) None; mkPSF 20 22 4 4 None None]).
  repeat constructor; simpl; lra.
Defined.

End MetricsFacts.

(** ** fits_reader.py: imaging parameters *)

Section FitsReaderFacts.

(** [float] raises nothing but [ValueError] and [TypeError]. *)
Lemma py_float_raises os v e :
  py_float os v = Raise e ->
  isinstance e ValueError || isinstance e TypeError = true.
Proof.
  destruct v; simpl; try discriminate.
  - destruct (float_of_str os s); [discriminate|]. now intros [= <-].
  - now intros [= <-].
Qed.

Lemma first_float_usable os keys header :
  first_float os keys header = Ok (first_usable os keys header).
Proof.
  induction keys as [|key rest IH]; simpl; [reflexivity|].
  destruct (header_get key header) as [v|]; [|exact IH].
  unfold usable. destruct (truthy v); [|exact IH].
  destruct (py_float os v) as [r|e] eqn:E; [reflexivity|].
  now rewrite (py_float_raises os v e E).
Qed.

(** The image scale the code derives from the two fields it found. *)
Lemma get_imaging_params_eq os filepath header :
  get_header os filepath = Ok header ->
  get_imaging_params os filepath =
  Ok (let pixel_size := first_usable os pixel_size_keys header in
      let focal_length := first_usable os focal_length_keys header in
      mkParams pixel_size focal_length
               (first_usable os aperture_keys header)
               (match pixel_size, focal_length with
                | Some p, Some f =>
                    if truthy_float pixel_size && truthy_float focal_length
                       && Rltb 0 f
                    then Some ((p / f) * 206.265) else None
                | _, _ => None
                end)).
Proof.
  intros H. unfold get_imaging_params. rewrite H. cbn [bind].
  repeat (rewrite first_float_usable; cbn [bind]). reflexivity.
Qed.

Lemma first_usable_none os keys header :
  (forall key v, In key keys -> header_get key header = Some v ->
                 usable os v = None) ->
  first_usable os keys header = None.
Proof.
  induction keys as [|key rest IH]; intros H; simpl; [reflexivity|].
  destruct (header_get key header) as [v|] eqn:E.
  - rewrite (H key v (or_introl eq_refl) E). apply IH.
    intros k w Hk. apply H. now right.
  - apply IH. intros k w Hk. apply H. now right.
Qed.

(** C4, as amended: whenever the header can be read, [get_imaging_params]
    returns without raising; each of pixel size, focal length and aperture
    is the first value of its ordered key list that is present, truthy
    (neither zero nor empty) and accepted by [float]; the image scale is
    (pixel_size / focal_length) * 206.265 exactly when both are non-null,
    the pixel size is not zero and the focal length is positive, and null
    otherwise; when no listed key carries a usable value all four fields
    are null. *)
Theorem get_imaging_params_correct (os : OS) (filepath : string) (header : Header) :
  get_header os filepath = Ok header ->
  exists params,
    get_imaging_params os filepath = Ok params /\
    pixel_size_um params = first_usable os pixel_size_keys header /\
    focal_length_mm params = first_usable os focal_length_keys header /\
    aperture_mm params = first_usable os aperture_keys header /\
    (forall p f,
        pixel_size_um params = Some p -> focal_length_mm params = Some f ->
        p <> 0 -> 0 < f ->
        image_scale params = Some ((p / f) * 206.265)) /\
    (forall s,
        image_scale params = Some s ->
        exists p f,
          pixel_size_um params = Some p /\ focal_length_mm params = Some f /\
          p <> 0 /\ 0 < f /\ s = (p / f) * 206.265) /\
    ((forall key v,
         In key (pixel_size_keys ++ focal_length_keys ++ aperture_keys) ->
         header_get key header = Some v -> usable os v = None) ->
     params = mkParams None None None None).
Proof.
  intros H. eexists. split; [apply (get_imaging_params_eq os filepath header H)|].
  cbv zeta. cbn [pixel_size_um focal_length_mm aperture_mm image_scale].
  repeat split.
  - intros p f -> -> Hp Hf. cbn [truthy_float].
    apply Reqb_false in Hp. rewrite Hp.
    assert (Reqb f 0 = false) as -> by (apply Reqb_false; lra).
    apply Rltb_true in Hf. now rewrite Hf.
  - intros s.
    destruct (first_usable os pixel_size_keys header) as [p|]; [|discriminate].
    destruct (first_usable os focal_length_keys header) as [f|]; [|discriminate].
    cbn [truthy_float].
    destruct (Reqb p 0) eqn:Ep; [discriminate|].
    destruct (Reqb f 0) eqn:Ef; [discriminate|].
    destruct (Rltb 0 f) eqn:Ef'; [|discriminate].
    simpl. intros [= <-]. exists p, f.
    apply Reqb_false in Ep. apply Rltb_true in Ef'. repeat split; auto.
  - intros Hnone.
    rewrite !first_usable_none; [reflexivity | | |];
      intros key v Hk; apply Hnone; rewrite !in_app_iff; auto.
Qed.

Lemma zero_pixel_first_usable :
  first_usable (Demo.disk_os Demo.zero_pixel_disk) pixel_size_keys
               Demo.zero_pixel_header = Some 3.76 /\
  first_usable (Demo.disk_os Demo.zero_pixel_disk) focal_length_keys
               Demo.zero_pixel_header = Some 400.
Proof.
  split.
  - cbn [first_usable pixel_size_keys Demo.zero_pixel_header header_get
         String.eqb Ascii.eqb Bool.eqb].
    unfold usable. cbn [truthy py_float]. Rbool. reflexivity.
  - cbn [first_usable focal_length_keys Demo.zero_pixel_header header_get
         String.eqb Ascii.eqb Bool.eqb].
    unfold usable. cbn [truthy py_float]. Rbool. reflexivity.
Qed.

Lemma zero_pixel_spec_first :
  spec_first_parseable (Demo.disk_os Demo.zero_pixel_disk) pixel_size_keys
                       Demo.zero_pixel_header = Some 0 /\
  spec_first_parseable (Demo.disk_os Demo.zero_pixel_disk) focal_length_keys
                       Demo.zero_pixel_header = Some 400.
Proof. split; reflexivity. Qed.

Lemma get_imaging_params_zero_pixel :
  get_imaging_params (Demo.disk_os Demo.zero_pixel_disk) "zero.fits" =
  Ok (mkParams (Some 3.76) (Some 400) None (Some ((3.76 / 400) * 206.265))).
Proof.
  rewrite (get_imaging_params_eq (Demo.disk_os Demo.zero_pixel_disk) "zero.fits"
             Demo.zero_pixel_header eq_refl).
  destruct zero_pixel_first_usable as [-> ->].
  cbv zeta. cbn [truthy_float]. Rbool. reflexivity.
Qed.

Lemma get_imaging_params_correct_witness :
  exists params,
    get_imaging_params (Demo.disk_os Demo.zero_pixel_disk) "zero.fits" = Ok params /\
    pixel_size_um params = Some 3.76 /\
    image_scale params = Some ((3.76 / 400) * 206.265).
Proof.
  destruct (get_imaging_params_correct
              (Demo.disk_os Demo.zero_pixel_disk) "zero.fits"
              Demo.zero_pixel_header eq_refl)
    as (params & E & Hp & Hf & _ & Hscale & _).
  destruct zero_pixel_first_usable as [Ep Ef].
  rewrite Ep in Hp. rewrite Ef in Hf.
  exists params. split; [exact E|]. split; [exact Hp|].
  apply (Hscale 3.76 400 Hp Hf); lra.
Defined.

(** C4, as stated, fails on a header whose first pixel-size key holds 0:
    the value is present and [float] accepts it, so the claim takes it as
    the pixel size and derives an image scale of 0; the code skips the
    falsy value, takes the next key and derives a different scale. *)
Lemma get_imaging_params_zero_pixel_size :
  let os := Demo.disk_os Demo.zero_pixel_disk in
  get_header os "zero.fits" = Ok Demo.zero_pixel_header /\
  exists params,
    get_imaging_params os "zero.fits" = Ok params /\
    pixel_size_um params = Some 3.76 /\
    spec_first_parseable os pixel_size_keys Demo.zero_pixel_header = Some 0 /\
    pixel_size_um params <>
      spec_first_parseable os pixel_size_keys Demo.zero_pixel_header /\
    image_scale params <>
      spec_image_scale
        (spec_first_parseable os pixel_size_keys Demo.zero_pixel_header)
        (spec_first_parseable os focal_length_keys Demo.zero_pixel_header).
Proof.
  intros os. split; [reflexivity|].
  eexists. split; [apply get_imaging_params_zero_pixel|].
  cbn [pixel_size_um image_scale]. split; [reflexivity|].
  destruct zero_pixel_spec_first as [Sp Sf]. fold os in Sp, Sf.
  rewrite Sp, Sf. split; [reflexivity|]. split.
  - intros [= H]. lra.
  - unfold spec_image_scale. Rbool. intros [= H]. lra.
Qed.

(** The same on a header whose pixel size card is the text 0.0: both
    fields are found, the focal length is positive, and yet no image scale
    is derived. *)
Lemma get_imaging_params_text_zero :
  get_imaging_params (Demo.disk_os Demo.text_zero_disk) "text.fits" =
  Ok (mkParams (Some 0) (Some 400) None None).
Proof.
  rewrite (get_imaging_params_eq (Demo.disk_os Demo.text_zero_disk) "text.fits"
             Demo.text_zero_header eq_refl).
  cbn [first_usable pixel_size_keys focal_length_keys aperture_keys
       Demo.text_zero_header header_get String.eqb Ascii.eqb Bool.eqb
       negb].
  unfold usable.
  cbn [truthy py_float negb String.eqb Ascii.eqb Bool.eqb float_of_str
       Demo.disk_os Demo.demo_float].
  Rbool. cbn [negb truthy_float]. Rbool. reflexivity.
Qed.

End FitsReaderFacts.

(** ** star_detector.py: ranking and truncation *)

Section RankingFacts.

Context {A : Type} (key : A -> R).

Lemma insert_desc_perm a l : Permutation (insert_desc key a l) (a :: l).
Proof.
  induction l as [|b t IH]; simpl; auto.
  destruct (Rleb (key b) (key a)); auto.
  rewrite IH. apply perm_swap.
Qed.

Lemma sort_desc_perm l : Permutation (sort_desc key l) l.
Proof.
  induction l as [|a t IH]; simpl; auto.
  rewrite insert_desc_perm. auto.
Qed.

Lemma sort_desc_length l : length (sort_desc key l) = length l.
Proof. apply Permutation_length, sort_desc_perm. Qed.

Lemma insert_desc_sorted a l :
  StronglySorted (desc key) l -> StronglySorted (desc key) (insert_desc key a l).
Proof.
  induction 1 as [|b t Ht IH Hb]; simpl.
  - repeat constructor.
  - destruct (Rleb (key b) (key a)) eqn:E.
    + apply Rleb_true in E. constructor.
      * constructor; assumption.
      * constructor; [exact E|].
        eapply Forall_impl; [|exact Hb]. unfold desc. intros; lra.
    + apply Rleb_false in E. constructor; [assumption|].
      eapply Permutation_Forall; [symmetry; apply insert_desc_perm|].
      constructor; [unfold desc; lra | assumption].
Qed.

Lemma sort_desc_sorted l : StronglySorted (desc key) (sort_desc key l).
Proof.
  induction l; simpl; [constructor | apply insert_desc_sorted; assumption].
Qed.

Lemma firstn_sorted n l :
  StronglySorted (desc key) l -> StronglySorted (desc key) (firstn n l).
Proof.
  intros H. revert n. induction H as [|a t Ht IH Ha]; intros [|n]; simpl;
    try constructor; auto.
  rewrite Forall_forall in *. intros b Hb. apply Ha.
  eapply (In_nth_error) in Hb. destruct Hb as [i Hi].
  apply nth_error_In with (n := i).
  rewrite nth_error_firstn in Hi. destruct (i <? n)%nat; [exact Hi | discriminate].
Qed.

End RankingFacts.

Section SliceFacts.

Lemma py_slice_prefix {A} (l : list A) (k : Z) :
  (0 <= k)%Z -> py_slice l 0 k = firstn (Z.to_nat k) l.
Proof.
  intros Hk. unfold py_slice, slice_index.
  assert ((0 <? 0)%Z = false) as -> by reflexivity.
  assert ((k <? 0)%Z = false) as -> by (apply Z.ltb_ge; exact Hk).
  simpl Z.to_nat at 1. rewrite Nat.min_0_l, Nat.sub_0_r. simpl skipn.
  destruct (Nat.le_gt_cases (Z.to_nat k) (length l)) as [L|L].
  - now rewrite Nat.min_l.
  - rewrite Nat.min_r by lia. rewrite !firstn_all2 by lia. reflexivity.
Qed.

Lemma py_slice_prefix_length {A} (l : list A) (k : Z) :
  (0 <= k)%Z -> (Z.of_nat (length (py_slice l 0 k)) <= k)%Z.
Proof.
  intros Hk. rewrite py_slice_prefix by exact Hk.
  rewrite length_firstn. lia.
Qed.

End SliceFacts.

Section DetectionFacts.

(** The primary detector ranks the whole table before cutting it. *)
Lemma detect_with_photutils_ranked ph self image stars :
  (0 <= max_stars self)%Z ->
  _detect_with_photutils ph self image = Ok stars ->
  StronglySorted (desc star_flux) stars /\
  (Z.of_nat (length stars) <= max_stars self)%Z /\
  exists image_sub threshold found,
    DAOStarFinder ph (fwhm_estimate self) threshold image_sub = Ok found /\
    stars = firstn (Z.to_nat (max_stars self))
                   (map source_to_star
                        (sort_desc src_flux
                           (match found with Some t => t | None => [] end))).
Proof.
  intros Hmax. unfold _detect_with_photutils.
  destruct (try_except _ _) as [bg|e]; cbn [bind]; [|discriminate].
  destruct (DAOStarFinder ph _ _ _) as [[sources|]|e] eqn:F; cbn [bind];
    try discriminate.
  - intros [= <-].
    assert (Hs : StronglySorted (desc star_flux)
                   (map source_to_star (sort_desc src_flux sources))).
    { pose proof (sort_desc_sorted src_flux sources) as S.
      induction S as [|a t St IH Ha]; simpl; constructor; auto.
      rewrite Forall_map. eapply Forall_impl; [|exact Ha]. intros b Hb; exact Hb. }
    assert (E : (if (Z.of_nat (length (sort_desc src_flux sources)) >? max_stars self)%Z
                 then py_slice (sort_desc src_flux sources) 0 (max_stars self)
                 else sort_desc src_flux sources)
                = firstn (Z.to_nat (max_stars self)) (sort_desc src_flux sources)).
    { destruct (Z.gtb_spec (Z.of_nat (length (sort_desc src_flux sources)))
                           (max_stars self)).
      - apply py_slice_prefix, Hmax.
      - rewrite firstn_all2 by lia. reflexivity. }
    rewrite E, <- firstn_map. split; [apply firstn_sorted, Hs|]. split.
    + rewrite length_firstn. lia.
    + eexists _, _, (Some sources). split; [exact F | reflexivity].
  - intros [= <-]. split; [constructor|]. split; [simpl; lia|].
    eexists _, _, None. split; [exact F|]. simpl. now rewrite firstn_nil.
Qed.

(** The fallback detector returns its stars ranked and capped ... *)
Lemma detect_simple_ranked sp self image :
  (0 <= max_stars self)%Z ->
  StronglySorted (desc star_flux) (_detect_simple sp self image) /\
  (Z.of_nat (length (_detect_simple sp self image)) <= max_stars self)%Z.
Proof.
  intros Hmax. unfold _detect_simple. cbv zeta. split.
  - rewrite py_slice_prefix by exact Hmax.
    apply firstn_sorted, sort_desc_sorted.
  - apply py_slice_prefix_length, Hmax.
Qed.

Lemma simple_stars_length image bkg labeled labels :
  (length (simple_stars image bkg labeled labels) <= length labels)%nat.
Proof.
  induction labels as [|i rest IH]; simpl; [lia|].
  destruct (simple_star image bkg labeled i); simpl; lia.
Qed.

(** ... but of the regions labelled 1 to [max_stars] only: the cut is made
    in label order, before the stars are ranked. *)
Lemma detect_simple_cuts_before_ranking sp self image :
  (0 <= max_stars self)%Z ->
  let bkg := np_median (ravel image) in
  let smoothed :=
    gaussian_filter sp (image_sub_scalar image bkg) (fwhm_estimate self / 2.355) in
  let data_max := maximum_filter sp smoothed (py_int (fwhm_estimate self * 2)) in
  let peaks :=
    zip_with (zip_with (fun s m =>
                          Reqb s m && Rltb (threshold_sigma self * std_below_p90 image) s))
             smoothed data_max in
  _detect_simple sp self image =
  sort_desc star_flux
    (simple_stars image bkg (fst (label sp peaks))
       (seq 1 (Nat.min (snd (label sp peaks)) (Z.to_nat (max_stars self))))).
Proof.
  intros Hmax. cbv zeta. unfold _detect_simple. cbv zeta.
  rewrite py_slice_prefix by exact Hmax.
  unfold range_from_1.
  replace (Z.to_nat (Z.min (Z.of_nat (snd (label sp _)) + 1) (max_stars self + 1) - 1))
    with (Nat.min (snd (label sp
            (zip_with (zip_with (fun s m =>
                          Reqb s m && Rltb (threshold_sigma self * std_below_p90 image) s))
               (gaussian_filter sp (image_sub_scalar image (np_median (ravel image)))
                                (fwhm_estimate self / 2.355))
               (maximum_filter sp
                  (gaussian_filter sp (image_sub_scalar image (np_median (ravel image)))
                                   (fwhm_estimate self / 2.355))
                  (py_int (fwhm_estimate self * 2))))))
            (Z.to_nat (max_stars self))) by lia.
  apply firstn_all2. rewrite sort_desc_length.
  etransitivity; [apply simple_stars_length|]. rewrite length_seq. lia.
Qed.

Lemma strip_median : np_median (ravel Demo.strip) = 0.
Proof.
  unfold np_median, ravel, Demo.strip. cbn [concat app length].
  change (Nat.even 7) with false. change (7 / 2)%nat with 3%nat. cbv iota.
  Rsort. reflexivity.
Qed.

Lemma py_int_INR n : py_int (INR n) = Z.of_nat n.
Proof.
  unfold py_int. rewrite (proj2 (Rleb_true 0 (INR n)) (pos_INR n)).
  apply Int_part_INR.
Qed.

Lemma np_mean_single x : np_mean [x] = x.
Proof. unfold np_mean, np_sum. simpl. field. Qed.

(** The star the loop of [_detect_simple] builds for a one-pixel region. *)
Lemma simple_star_single image bkg labeled i r c :
  where_label labeled i = [(r, c)] ->
  simple_star image bkg labeled i =
  Some (mkStar (INR c) (INR r) (pixel image r c - bkg) (pixel image r c)).
Proof.
  intros E. unfold simple_star. rewrite E. cbn [length Nat.ltb Nat.leb map fst snd].
  rewrite !np_mean_single, !py_int_INR, !Nat2Z.id.
  unfold np_sum. simpl fold_right. f_equal. f_equal. lra.
Qed.

Lemma strip_simple_stars :
  simple_stars Demo.strip 0 Demo.strip_labels [1; 2; 3]%nat =
  [Demo.strip_star_1; Demo.strip_star_2; Demo.strip_star_3].
Proof.
  cbn [simple_stars].
  rewrite (simple_star_single Demo.strip 0 Demo.strip_labels 1 0 0 eq_refl),
          (simple_star_single Demo.strip 0 Demo.strip_labels 2 0 2 eq_refl),
          (simple_star_single Demo.strip 0 Demo.strip_labels 3 0 4 eq_refl).
  unfold Demo.strip_star_1, Demo.strip_star_2, Demo.strip_star_3, pixel, Demo.strip.
  cbn [nth INR]. repeat f_equal; lra.
Qed.

(** C3 on the fallback detector: the strip holds three stars of flux 1, 5
    and 3 (in scan order) and the detector keeps two.  Ranking all the
    candidates and cutting to two gives the stars of flux 5 and 3;
    [_detect_simple] returns the stars of flux 5 and 1, because it builds
    candidates for the first two labels only and ranks afterwards. *)
Theorem detect_simple_misses_brighter_star :
  let all_candidates :=
    simple_stars Demo.strip (np_median (ravel Demo.strip)) Demo.strip_labels
                 (range_from_1 (Z.of_nat 3 + 1)) in
  detect_stars None Demo.strip_scipy Demo.two_star_detector Demo.strip =
    Ok [Demo.strip_star_2; Demo.strip_star_1] /\
  py_slice (sort_desc star_flux all_candidates) 0
           (max_stars Demo.two_star_detector) =
    [Demo.strip_star_2; Demo.strip_star_3] /\
  In Demo.strip_star_3 all_candidates /\
  ~ In Demo.strip_star_3 [Demo.strip_star_2; Demo.strip_star_1].
Proof.
  cbv zeta. rewrite strip_median.
  change (range_from_1 (Z.of_nat 3 + 1)) with [1; 2; 3]%nat.
  rewrite strip_simple_stars.
  split; [|split; [|split]].
  - unfold detect_stars. f_equal.
    rewrite detect_simple_cuts_before_ranking by (simpl; lia).
    rewrite strip_median.
    change (seq 1 _) with [1; 2]%nat.
    change (fst (label Demo.strip_scipy _)) with Demo.strip_labels.
    assert (P : simple_stars Demo.strip 0 Demo.strip_labels [1; 2]%nat =
                [Demo.strip_star_1; Demo.strip_star_2]).
    { pose proof strip_simple_stars as H. cbn [simple_stars] in H |- *.
      destruct (simple_star Demo.strip 0 Demo.strip_labels 1);
      destruct (simple_star Demo.strip 0 Demo.strip_labels 2);
      destruct (simple_star Demo.strip 0 Demo.strip_labels 3);
      try discriminate; congruence. }
    rewrite P. unfold Demo.strip_star_1, Demo.strip_star_2. Rsort. reflexivity.
  - rewrite py_slice_prefix by (simpl; lia).
    unfold Demo.strip_star_1, Demo.strip_star_2, Demo.strip_star_3. Rsort.
    reflexivity.
  - right; right; left; reflexivity.
  - intros [H|[H|[]]]; injection H; intros; lra.
Qed.

End DetectionFacts.

(** ** star_detector.py: PSF fitting *)

Section FitFacts.

Lemma py_slice_length {A} (l : list A) (a b : Z) :
  (0 <= a <= b)%Z -> (b <= Z.of_nat (length l))%Z ->
  length (py_slice l a b) = Z.to_nat (b - a).
Proof.
  intros Hab Hb. unfold py_slice, slice_index.
  assert ((a <? 0)%Z = false) as -> by (apply Z.ltb_ge; lia).
  assert ((b <? 0)%Z = false) as -> by (apply Z.ltb_ge; lia).
  rewrite length_firstn, length_skipn. lia.
Qed.

Lemma In_firstn {A} (n : nat) (l : list A) (v : A) :
  In v (firstn n l) -> In v l.
Proof.
  revert l. induction n as [|n IH]; intros [|a t]; simpl; try tauto.
  intros [->|H]; [now left | right; now apply IH].
Qed.

Lemma py_slice_In {A} (l : list A) (a b : Z) (v : A) :
  In v (py_slice l a b) -> In v l.
Proof.
  unfold py_slice. intros H.
  apply In_firstn in H.
  rewrite <- (firstn_skipn (slice_index (length l) a) l).
  apply in_or_app. now right.
Qed.

Lemma window_outside_spec image half_box x y :
  window_outside image half_box x y = true <-> window_exceeds image half_box x y.
Proof.
  unfold window_outside, window_exceeds.
  rewrite !orb_true_iff, !Z.ltb_lt, !Z.geb_le. lia.
Qed.

Lemma star_kept_spec self image star :
  star_kept self image star = true <->
  ~ window_exceeds image (box_size self / 2)
                   (py_round (star_x star)) (py_round (star_y star)).
Proof.
  unfold star_kept. rewrite negb_true_iff, <- window_outside_spec.
  destruct (window_outside _ _ _ _); split; intros; congruence.
Qed.

Lemma extract_cutout_shape image half_box x y :
  rectangular image -> (0 <= half_box)%Z ->
  window_outside image half_box x y = false ->
  shape0 (extract_cutout image half_box x y) = Z.to_nat (2 * half_box + 1) /\
  Forall (fun row => length row = Z.to_nat (2 * half_box + 1))
         (extract_cutout image half_box x y).
Proof.
  intros Hrect Hh Hin. unfold window_outside in Hin.
  rewrite !orb_false_iff, !Z.ltb_ge in Hin.
  destruct Hin as [[[Hx0 Hx1] Hy0] Hy1].
  assert (Hx1' : (x + half_box < Z.of_nat (shape1 image))%Z)
    by (destruct (Z.geb_spec (x + half_box) (Z.of_nat (shape1 image))); [discriminate | lia]).
  assert (Hy1' : (y + half_box < Z.of_nat (shape0 image))%Z)
    by (destruct (Z.geb_spec (y + half_box) (Z.of_nat (shape0 image))); [discriminate | lia]).
  unfold extract_cutout, shape0. split.
  - rewrite length_map, py_slice_length by (unfold shape0 in *; lia).
    f_equal. lia.
  - rewrite Forall_map, Forall_forall. intros row Hrow.
    apply py_slice_In in Hrow.
    unfold rectangular in Hrect. rewrite Forall_forall in Hrect.
    rewrite py_slice_length by (try rewrite (Hrect row Hrow); lia).
    f_equal. lia.
Qed.

Lemma getitem2_pixel a r c size :
  length a = size -> Forall (fun row => length row = size) a ->
  (r < size)%nat -> (c < size)%nat ->
  getitem2 a r c = Ok (pixel a r c).
Proof.
  intros Ha Hrows Hr Hc. unfold getitem2, pixel.
  destruct (nth_error a r) as [row|] eqn:E.
  - rewrite (nth_error_nth _ _ [] E).
    assert (length row = size).
    { rewrite Forall_forall in Hrows. apply Hrows. eapply nth_error_In, E. }
    destruct (nth_error row c) as [v|] eqn:E'.
    + now rewrite (nth_error_nth _ _ 0 E').
    + apply nth_error_None in E'. lia.
  - apply nth_error_None in E. lia.
Qed.

Lemma widths_rejected_spec size fx fy :
  widths_rejected size fx fy = true <->
  fx < 0.5 \/ fy < 0.5 \/ fx > INR size \/ fy > INR size.
Proof.
  unfold widths_rejected. rewrite !orb_true_iff, !Rltb_true.
  unfold Rgt. tauto.
Qed.

(** The constructor leaves an odd box size, so the window is [box_size]
    pixels wide. *)
Lemma box_size_odd fwhm thr maxs box :
  (1 <= box)%Z ->
  let self := StarDetector_init fwhm thr maxs box in
  (0 <= box_size self / 2)%Z /\
  (2 * (box_size self / 2) + 1 = box_size self)%Z.
Proof.
  intros Hbox. cbn [StarDetector_init box_size].
  destruct (Z.eqb_spec (box mod 2) 1) as [E|E].
  - split; Z.div_mod_to_equations; lia.
  - split; Z.div_mod_to_equations; lia.
Qed.

Lemma fit_gaussian_2d_eq sp self cutout size :
  shape0 cutout = size -> Forall (fun row => length row = size) cutout ->
  (0 < size)%nat ->
  _fit_gaussian_2d sp self cutout =
  Ok (match fit_call sp self cutout
                     (pixel cutout (size / 2) (size / 2)
                      - np_percentile (ravel cutout) 10)
                     (np_percentile (ravel cutout) 10) with
      | Ok popt =>
          if widths_rejected size (2.355 * g_sigma_x popt) (2.355 * g_sigma_y popt)
          then None
          else Some (mkFit (2.355 * g_sigma_x popt) (2.355 * g_sigma_y popt)
                           (g_amplitude popt))
      | Raise _ => None
      end).
Proof.
  intros Hsize Hrows Hpos. unfold _fit_gaussian_2d. cbv zeta. rewrite Hsize.
  assert (Hc : (size / 2 < size)%nat) by (apply Nat.div_lt; lia).
  rewrite (getitem2_pixel cutout (size / 2) (size / 2) size Hsize Hrows Hc Hc).
  cbn [bind].
  destruct (fit_call sp self cutout _ _) as [popt|e]; cbn [bind try_except];
    [|reflexivity].
  destruct (widths_rejected size _ _); reflexivity.
Qed.

Lemma fit_psf_loop_spec sp fwhm thr maxs box image :
  let self := StarDetector_init fwhm thr maxs box in
  (1 <= box)%Z -> rectangular image ->
  forall stars acc,
  exists out,
    fit_psf_loop sp self image (box_size self / 2) stars acc = Ok (acc ++ out) /\
    Forall2 (emitted sp self image) (filter (star_kept self image) stars) out.
Proof.
  intros self Hbox Hrect.
  destruct (box_size_odd fwhm thr maxs box Hbox) as [Hh Hodd]. fold self in Hh, Hodd.
  induction stars as [|star rest IH]; intros acc.
  - exists []. cbn [fit_psf_loop filter]. rewrite app_nil_r. split; constructor.
  - cbn [fit_psf_loop filter]. unfold star_kept at 1.
    destruct (window_outside image (box_size self / 2)
                (py_round (star_x star)) (py_round (star_y star))) eqn:Hout;
      cbn [negb].
    + apply IH.
    + destruct (extract_cutout_shape image _ _ _ Hrect Hh Hout) as [Hs0 Hrows].
      rewrite Hodd in Hs0, Hrows.
      assert (Hpos : (0 < Z.to_nat (box_size self))%nat) by lia.
      assert (HINR : INR (Z.to_nat (box_size self)) = IZR (box_size self)).
      { rewrite INR_IZR_INZ, Z2Nat.id by lia. reflexivity. }
      rewrite (fit_gaussian_2d_eq sp self _ _ Hs0 Hrows Hpos). cbn [bind].
      assert (Hfit : fit_call sp self
                       (extract_cutout image (box_size self / 2)
                          (py_round (star_x star)) (py_round (star_y star)))
                       (pixel (extract_cutout image (box_size self / 2)
                                 (py_round (star_x star)) (py_round (star_y star)))
                              (Z.to_nat (box_size self) / 2)
                              (Z.to_nat (box_size self) / 2)
                        - np_percentile
                            (ravel (extract_cutout image (box_size self / 2)
                                      (py_round (star_x star)) (py_round (star_y star))))
                            10)
                       (np_percentile
                          (ravel (extract_cutout image (box_size self / 2)
                                    (py_round (star_x star)) (py_round (star_y star))))
                          10)
                     = star_fit sp self image star).
      { unfold star_fit, star_cutout. cbv zeta. rewrite Hs0. reflexivity. }
      rewrite Hfit.
      destruct (star_fit sp self image star) as [popt|e] eqn:Efit.
      * destruct (widths_rejected _ _ _) eqn:Erej.
        -- destruct (IH (acc ++ [fallback_entry self star])) as (out & E & F).
           exists (fallback_entry self star :: out). split.
           ++ rewrite E, <- app_assoc. reflexivity.
           ++ constructor; [|exact F].
              unfold emitted, fit_unusable. rewrite Efit.
              cbn [fallback_entry psf_x psf_y fwhm_x fwhm_y amplitude fit_success].
              repeat split. intros N. exfalso. apply N.
              apply widths_rejected_spec in Erej. rewrite HINR in Erej. exact Erej.
        -- destruct (IH (acc ++ [fitted_entry star
                                   (mkFit (2.355 * g_sigma_x popt)
                                          (2.355 * g_sigma_y popt)
                                          (g_amplitude popt))]))
             as (out & E & F).
           eexists (_ :: out). split.
           ++ rewrite E, <- app_assoc. reflexivity.
           ++ constructor; [|exact F].
              unfold emitted, fit_unusable. rewrite Efit.
              cbn [fitted_entry psf_x psf_y fwhm_x fwhm_y amplitude fit_success
                   fit_fwhm_x fit_fwhm_y fit_amplitude].
              split; [reflexivity|]. split; [reflexivity|]. split.
              ** intros U. exfalso.
                 rewrite <- HINR in U. apply widths_rejected_spec in U. congruence.
              ** intros _. exists popt. repeat split.
      * destruct (IH (acc ++ [fallback_entry self star])) as (out & E & F).
        exists (fallback_entry self star :: out). split.
        -- rewrite E, <- app_assoc. reflexivity.
        -- constructor; [|exact F].
           unfold emitted, fit_unusable. rewrite Efit.
           cbn [fallback_entry psf_x psf_y fwhm_x fwhm_y amplitude fit_success].
           repeat split. intros N. exfalso. apply N. exact I.
Qed.

(** C8: on a rectangular image, with a detector built by the constructor
    from a box size of at least 1, [fit_psf] returns (it does not raise);
    a candidate is skipped exactly when its fitting window exceeds the
    image bounds; the output lists one entry per remaining candidate, in
    the order of the input; and an entry whose fit fails or yields a width
    below 0.5 px or above box_size px carries fwhm_x = fwhm_y =
    fwhm_estimate, the candidate's peak as amplitude and fit_success false,
    any other entry carrying the fitted widths and fit_success true. *)
Theorem fit_psf_correct (sp : Scipy) (fwhm thr : R) (maxs box : Z)
        (image : Image) (stars : list Candidate) :
  let self := StarDetector_init fwhm thr maxs box in
  (1 <= box)%Z -> rectangular image ->
  (forall star,
      star_kept self image star = false <->
      window_exceeds image (box_size self / 2)
                     (py_round (star_x star)) (py_round (star_y star))) /\
  exists results,
    fit_psf sp self image stars = Ok results /\
    Forall2 (emitted sp self image) (filter (star_kept self image) stars) results /\
    map (fun r => (psf_x r, psf_y r)) results =
      map (fun s => (star_x s, star_y s)) (filter (star_kept self image) stars).
Proof.
  intros self Hbox Hrect. split.
  - intros star. unfold star_kept. rewrite negb_false_iff.
    apply window_outside_spec.
  - destruct (fit_psf_loop_spec sp fwhm thr maxs box image Hbox Hrect stars [])
      as (out & E & F).
    exists out. split; [exact E|]. split; [exact F|].
    fold self in F. clear E.
    induction F as [|s r ss rs (Hx & Hy & _) F IH]; simpl; [reflexivity|].
    now rewrite Hx, Hy, IH.
Qed.

Lemma fit_psf_correct_witness :
  exists results,
    fit_psf Demo.strip_scipy (StarDetector_init 5 5 2 1) Demo.strip
            [Demo.strip_star_2; mkStar 9 0 1 1] = Ok results /\
    map (fun r => (psf_x r, psf_y r)) results =
      map (fun s => (star_x s, star_y s))
          (filter (star_kept (StarDetector_init 5 5 2 1) Demo.strip)
                  [Demo.strip_star_2; mkStar 9 0 1 1]).
Proof.
  destruct (fit_psf_correct Demo.strip_scipy 5 5 2 1 Demo.strip
                            [Demo.strip_star_2; mkStar 9 0 1 1])
    as (_ & results & E & _ & O).
  - lia.
  - repeat constructor.
  - exists results. split; [exact E | exact O].
Defined.

End FitFacts.

(** ** analyzer.py: the batch *)

Section PoolFacts.

Context {A B : Type} (f : A -> B).

Lemma finished_get_scheduled tasks schedule i a :
  In i schedule -> nth_error tasks i = Some a ->
  finished_get i (pool_finished f tasks schedule) = Some (f a).
Proof.
  intros Hin Ha. induction schedule as [|j rest IH]; [contradiction|].
  unfold pool_finished. cbn [flat_map]. fold (pool_finished f tasks rest).
  destruct (Nat.eq_dec j i) as [->|N].
  - rewrite Ha. cbn [app finished_get]. now rewrite Nat.eqb_refl.
  - assert (Hrest : In i rest) by (destruct Hin; [contradiction | assumption]).
    destruct (nth_error tasks j); cbn [app finished_get].
    + apply Nat.eqb_neq in N. rewrite N. apply IH, Hrest.
    + apply IH, Hrest.
Qed.

Lemma flat_map_indexed (h : nat -> option B) (tasks : list A) (k : nat) :
  (forall i a, nth_error tasks i = Some a -> h (k + i)%nat = Some (f a)) ->
  flat_map (fun i => match h i with Some b => [b] | None => [] end)
           (seq k (length tasks)) = map f tasks.
Proof.
  revert k. induction tasks as [|a t IH]; intros k H; [reflexivity|].
  cbn [length seq flat_map map].
  specialize (H 0%nat a eq_refl) as H0. rewrite Nat.add_0_r in H0. rewrite H0.
  cbn [app]. f_equal. apply IH. intros i b Hi.
  replace (S k + i)%nat with (k + S i)%nat by lia. now apply H.
Qed.

(** Whatever the order in which the workers finish, [imap] yields the
    results in the order of the tasks. *)
Lemma pool_imap_ordered tasks schedule :
  Permutation schedule (seq 0 (length tasks)) ->
  pool_imap f tasks schedule = map f tasks.
Proof.
  intros P. unfold pool_imap. apply flat_map_indexed. intros i a Hi.
  apply finished_get_scheduled; [|exact Hi].
  eapply Permutation_in; [symmetry; exact P|].
  apply in_seq.
  assert (i < length tasks)%nat by (apply nth_error_Some; congruence). lia.
Qed.

End PoolFacts.

Section AnalyzerFacts.

Variable libs : Libs.
Variable self : SubframeAnalyzer.

(** The worker captures every exception of its pipeline. *)
Lemma analyze_single_file_total args :
  exists r, _analyze_single_file libs args = Ok r /\
            result_filepath r = arg_filepath args.
Proof.
  unfold _analyze_single_file. cbv zeta.
  destruct (load_file (libs_os libs) (arg_filepath args)) as [image|e];
    cbn [bind try_except]; [|eexists; split; reflexivity].
  destruct (detect_stars _ _ _ image) as [stars|e];
    cbn [bind try_except]; [|eexists; split; reflexivity].
  destruct (fit_psf _ _ image stars) as [psf|e];
    cbn [bind try_except]; eexists; split; reflexivity.
Qed.

Lemma analyze_file_filepath filepath image_scale r :
  analyze_file libs self filepath image_scale = Ok r ->
  result_filepath r = filepath.
Proof.
  unfold analyze_file.
  destruct (load_file _ _) as [image|e]; cbn [bind]; [|discriminate].
  destruct (match image_scale with None => _ | Some _ => _ end) as [s|e];
    cbn [bind]; [|discriminate].
  destruct (detect_stars _ _ _ image) as [stars|e]; cbn [bind]; [|discriminate].
  destruct (fit_psf _ _ image stars) as [psf|e]; cbn [bind]; [|discriminate].
  now intros [= <-].
Qed.

Lemma sequential_result_filepath image_scale f :
  result_filepath (sequential_result libs self image_scale f) = path f.
Proof.
  unfold sequential_result.
  destruct (analyze_file libs self (path f) image_scale) as [r|e] eqn:Ef.
  - apply (analyze_file_filepath _ _ _ Ef).
  - reflexivity.
Qed.

Lemma analyze_sequential_loop_spec files i total cb image_scale acc log :
  exists log',
    _analyze_sequential_loop libs self files i total cb image_scale acc log =
      (acc ++ map (sequential_result libs self image_scale) files, log').
Proof.
  revert i acc log. induction files as [|f rest IH]; intros i acc log.
  - exists log. cbn. now rewrite app_nil_r.
  - cbn [_analyze_sequential_loop map].
    destruct (IH (S i) (acc ++ [sequential_result libs self image_scale f])
                 (if cb then log ++ [((i + 1)%nat, total, filename f)] else log))
      as (log' & E).
    exists log'. rewrite E, <- app_assoc. reflexivity.
Qed.

Lemma analyze_sequential_results files total cb image_scale :
  fst (_analyze_sequential libs self files total cb image_scale) =
  map (sequential_result libs self image_scale) files.
Proof.
  unfold _analyze_sequential.
  destruct (analyze_sequential_loop_spec files 0 total cb image_scale [] [])
    as (log' & E).
  rewrite E. reflexivity.
Qed.

(** The sequential loop returns one result per file, in the order of the
    files, whatever the files raise. *)
Lemma analyze_sequential_ordered files total cb image_scale :
  map result_filepath (fst (_analyze_sequential libs self files total cb image_scale))
  = map path files.
Proof.
  rewrite analyze_sequential_results, map_map.
  apply map_ext, sequential_result_filepath.
Qed.

Lemma analyze_parallel_loop_spec args completed total cb acc log :
  exists rs log',
    _analyze_parallel_loop (map (_analyze_single_file libs) args)
                           completed total cb acc log = Ok (acc ++ rs, log') /\
    Forall2 (fun a r => _analyze_single_file libs a = Ok r) args rs.
Proof.
  revert completed acc log.
  induction args as [|a rest IH]; intros completed acc log.
  - exists [], log. cbn. rewrite app_nil_r. split; constructor.
  - cbn [map _analyze_parallel_loop].
    destruct (analyze_single_file_total a) as (r & E & _). rewrite E. cbn [bind].
    destruct (IH (completed + 1)%nat (acc ++ [r])
                 (if cb then log ++ [((completed + 1)%nat, total, result_filename r)]
                  else log))
      as (rs & log' & E' & F).
    exists (r :: rs), log'. split.
    + rewrite E', <- app_assoc. reflexivity.
    + constructor; assumption.
Qed.

(** The parallel path returns one result per file, in the order of the
    files, for every order in which the workers finish. *)
Lemma analyze_parallel_ordered files total workers cb image_scale schedule :
  Permutation schedule (seq 0 (length files)) ->
  exists rs log,
    _analyze_parallel libs self files total workers cb image_scale schedule =
      Ok (rs, log) /\
    map result_filepath rs = map path files /\
    Forall2 (fun f r =>
               _analyze_single_file libs
                 (mkArgs (path f) (an_fwhm_estimate self) (an_threshold_sigma self)
                         (an_max_stars self) image_scale) = Ok r)
            files rs.
Proof.
  intros P. unfold _analyze_parallel. cbv zeta.
  rewrite pool_imap_ordered by (rewrite length_map; exact P).
  destruct (analyze_parallel_loop_spec
              (map (fun f => mkArgs (path f) (an_fwhm_estimate self)
                                    (an_threshold_sigma self) (an_max_stars self)
                                    image_scale) files)
              0%nat total cb [] [])
    as (rs & log & E & F).
  exists rs, log. split; [exact E|].
  assert (F' : Forall2 (fun f r =>
               _analyze_single_file libs
                 (mkArgs (path f) (an_fwhm_estimate self) (an_threshold_sigma self)
                         (an_max_stars self) image_scale) = Ok r) files rs).
  { clear E P. revert rs F. induction files as [|f t IH]; intros rs F;
      inversion F; subst; constructor; auto. }
  split; [|exact F'].
  clear E F P. induction F' as [|f r fs rs Hr F' IH]; [reflexivity|].
  cbn [map]. rewrite IH. f_equal.
  destruct (analyze_single_file_total
              (mkArgs (path f) (an_fwhm_estimate self) (an_threshold_sigma self)
                      (an_max_stars self) image_scale)) as (r' & E & Hp).
  rewrite E in Hr. injection Hr as <-. exact Hp.
Qed.

(** When the header of the first file can be read, [analyze_files] returns
    a batch with one result per file, in the order of the files: no file
    of the batch can make it raise. *)
Lemma analyze_files_contained files cb use_parallel schedule first rest params :
  files = first :: rest ->
  get_imaging_params (libs_os libs) (path first) = Ok params ->
  Permutation schedule (seq 0 (length files)) ->
  exists batch log,
    analyze_files libs self files cb use_parallel schedule = Ok (batch, log) /\
    total_files batch = length files /\
    length (results batch) = total_files batch /\
    map result_filepath (results batch) = map path files.
Proof.
  intros -> Hparams P. unfold analyze_files. rewrite Hparams. cbn [bind].
  destruct (use_parallel && (num_workers self >? 1)%Z
            && (1 <? length (first :: rest))%nat).
  - destruct (analyze_parallel_ordered (first :: rest) (length (first :: rest))
                (num_workers self) cb (image_scale params) schedule P)
      as (rs & log & E & O & _).
    rewrite E. cbn [bind fst snd].
    eexists _, _. split; [reflexivity|]. cbn [total_files results].
    split; [reflexivity|]. split; [|exact O].
    rewrite <- (length_map result_filepath), O, length_map. reflexivity.
  - cbn [bind fst snd].
    eexists _, _. split; [reflexivity|]. cbn [total_files results].
    pose proof (analyze_sequential_ordered (first :: rest) (length (first :: rest))
                  cb (image_scale params)) as O.
    split; [reflexivity|]. split; [|exact O].
    rewrite <- (length_map result_filepath), O, length_map. reflexivity.
Qed.

(** The header of the first file is read outside every [try]: when it
    cannot be read, the exception leaves [analyze_files]. *)
Lemma analyze_files_first_header_raises files cb use_parallel schedule
      first rest e :
  files = first :: rest ->
  fits_open (libs_os libs) (path first) = Raise e ->
  analyze_files libs self files cb use_parallel schedule = Raise e.
Proof.
  intros -> H. unfold analyze_files, get_imaging_params, get_header.
  rewrite H. reflexivity.
Qed.

End AnalyzerFacts.

Section ModesAgree.

Variable libs : Libs.
Variables fwhm thr : R.
Variable maxs : Z.
Variable workers : option Z.

Let self := SubframeAnalyzer_init libs fwhm thr maxs workers.

(** With a batch image scale in hand, a file gets from the sequential loop
    what the worker returns for it, provided its 'filename' entry is the
    name of its path. *)
Lemma sequential_result_matches_worker (s : R) (f : FileInfo) :
  filename f = path_name (libs_os libs) (path f) ->
  _analyze_single_file libs (mkArgs (path f) fwhm thr maxs (Some s)) =
  Ok (sequential_result libs self (Some s) f).
Proof.
  intros Hname.
  unfold _analyze_single_file, sequential_result, analyze_file. cbv zeta.
  cbn [arg_filepath arg_fwhm_estimate arg_threshold_sigma arg_max_stars
       arg_image_scale star_detector self SubframeAnalyzer_init].
  destruct (load_file (libs_os libs) (path f)) as [image|e];
    cbn [bind try_except]; [|now rewrite Hname].
  destruct (detect_stars _ _ _ image) as [stars|e];
    cbn [bind try_except]; [|now rewrite Hname].
  destruct (fit_psf _ _ image stars) as [psf|e];
    cbn [bind try_except]; [reflexivity | now rewrite Hname].
Qed.

(** The two modes return the same results when the first file yields an
    image scale and every 'filename' entry is the name of its path. *)
Lemma modes_agree_with_batch_scale files total nw cb cb' (s : R) schedule :
  Forall (fun f => filename f = path_name (libs_os libs) (path f)) files ->
  Permutation schedule (seq 0 (length files)) ->
  exists log,
    _analyze_parallel libs self files total nw cb (Some s) schedule =
    Ok (fst (_analyze_sequential libs self files total cb' (Some s)), log).
Proof.
  intros Hnames P.
  destruct (analyze_parallel_ordered libs self files total nw cb (Some s) schedule P)
    as (rs & log & E & _ & F).
  exists log. rewrite E. do 2 f_equal.
  rewrite analyze_sequential_results.
  clear E P. induction F as [|f r fs rs Hr F IH]; [reflexivity|].
  inversion Hnames as [|? ? Hf Hfs]; subst. cbn [map].
  rewrite (IH Hfs). f_equal.
  cbn [an_fwhm_estimate an_threshold_sigma an_max_stars self
       SubframeAnalyzer_init] in Hr.
  rewrite (sequential_result_matches_worker s f Hf) in Hr. now injection Hr.
Qed.

End ModesAgree.

(** ** The batch on concrete frames *)

Section BatchExamples.

Lemma plain_load : load_file (libs_os Demo.batch_libs) "plain.fits" = Ok Demo.strip.
Proof. reflexivity. Qed.

Lemma scaled_load : load_file (libs_os Demo.batch_libs) "scaled.fits" = Ok Demo.strip.
Proof. reflexivity. Qed.

Lemma broken_open :
  fits_open (libs_os Demo.batch_libs) "broken.fits" =
  Raise (mkExn OSError
           "No SIMPLE card found, this file does not appear to be a valid FITS file").
Proof. reflexivity. Qed.

Lemma quiet_detect self image :
  detect_stars (libs_photutils Demo.batch_libs) (libs_scipy Demo.batch_libs)
               self image = Ok [].
Proof. reflexivity. Qed.

Lemma plain_params :
  get_imaging_params (libs_os Demo.batch_libs) "plain.fits" =
  Ok (mkParams None None None None).
Proof.
  rewrite (get_imaging_params_eq (libs_os Demo.batch_libs) "plain.fits"
             Demo.plain_header eq_refl).
  reflexivity.
Qed.

Lemma scaled_params :
  get_imaging_params (libs_os Demo.batch_libs) "scaled.fits" =
  Ok (mkParams (Some 3.76) (Some 400) None (Some ((3.76 / 400) * 206.265))).
Proof.
  rewrite (get_imaging_params_eq (libs_os Demo.batch_libs) "scaled.fits"
             Demo.scale_header eq_refl).
  assert (E1 : first_usable (libs_os Demo.batch_libs) pixel_size_keys
                            Demo.scale_header = Some 3.76).
  { cbn [first_usable pixel_size_keys Demo.scale_header header_get
         String.eqb Ascii.eqb Bool.eqb].
    unfold usable. cbn [truthy py_float]. Rbool. reflexivity. }
  assert (E2 : first_usable (libs_os Demo.batch_libs) focal_length_keys
                            Demo.scale_header = Some 400).
  { cbn [first_usable focal_length_keys Demo.scale_header header_get
         String.eqb Ascii.eqb Bool.eqb].
    unfold usable. cbn [truthy py_float]. Rbool. reflexivity. }
  rewrite E1, E2. cbv zeta. cbn [truthy_float]. Rbool. reflexivity.
Qed.

Lemma analyze_file_plain :
  analyze_file Demo.batch_libs Demo.batch_analyzer "plain.fits" None =
  Ok (Analyzed "plain.fits" "plain.fits" (calculate_all Demo.strip [] None) 0 0).
Proof.
  unfold analyze_file. rewrite plain_load. cbn [bind].
  rewrite plain_params. cbn [bind image_scale]. reflexivity.
Qed.

Lemma analyze_file_scaled :
  analyze_file Demo.batch_libs Demo.batch_analyzer "scaled.fits" None =
  Ok (Analyzed "scaled.fits" "scaled.fits"
               (calculate_all Demo.strip [] (Some ((3.76 / 400) * 206.265))) 0 0).
Proof.
  unfold analyze_file. rewrite scaled_load. cbn [bind].
  rewrite scaled_params. cbn [bind image_scale]. reflexivity.
Qed.

Lemma analyze_file_broken image_scale :
  analyze_file Demo.batch_libs Demo.batch_analyzer "broken.fits" image_scale =
  Raise (mkExn OSError
           "No SIMPLE card found, this file does not appear to be a valid FITS file").
Proof. reflexivity. Qed.

Lemma worker_plain fwhm thr maxs image_scale :
  _analyze_single_file Demo.batch_libs
    (mkArgs "plain.fits" fwhm thr maxs image_scale) =
  Ok (Analyzed "plain.fits" "plain.fits" (calculate_all Demo.strip [] image_scale) 0 0).
Proof. reflexivity. Qed.

Lemma worker_scaled fwhm thr maxs image_scale :
  _analyze_single_file Demo.batch_libs
    (mkArgs "scaled.fits" fwhm thr maxs image_scale) =
  Ok (Analyzed "scaled.fits" "scaled.fits" (calculate_all Demo.strip [] image_scale) 0 0).
Proof. reflexivity. Qed.

Lemma worker_broken fwhm thr maxs image_scale :
  _analyze_single_file Demo.batch_libs
    (mkArgs "broken.fits" fwhm thr maxs image_scale) =
  Ok (Failed "broken.fits" "broken.fits"
        "No SIMPLE card found, this file does not appear to be a valid FITS file").
Proof. reflexivity. Qed.

Lemma fwhm_arcsec_of_scale image psf_results image_scale :
  m_fwhm_arcsec (calculate_all image psf_results image_scale) =
  match image_scale with
  | Some s => if Reqb s 0 then None else Some (calculate_fwhm psf_results * s)
  | None => None
  end.
Proof.
  unfold calculate_all. cbn [m_fwhm_arcsec].
  destruct image_scale as [s|]; [|reflexivity].
  unfold truthy_float. destruct (Reqb s 0); reflexivity.
Qed.

Lemma batch_workers : num_workers Demo.batch_analyzer = 6%Z.
Proof. reflexivity. Qed.

Lemma batch_folder :
  load_folder (libs_os Demo.batch_libs) "." =
  Ok [Demo.broken_file; Demo.plain_file; Demo.scaled_file].
Proof. reflexivity. Qed.

(** C1 on a batch whose first file is not a FITS file.  The folder exists
    and is a directory, and yet [analyze_folder] raises the error of that
    one file; so does [analyze_files] on the list that starts with it,
    whatever the mode.  The same file in second position is contained: the
    batch returns, with the text of the error in that file's result. *)
Theorem analyze_files_raises_on_unreadable_first_file :
  let os_error :=
    mkExn OSError
      "No SIMPLE card found, this file does not appear to be a valid FITS file" in
  (forall cb use_parallel schedule,
      analyze_folder Demo.batch_libs Demo.batch_analyzer "." cb use_parallel schedule
      = Raise os_error) /\
  (forall cb use_parallel schedule,
      analyze_files Demo.batch_libs Demo.batch_analyzer
                    [Demo.broken_file; Demo.plain_file] cb use_parallel schedule
      = Raise os_error) /\
  (exists batch log,
      analyze_files Demo.batch_libs Demo.batch_analyzer
                    [Demo.plain_file; Demo.broken_file] false false [0; 1]%nat
      = Ok (batch, log) /\
      map result_error (results batch) = [None; Some (exn_str os_error)] /\
      map result_metrics (results batch) =
        [Some (calculate_all Demo.strip [] None); None]).
Proof.
  cbv zeta. split; [|split].
  - intros cb use_parallel schedule. unfold analyze_folder.
    rewrite batch_folder. cbn [bind].
    rewrite (analyze_files_first_header_raises Demo.batch_libs Demo.batch_analyzer
               _ cb use_parallel schedule Demo.broken_file
               [Demo.plain_file; Demo.scaled_file] _ eq_refl broken_open).
    reflexivity.
  - intros cb use_parallel schedule.
    apply (analyze_files_first_header_raises Demo.batch_libs Demo.batch_analyzer
             _ cb use_parallel schedule Demo.broken_file [Demo.plain_file] _
             eq_refl broken_open).
  - unfold analyze_files. cbn [Demo.plain_file path]. rewrite plain_params.
    cbn [bind andb image_scale fst snd].
    unfold _analyze_sequential.
    cbn [_analyze_sequential_loop]. unfold sequential_result.
    cbn [Demo.plain_file Demo.broken_file path filename].
    rewrite analyze_file_plain, analyze_file_broken.
    eexists _, _. split; [reflexivity|].
    cbn [results app map result_error result_metrics exn_str]. split; reflexivity.
Qed.

(** C2 on a batch of two readable frames, the first without optical
    metadata, the second with a pixel size and a focal length.  Both modes
    return two results in the order of the files.  Run sequentially, the
    second frame reads its own header and gets an FWHM in arcseconds; run
    in parallel (the second frame finishing first), it gets none: the
    results of the two modes differ. *)
Theorem sequential_and_parallel_results_differ :
  let files := [Demo.plain_file; Demo.scaled_file] in
  exists seq_batch seq_log par_batch par_log,
    analyze_files Demo.batch_libs Demo.batch_analyzer files false false [0; 1]%nat
      = Ok (seq_batch, seq_log) /\
    analyze_files Demo.batch_libs Demo.batch_analyzer files false true [1; 0]%nat
      = Ok (par_batch, par_log) /\
    workers_used seq_batch = 1%Z /\ workers_used par_batch = 6%Z /\
    map result_filepath (results seq_batch) = map path files /\
    map result_filepath (results par_batch) = map path files /\
    map (fun r => option_map m_fwhm_arcsec (result_metrics r)) (results seq_batch)
      = [Some None; Some (Some (0 * ((3.76 / 400) * 206.265)))] /\
    map (fun r => option_map m_fwhm_arcsec (result_metrics r)) (results par_batch)
      = [Some None; Some None] /\
    results seq_batch <> results par_batch.
Proof.
  cbv zeta.
  assert (Eseq : analyze_files Demo.batch_libs Demo.batch_analyzer
                   [Demo.plain_file; Demo.scaled_file] false false [0; 1]%nat =
                 Ok (mkBatch 2
                       [Analyzed "plain.fits" "plain.fits"
                                 (calculate_all Demo.strip [] None) 0 0;
                        Analyzed "scaled.fits" "scaled.fits"
                                 (calculate_all Demo.strip []
                                    (Some ((3.76 / 400) * 206.265))) 0 0]
                       (calculate_all_metric_stats
                          [calculate_all Demo.strip [] None;
                           calculate_all Demo.strip []
                             (Some ((3.76 / 400) * 206.265))])
                       1 (Some (mkParams None None None None)) None, [])).
  { unfold analyze_files. cbn [Demo.plain_file path]. rewrite plain_params.
    cbn [bind andb image_scale fst snd].
    unfold _analyze_sequential.
    cbn [_analyze_sequential_loop]. unfold sequential_result.
    cbn [Demo.plain_file Demo.scaled_file path filename].
    rewrite analyze_file_plain, analyze_file_scaled. reflexivity. }
  assert (Epar : analyze_files Demo.batch_libs Demo.batch_analyzer
                   [Demo.plain_file; Demo.scaled_file] false true [1; 0]%nat =
                 Ok (mkBatch 2
                       [Analyzed "plain.fits" "plain.fits"
                                 (calculate_all Demo.strip [] None) 0 0;
                        Analyzed "scaled.fits" "scaled.fits"
                                 (calculate_all Demo.strip [] None) 0 0]
                       (calculate_all_metric_stats
                          [calculate_all Demo.strip [] None;
                           calculate_all Demo.strip [] None])
                       6 (Some (mkParams None None None None)) None, [])).
  { unfold analyze_files. cbn [Demo.plain_file path]. rewrite plain_params.
    cbn [bind image_scale]. rewrite batch_workers.
    cbn [andb Z.gtb Z.compare Pos.compare Pos.compare_cont length Nat.ltb Nat.leb].
    unfold _analyze_parallel. cbv zeta.
    cbn [map Demo.plain_file Demo.scaled_file path].
    unfold pool_imap, pool_finished.
    cbn [length seq flat_map nth_error app finished_get Nat.eqb].
    rewrite worker_plain, worker_scaled.
    cbn [_analyze_parallel_loop bind app fst snd]. reflexivity. }
  eexists _, _, _, _. split; [exact Eseq|]. split; [exact Epar|].
  cbn [workers_used results map result_filepath result_metrics option_map
       Demo.plain_file Demo.scaled_file path].
  rewrite !fwhm_arcsec_of_scale. Rbool.
  assert (F : calculate_fwhm [] = 0) by reflexivity. rewrite F.
  repeat split.
  intros H. injection H as H.
  revert H. Rbool. cbn [negb]. discriminate.
Qed.

End BatchExamples.

(* ================================================================= *)
(** * Further properties of the analysis engine *)

(** ** statistics.py: bands, extremes and outlier indices *)

Section BandFacts.

Lemma np_median_nonneg a : Forall (fun v => 0 <= v) a -> 0 <= np_median a.
Proof.
  intros H. destruct a as [|x t].
  - unfold np_median. simpl. lra.
  - apply (np_median_between (fun v => 0 <= v)); [discriminate | | exact H].
    intros; lra.
Qed.

Lemma median_absolute_deviation_nonneg values :
  0 <= median_absolute_deviation values.
Proof.
  unfold median_absolute_deviation.
  destruct (length values =? 0)%nat; [lra|].
  apply np_median_nonneg, Forall_map, Forall_forall.
  intros x _. apply Rabs_pos.
Qed.

Lemma existsb_isfinite_length values :
  existsb isfinite values = true -> (length values =? 0)%nat = false.
Proof. destruct values; [discriminate | reflexivity]. Qed.

(** What [calculate_bands] returns once one value is finite. *)
Lemma calculate_bands_finite values :
  existsb isfinite values = true ->
  calculate_bands values =
  let finite := finite_values values in
  let median := np_median finite in
  let mad := median_absolute_deviation finite in
  let sigma := if Reqb (mad * MAD_SCALE_FACTOR) 0 then 0.001
               else mad * MAD_SCALE_FACTOR in
  mkStats median sigma mad (median - sigma, median + sigma)
          (median - 2 * sigma, median + 2 * sigma)
          (np_min finite) (np_max finite).
Proof.
  intros H. unfold calculate_bands.
  rewrite (existsb_isfinite_length values H), H. reflexivity.
Qed.

Lemma calculate_bands_sigma_pos values :
  existsb isfinite values = true -> 0 < st_sigma (calculate_bands values).
Proof.
  intros H. rewrite (calculate_bands_finite values H). cbv zeta. cbn [st_sigma].
  pose proof (median_absolute_deviation_nonneg (finite_values values)) as Hm.
  unfold Reqb, MAD_SCALE_FACTOR.
  destruct (Req_dec_T _ 0) as [E|N]; [lra|]. nra.
Qed.

(** X1: as soon as one value of the batch is finite, the sigma of
    [calculate_bands] is positive (at least the floor when the MAD is 0),
    the MAD is not negative, both bands are centred on the median, and the
    1-sigma band lies inside the 2-sigma band. *)
Theorem calculate_bands_nested (values : list pyfloat) :
  existsb isfinite values = true ->
  let s := calculate_bands values in
  0 < st_sigma s /\ 0 <= st_mad s /\
  (st_mad s = 0 -> st_sigma s = 0.001) /\
  (st_mad s <> 0 -> st_sigma s = st_mad s * 1.4826) /\
  st_band_1sigma s = (st_median s - st_sigma s, st_median s + st_sigma s) /\
  st_band_2sigma s = (st_median s - 2 * st_sigma s, st_median s + 2 * st_sigma s) /\
  fst (st_band_2sigma s) < fst (st_band_1sigma s) < st_median s /\
  st_median s < snd (st_band_1sigma s) < snd (st_band_2sigma s).
Proof.
  intros H s. pose proof (calculate_bands_sigma_pos values H) as Hs. fold s in Hs.
  revert Hs. unfold s. rewrite (calculate_bands_finite values H). cbv zeta.
  cbn [st_sigma st_mad st_median st_band_1sigma st_band_2sigma fst snd].
  pose proof (median_absolute_deviation_nonneg (finite_values values)) as Hm.
  intros Hs. split; [exact Hs|]. split; [exact Hm|].
  split.
  { intros ->. unfold Reqb. destruct (Req_dec_T _ 0) as [_|N]; [reflexivity|].
    exfalso. apply N. lra. }
  split.
  { intros N. unfold Reqb, MAD_SCALE_FACTOR.
    destruct (Req_dec_T _ 0) as [E|_]; [|reflexivity]. exfalso. apply N. lra. }
  repeat split; lra.
Qed.

Lemma calculate_bands_nested_witness :
  0 < st_sigma (calculate_bands [Finite 4; NaN; Finite 5]).
Proof.
  apply (calculate_bands_nested [Finite 4; NaN; Finite 5]). reflexivity.
Defined.

Lemma fold_left_Rmin_le t x :
  fold_left Rmin t x <= x /\ Forall (fun v => fold_left Rmin t x <= v) t /\
  In (fold_left Rmin t x) (x :: t).
Proof.
  revert x. induction t as [|y t IH]; intros x; simpl.
  - split; [lra|]. split; [constructor | now left].
  - destruct (IH (Rmin x y)) as (H1 & H2 & H3).
    pose proof (Rmin_l x y). pose proof (Rmin_r x y).
    split; [lra|]. split.
    + constructor; [lra | exact H2].
    + destruct H3 as [H3|H3]; [|now right; right].
      rewrite <- H3. unfold Rmin. destruct (Rle_dec x y); [now left | right; now left].
Qed.

Lemma fold_left_Rmax_ge t x :
  x <= fold_left Rmax t x /\ Forall (fun v => v <= fold_left Rmax t x) t /\
  In (fold_left Rmax t x) (x :: t).
Proof.
  revert x. induction t as [|y t IH]; intros x; simpl.
  - split; [lra|]. split; [constructor | now left].
  - destruct (IH (Rmax x y)) as (H1 & H2 & H3).
    pose proof (Rmax_l x y). pose proof (Rmax_r x y).
    split; [lra|]. split.
    + constructor; [lra | exact H2].
    + destruct H3 as [H3|H3]; [|now right; right].
      rewrite <- H3. unfold Rmax. destruct (Rle_dec x y); [right; now left | now left].
Qed.

Lemma np_min_least a :
  a <> [] -> In (np_min a) a /\ Forall (fun v => np_min a <= v) a.
Proof.
  destruct a as [|x t]; [congruence|]. intros _. unfold np_min.
  destruct (fold_left_Rmin_le t x) as (H1 & H2 & H3).
  split; [exact H3 | constructor; assumption].
Qed.

Lemma np_max_greatest a :
  a <> [] -> In (np_max a) a /\ Forall (fun v => v <= np_max a) a.
Proof.
  destruct a as [|x t]; [congruence|]. intros _. unfold np_max.
  destruct (fold_left_Rmax_ge t x) as (H1 & H2 & H3).
  split; [exact H3 | constructor; assumption].
Qed.

Lemma finite_values_In values v :
  In v (finite_values values) <-> In (Finite v) values.
Proof.
  induction values as [|w t IH]; simpl; [tauto|].
  destruct w; simpl; rewrite IH.
  - split; intros [H|H];
      [left; congruence | right; assumption | left; congruence | right; assumption].
  - split; [intros H; now right | intros [H|H]; [discriminate | assumption]].
  - split; [intros H; now right | intros [H|H]; [discriminate | assumption]].
  - split; [intros H; now right | intros [H|H]; [discriminate | assumption]].
Qed.

(** X2: with one finite value in the batch, 'min' and 'max' are finite
    values of the batch, every finite value lies between them, and so does
    the median. *)
Theorem calculate_bands_extremes (values : list pyfloat) :
  existsb isfinite values = true ->
  let s := calculate_bands values in
  In (Finite (st_min s)) values /\ In (Finite (st_max s)) values /\
  (forall v, In (Finite v) values -> st_min s <= v <= st_max s) /\
  st_min s <= st_median s <= st_max s.
Proof.
  intros H s. unfold s. rewrite (calculate_bands_finite values H). cbv zeta.
  cbn [st_min st_max st_median].
  assert (Hne : finite_values values <> []).
  { intros E. apply existsb_isfinite_nil in E. congruence. }
  destruct (np_min_least _ Hne) as [Imin Lmin].
  destruct (np_max_greatest _ Hne) as [Imax Lmax].
  rewrite Forall_forall in Lmin, Lmax.
  split; [now apply finite_values_In|]. split; [now apply finite_values_In|].
  split.
  - intros v Hv. apply finite_values_In in Hv. split; auto.
  - apply (np_median_between
             (fun m => np_min (finite_values values) <= m
                       <= np_max (finite_values values))); [exact Hne | |].
    + intros; lra.
    + apply Forall_forall. intros v Hv. split; auto.
Qed.

Lemma calculate_bands_extremes_witness :
  st_min (calculate_bands [Finite 4; NaN; Finite 5])
  <= st_median (calculate_bands [Finite 4; NaN; Finite 5]).
Proof.
  apply (calculate_bands_extremes [Finite 4; NaN; Finite 5]). reflexivity.
Defined.

End BandFacts.

Section OutlierFacts.

Lemma outliers_from_In i values stats threshold k :
  In k (outliers_from i values stats threshold) <->
  exists j val,
    k = (i + j)%nat /\ nth_error values j = Some val /\
    isfinite val = true /\ is_outlier val stats threshold = true.
Proof.
  revert i. induction values as [|w t IH]; intros i; simpl.
  - split; [contradiction|]. intros (j & val & _ & H & _). destruct j; discriminate.
  - destruct (isfinite w && is_outlier w stats threshold) eqn:E.
    + simpl. rewrite IH. split.
      * intros [<-|(j & val & -> & Hj & Hf & Ho)].
        -- apply andb_true_iff in E. exists 0%nat, w.
           rewrite Nat.add_0_r. simpl. tauto.
        -- exists (S j), val. repeat split; auto; lia.
      * intros ([|j] & val & -> & Hj & Hf & Ho).
        -- left. lia.
        -- right. exists j, val. repeat split; auto; lia.
    + rewrite IH. split.
      * intros (j & val & -> & Hj & Hf & Ho).
        exists (S j), val. repeat split; auto; lia.
      * intros ([|j] & val & -> & Hj & Hf & Ho).
        -- simpl in Hj. injection Hj as <-. rewrite Hf, Ho in E. discriminate.
        -- exists j, val. repeat split; auto; lia.
Qed.

Lemma outliers_from_increasing i values stats threshold :
  StronglySorted lt (outliers_from i values stats threshold) /\
  Forall (fun k => (i <= k)%nat) (outliers_from i values stats threshold).
Proof.
  revert i. induction values as [|w t IH]; intros i; simpl.
  - split; constructor.
  - destruct (IH (S i)) as [S1 F1].
    assert (F2 : Forall (fun k => (i <= k)%nat)
                        (outliers_from (S i) t stats threshold)).
    { eapply Forall_impl; [|exact F1]. intros; simpl in *; lia. }
    destruct (isfinite w && is_outlier w stats threshold).
    + split.
      * constructor; [exact S1|]. eapply Forall_impl; [|exact F1].
        intros; simpl in *; lia.
      * constructor; [lia | exact F2].
    + split; assumption.
Qed.

Lemma nth_error_finite_exists values k v :
  nth_error values k = Some (Finite v) -> existsb isfinite values = true.
Proof.
  intros H. apply existsb_exists. exists (Finite v).
  split; [eapply nth_error_In; exact H | reflexivity].
Qed.

(** X3: [get_outlier_indices] returns, in increasing order, exactly the
    positions of the finite values whose distance to the batch median
    exceeds threshold times the batch sigma; a NaN or infinite entry (a
    frame without the metric) is never listed. *)
Theorem get_outlier_indices_exact (values : list pyfloat) (sigma_threshold : R) :
  let s := calculate_bands values in
  StronglySorted lt (get_outlier_indices values sigma_threshold) /\
  forall k,
    In k (get_outlier_indices values sigma_threshold) <->
    exists v,
      nth_error values k = Some (Finite v) /\
      sigma_threshold * st_sigma s < Rabs (v - st_median s).
Proof.
  intros s. unfold get_outlier_indices. fold s. split.
  - apply outliers_from_increasing.
  - intros k. rewrite outliers_from_In. split.
    + intros (j & val & -> & Hj & Hf & Ho). simpl.
      destruct val as [v| | |]; try discriminate.
      exists v. split; [exact Hj|].
      unfold is_outlier in Ho. destruct (Reqb (st_sigma s) 0); [discriminate|].
      now apply Rltb_true.
    + intros (v & Hk & Hd). exists k, (Finite v).
      repeat split; auto.
      pose proof (calculate_bands_sigma_pos values
                    (nth_error_finite_exists values k v Hk)) as Hs.
      fold s in Hs. unfold is_outlier.
      assert (Reqb (st_sigma s) 0 = false) as -> by (apply Reqb_false; lra).
      now apply Rltb_true.
Qed.

(** X4: raising the threshold never adds an outlier: every index flagged
    at the larger threshold is flagged at the smaller one. *)
Theorem get_outlier_indices_antitone (values : list pyfloat) (t1 t2 : R) :
  t1 <= t2 ->
  incl (get_outlier_indices values t2) (get_outlier_indices values t1).
Proof.
  intros Ht k Hk.
  unfold get_outlier_indices in *. apply outliers_from_In in Hk.
  apply outliers_from_In.
  destruct Hk as (j & val & -> & Hj & Hf & Ho).
  exists j, val. repeat split; auto.
  destruct val as [v| | |]; try discriminate.
  pose proof (calculate_bands_sigma_pos values
                (nth_error_finite_exists values j v Hj)) as Hs.
  unfold is_outlier in *.
  destruct (Reqb (st_sigma (calculate_bands values)) 0); [discriminate|].
  apply Rltb_true in Ho. apply Rltb_true. nra.
Qed.

Lemma get_outlier_indices_antitone_witness :
  incl (get_outlier_indices [Finite 4; Finite 4; Finite 9] 3)
       (get_outlier_indices [Finite 4; Finite 4; Finite 9] 2).
Proof.
  apply (get_outlier_indices_antitone [Finite 4; Finite 4; Finite 9] 2 3). lra.
Defined.

(** For the statistics of a batch with a finite value, a finite value
    is an outlier at a threshold exactly when the absolute value of its
    [get_sigma_deviation] exceeds the threshold. *)
Theorem is_outlier_sigma_deviation (values : list pyfloat) (v t : R) :
  existsb isfinite values = true ->
  let s := calculate_bands values in
  is_outlier (Finite v) s t = true <-> t < Rabs (get_sigma_deviation v s).
Proof.
  intros H s. pose proof (calculate_bands_sigma_pos values H) as Hs. fold s in Hs.
  unfold is_outlier, get_sigma_deviation.
  assert (Reqb (st_sigma s) 0 = false) as -> by (apply Reqb_false; lra).
  rewrite Rltb_true.
  unfold Rdiv. rewrite Rabs_mult, (Rabs_pos_eq (/ st_sigma s))
    by (left; apply Rinv_0_lt_compat; exact Hs).
  split; intros L.
  - apply (Rmult_lt_reg_r (st_sigma s)); [exact Hs|].
    rewrite Rmult_assoc, Rinv_l by lra. lra.
  - apply (Rmult_lt_compat_r (st_sigma s)) in L; [|exact Hs].
    rewrite Rmult_assoc, Rinv_l in L by lra. lra.
Qed.

Lemma is_outlier_sigma_deviation_witness :
  is_outlier (Finite 9) (calculate_bands [Finite 4; Finite 5]) 2 = true <->
  2 < Rabs (get_sigma_deviation 9 (calculate_bands [Finite 4; Finite 5])).
Proof.
  apply (is_outlier_sigma_deviation [Finite 4; Finite 5] 9 2). reflexivity.
Defined.

End OutlierFacts.

Section ShiftFacts.

Variable c : R.









End ShiftFacts.


Section BatchStatisticsFacts.

Lemma existsb_of_map {A B} (f : B -> bool) (g : A -> B) (l : list A) :
  existsb f (map g l) = existsb (fun a => f (g a)) l.
Proof. induction l as [|a t IH]; simpl; [reflexivity | now rewrite IH]. Qed.

Lemma finite_values_map_finite l : finite_values (map Finite l) = l.
Proof. induction l as [|v t IH]; simpl; congruence. Qed.

(** The statistics of a batch are those of its finite values alone. *)
Lemma calculate_bands_finite_only values :
  existsb isfinite values = true ->
  calculate_bands values = calculate_bands (map Finite (finite_values values)).
Proof.
  intros H. rewrite (calculate_bands_finite values H).
  assert (H' : existsb isfinite (map Finite (finite_values values)) = true).
  { clear -H. induction values as [|v t IH]; simpl in *; [discriminate|].
    destruct v; simpl in *; auto. }
  rewrite (calculate_bands_finite _ H'), finite_values_map_finite.
  reflexivity.
Qed.

Lemma arcsec_finite_values (l : list FrameMetrics) :
  finite_values
    (map (fun v : option R => match v with Some r => Finite r | None => NaN end)
         (map m_fwhm_arcsec l)) =
  flat_map (fun m => match m_fwhm_arcsec m with Some v => [v] | None => [] end) l.
Proof.
  induction l as [|m t IH]; simpl; [reflexivity|].
  destruct (m_fwhm_arcsec m); simpl; now rewrite IH.
Qed.

Lemma arcsec_existsb (l : list FrameMetrics) :
  existsb isfinite
    (map (fun v : option R => match v with Some r => Finite r | None => NaN end)
         (map m_fwhm_arcsec l)) =
  existsb (fun m => match m_fwhm_arcsec m with Some _ => true | None => false end) l.
Proof.
  induction l as [|m t IH]; simpl; [reflexivity|].
  rewrite IH. destruct (m_fwhm_arcsec m); reflexivity.
Qed.

(** The dict [calculate_all_metric_stats] returns for a list that is not
    empty: the five base metrics, then 'fwhm_arcsec' when a frame has it,
    computed from the values of the frames that have it. *)
Lemma calculate_all_metric_stats_shape (l : list FrameMetrics) :
  l <> [] ->
  exists base,
    map fst base =
      ["fwhm"; "eccentricity"; "snr"; "star_count"; "background"]%string /\
    calculate_all_metric_stats l =
    base ++
    (if existsb (fun m => match m_fwhm_arcsec m with Some _ => true | None => false end) l
     then [("fwhm_arcsec"%string,
            calculate_bands
              (map Finite
                   (flat_map (fun m => match m_fwhm_arcsec m with
                                       | Some v => [v]
                                       | None => []
                                       end) l)))]
     else []).
Proof.
  intros Hne. unfold calculate_all_metric_stats.
  destruct l as [|m t]; [congruence|]. cbn [is_empty].
  eexists. split; [|].
  2:{ rewrite existsb_of_map.
      destruct (existsb _ (m :: t)) eqn:E.
      - rewrite calculate_bands_finite_only
          by (rewrite arcsec_existsb; exact E).
        rewrite arcsec_finite_values. reflexivity.
      - rewrite app_nil_r. reflexivity. }
  reflexivity.
Qed.

Lemma base_has_no_arcsec (base : list (string * MetricStats)) st :
  map fst base =
    ["fwhm"; "eccentricity"; "snr"; "star_count"; "background"]%string ->
  ~ In ("fwhm_arcsec"%string, st) base.
Proof.
  intros Hb Hin.
  apply (in_map fst) in Hin. rewrite Hb in Hin. cbn [fst] in Hin.
  simpl in Hin. intuition discriminate.
Qed.

(** X6: the 'fwhm_arcsec' statistics of a batch are those of the frames
    that have an FWHM in arcseconds: the frames without one (analysed
    without an image scale) take no part in them.  When no frame has one
    the batch has no 'fwhm_arcsec' entry; otherwise it has exactly one,
    the statistics of the values present, and it is the entry of the batch
    with the other frames left out. *)
Theorem fwhm_arcsec_statistics_skip_unscaled_frames
        (metrics_list : list FrameMetrics) :
  let has_arcsec := fun m =>
    match m_fwhm_arcsec m with Some _ => true | None => false end in
  let arcsec_values :=
    flat_map (fun m => match m_fwhm_arcsec m with Some v => [v] | None => [] end)
             metrics_list in
  (existsb has_arcsec metrics_list = false ->
   forall st,
     ~ In ("fwhm_arcsec"%string, st) (calculate_all_metric_stats metrics_list)) /\
  (existsb has_arcsec metrics_list = true ->
   forall st,
     In ("fwhm_arcsec"%string, st) (calculate_all_metric_stats metrics_list) <->
     st = calculate_bands (map Finite arcsec_values)) /\
  (forall st,
     In ("fwhm_arcsec"%string, st) (calculate_all_metric_stats metrics_list) <->
     In ("fwhm_arcsec"%string, st)
        (calculate_all_metric_stats (filter has_arcsec metrics_list))).
Proof.
  intros has_arcsec arcsec_values.
  assert (Hnone : forall l,
            existsb has_arcsec l = false ->
            forall st, ~ In ("fwhm_arcsec"%string, st)
                            (calculate_all_metric_stats l)).
  { intros l E st Hin.
    destruct l as [|m t]; [exact Hin|].
    destruct (calculate_all_metric_stats_shape (m :: t)) as (base & Hb & Hs);
      [discriminate|].
    rewrite Hs in Hin. fold has_arcsec in Hin. rewrite E, app_nil_r in Hin.
    exact (base_has_no_arcsec base st Hb Hin). }
  assert (Hsome : forall l,
            existsb has_arcsec l = true ->
            forall st,
              In ("fwhm_arcsec"%string, st) (calculate_all_metric_stats l) <->
              st = calculate_bands
                     (map Finite
                          (flat_map (fun m => match m_fwhm_arcsec m with
                                              | Some v => [v]
                                              | None => []
                                              end) l))).
  { intros l E st.
    assert (Hne : l <> []) by (intros ->; discriminate).
    destruct (calculate_all_metric_stats_shape l Hne) as (base & Hb & Hs).
    rewrite Hs. fold has_arcsec. rewrite E. split.
    - intros Hin. apply in_app_or in Hin. destruct Hin as [Hin|[Hin|[]]].
      + destruct (base_has_no_arcsec base st Hb Hin).
      + now injection Hin as <-.
    - intros ->. apply in_or_app. right. now left. }
  split; [apply Hnone|]. split; [apply Hsome|].
  intros st.
  assert (Hfilter_values :
            flat_map (fun m => match m_fwhm_arcsec m with
                               | Some v => [v]
                               | None => []
                               end) (filter has_arcsec metrics_list) =
            arcsec_values).
  { unfold arcsec_values, has_arcsec. clear.
    induction metrics_list as [|m t IH]; simpl; [reflexivity|].
    destruct (m_fwhm_arcsec m) eqn:E; simpl; [rewrite E; simpl|]; now rewrite IH. }
  assert (Hfilter_exists :
            existsb has_arcsec (filter has_arcsec metrics_list) =
            existsb has_arcsec metrics_list).
  { clear. induction metrics_list as [|m t IH]; simpl; [reflexivity|].
    destruct (has_arcsec m) eqn:E; simpl; [now rewrite E | exact IH]. }
  destruct (existsb has_arcsec metrics_list) eqn:E.
  - rewrite (Hsome metrics_list E st).
    rewrite (Hsome (filter has_arcsec metrics_list) Hfilter_exists st).
    rewrite Hfilter_values. reflexivity.
  - split; intros Hin.
    + destruct (Hnone metrics_list E st Hin).
    + destruct (Hnone _ Hfilter_exists st Hin).
Qed.

End BatchStatisticsFacts.

(** ** metrics.py: ranges, fallback entries and order *)

Section MetricRangeFacts.

(** X7: whatever the entries hold (negative or zero widths included),
    [calculate_eccentricity] returns a value between 0 and 1. *)
Theorem calculate_eccentricity_unit_interval (psf_results : list PSFResult) :
  0 <= calculate_eccentricity psf_results <= 1.
Proof.
  unfold calculate_eccentricity.
  destruct (is_empty psf_results); [lra|].
  destruct (ecc_values psf_results) as [|e t] eqn:E; cbn [is_empty]; [lra|].
  apply (np_median_between (fun v => 0 <= v <= 1)); [discriminate | |].
  - intros; lra.
  - rewrite <- E. apply ecc_values_unit.
Qed.

Lemma fwhm_values_between lo hi psf_results :
  0 <= lo ->
  Forall (fun s => get_fit_success s = true ->
                   lo <= fwhm_x s <= hi /\ lo <= fwhm_y s <= hi) psf_results ->
  Forall (fun v => lo <= v <= hi) (fwhm_values psf_results).
Proof.
  intros Hlo. induction 1 as [|s t Hs Ht IH]; simpl; [constructor|].
  destruct (get_fit_success s); [|exact IH].
  constructor; [|exact IH].
  destruct (Hs eq_refl) as [[Hx1 Hx2] [Hy1 Hy2]].
  split.
  - apply Rle_trans with (sqrt (lo * lo)); [rewrite sqrt_square by lra; lra|].
    apply sqrt_le_1_alt. nra.
  - apply Rle_trans with (sqrt (hi * hi)); [|rewrite sqrt_square by lra; lra].
    apply sqrt_le_1_alt. nra.
Qed.

Lemma fwhm_values_spec' (l : list PSFResult) :
  Forall (fun s => get_fit_success s = true) l ->
  fwhm_values l = map spec_fwhm l.
Proof.
  induction 1 as [|s t Hs Ht IH]; simpl; [reflexivity|].
  now rewrite Hs, IH.
Qed.

(** X8: [calculate_fwhm] is 0.0 when no entry has its flag true or
    absent; when there is such an entry it lies between any bounds (the
    lower one not negative) that hold for both widths of every such
    entry; and it is not negative when the two widths of every such entry
    have the same sign, which is where [np.sqrt] returns a number. *)
Theorem calculate_fwhm_range (psf_results : list PSFResult) :
  let successful := filter flag_not_false psf_results in
  (successful = [] -> calculate_fwhm psf_results = 0) /\
  (forall lo hi,
      0 <= lo ->
      successful <> [] ->
      Forall (fun s => lo <= fwhm_x s <= hi /\ lo <= fwhm_y s <= hi) successful ->
      lo <= calculate_fwhm psf_results <= hi) /\
  (Forall (fun s => 0 <= fwhm_x s * fwhm_y s) successful ->
   0 <= calculate_fwhm psf_results).
Proof.
  intros successful. unfold successful.
  rewrite <- filter_get_fit_success.
  rewrite calculate_fwhm_median. unfold median_or_zero.
  split; [|split].
  - intros ->. reflexivity.
  - intros lo hi Hlo Hne Hall.
    destruct (filter get_fit_success psf_results) as [|s t] eqn:E; [congruence|].
    cbn [map is_empty].
    apply (np_median_between (fun v => lo <= v <= hi)); [discriminate | |].
    + intros; lra.
    + change (spec_fwhm s :: map spec_fwhm t) with (map spec_fwhm (s :: t)).
      assert (Hok : Forall (fun a => get_fit_success a = true) (s :: t)).
      { rewrite <- E. apply Forall_forall. intros a Ha.
        apply filter_In in Ha. tauto. }
      rewrite <- (fwhm_values_spec' (s :: t) Hok).
      apply fwhm_values_between; [exact Hlo|].
      eapply Forall_impl; [|exact Hall]. intros a Ha _. exact Ha.
  - intros _.
    destruct (map spec_fwhm (filter get_fit_success psf_results)) as [|v t] eqn:E;
      cbn [is_empty]; [lra|].
    apply np_median_nonneg. rewrite <- E.
    apply Forall_map, Forall_forall. intros s _. apply sqrt_pos.
Qed.

End MetricRangeFacts.

Section FallbackFacts.

Lemma filter_idem {A} (f : A -> bool) l : filter f (filter f l) = filter f l.
Proof.
  induction l as [|a t IH]; simpl; [reflexivity|].
  destruct (f a) eqn:E; simpl; [now rewrite E, IH | exact IH].
Qed.

Lemma ecc_values_filter psf_results :
  ecc_values (filter get_fit_success psf_results) = ecc_values psf_results.
Proof.
  induction psf_results as [|s t IH]; simpl; [reflexivity|].
  destruct (get_fit_success s) eqn:E; simpl; [|exact IH].
  rewrite E, IH. reflexivity.
Qed.

Lemma is_empty_nil_iff {A} (l : list A) : is_empty l = true <-> l = [].
Proof. destruct l; simpl; split; congruence. Qed.

(** X9: the entries whose fit failed (fit_success false) have no influence
    on any metric of the frame: [calculate_all] gives the same record on the
    list of PSF results and on its successful entries alone. *)
Theorem calculate_all_ignores_fallback_entries
        (image : Image) (psf_results : list PSFResult) (image_scale : option R) :
  calculate_all image psf_results image_scale =
  calculate_all image (filter get_fit_success psf_results) image_scale.
Proof.
  assert (Hf : calculate_fwhm psf_results =
               calculate_fwhm (filter get_fit_success psf_results)).
  { rewrite !calculate_fwhm_median, filter_idem. reflexivity. }
  assert (He : calculate_eccentricity psf_results =
               calculate_eccentricity (filter get_fit_success psf_results)).
  { unfold calculate_eccentricity. rewrite ecc_values_filter.
    destruct (is_empty psf_results) eqn:E1.
    - apply is_empty_nil_iff in E1. subst. reflexivity.
    - destruct (is_empty (filter get_fit_success psf_results)) eqn:E2;
        [|reflexivity].
      apply is_empty_nil_iff in E2.
      rewrite (ecc_values_no_success _ E2). reflexivity. }
  assert (Hs : calculate_snr image psf_results =
               calculate_snr image (filter get_fit_success psf_results)).
  { unfold calculate_snr. rewrite !snr_amplitudes_spec, filter_idem.
    destruct (is_empty psf_results) eqn:E1.
    - apply is_empty_nil_iff in E1. subst. reflexivity.
    - destruct (is_empty (filter get_fit_success psf_results)) eqn:E2;
        [|reflexivity].
      apply is_empty_nil_iff in E2. rewrite E2. reflexivity. }
  assert (Hc : calculate_star_count psf_results =
               calculate_star_count (filter get_fit_success psf_results)).
  { unfold calculate_star_count. rewrite filter_idem.
    destruct (is_empty psf_results) eqn:E1.
    - apply is_empty_nil_iff in E1. subst. reflexivity.
    - destruct (is_empty (filter get_fit_success psf_results)) eqn:E2;
        [|reflexivity].
      apply is_empty_nil_iff in E2. rewrite E2. reflexivity. }
  unfold calculate_all. rewrite <- Hf, <- He, <- Hs, <- Hc. reflexivity.
Qed.

Lemma filter_permutation {A} (f : A -> bool) l l' :
  Permutation l l' -> Permutation (filter f l) (filter f l').
Proof.
  induction 1 as [|a l l' P IH|a b l|l l' l'' P1 IH1 P2 IH2]; simpl.
  - constructor.
  - destruct (f a); auto.
  - destruct (f a), (f b); auto. apply perm_swap.
  - etransitivity; eassumption.
Qed.

Lemma is_empty_permutation {A} (l l' : list A) :
  Permutation l l' -> is_empty l = is_empty l'.
Proof.
  intros P. destruct l, l'; try reflexivity.
  - apply Permutation_nil in P. discriminate.
  - apply Permutation_sym, Permutation_nil in P. discriminate.
Qed.

Lemma np_sum_permutation l l' : Permutation l l' -> np_sum l = np_sum l'.
Proof.
  unfold np_sum. induction 1; simpl; try lra. 
Qed.

Lemma np_mean_permutation l l' : Permutation l l' -> np_mean l = np_mean l'.
Proof.
  intros P. unfold np_mean.
  now rewrite (np_sum_permutation _ _ P), (Permutation_length P).
Qed.

Lemma ecc_values_as_filter psf_results :
  ecc_values psf_results =
  flat_map (fun s => match star_eccentricity s with Some e => [e] | None => [] end)
           (filter get_fit_success psf_results).
Proof.
  induction psf_results as [|s t IH]; simpl; [reflexivity|].
  destruct (get_fit_success s); simpl; [|exact IH].
  destruct (star_eccentricity s); simpl; now rewrite IH.
Qed.

Lemma flat_map_permutation {A B} (f : A -> list B) l l' :
  Permutation l l' -> Permutation (flat_map f l) (flat_map f l').
Proof.
  induction 1 as [|a l l' P IH|a b l|l l' l'' P1 IH1 P2 IH2]; simpl.
  - constructor.
  - now apply Permutation_app_head.
  - rewrite !app_assoc. apply Permutation_app_tail, Permutation_app_comm.
  - etransitivity; eassumption.
Qed.

(** X10: the FWHM, the FWHM in arcseconds, the eccentricity, the star
    count and the background of a frame do not depend on the order in
    which the stars are listed (each is a median or a count), and the
    SNR averages the same amplitudes, listed in another order. *)
Theorem calculate_all_permutation_invariant
        (image : Image) (psf_results psf_results' : list PSFResult)
        (image_scale : option R) :
  Permutation psf_results psf_results' ->
  let m := calculate_all image psf_results image_scale in
  let m' := calculate_all image psf_results' image_scale in
  m_fwhm m = m_fwhm m' /\
  m_fwhm_arcsec m = m_fwhm_arcsec m' /\
  m_eccentricity m = m_eccentricity m' /\
  m_star_count m = m_star_count m' /\
  m_background m = m_background m' /\
  Permutation (snr_amplitudes psf_results) (snr_amplitudes psf_results').
Proof.
  intros P.
  pose proof (filter_permutation get_fit_success _ _ P) as PF.
  assert (Hf : calculate_fwhm psf_results = calculate_fwhm psf_results').
  { rewrite !calculate_fwhm_median. unfold median_or_zero.
    rewrite !is_empty_map, (is_empty_permutation _ _ PF).
    destruct (is_empty _); [reflexivity|].
    apply np_median_permutation, Permutation_map, PF. }
  assert (He : calculate_eccentricity psf_results =
               calculate_eccentricity psf_results').
  { unfold calculate_eccentricity.
    rewrite (is_empty_permutation _ _ P).
    assert (PE : Permutation (ecc_values psf_results) (ecc_values psf_results')).
    { rewrite !ecc_values_as_filter. apply flat_map_permutation, PF. }
    rewrite (is_empty_permutation _ _ PE), (np_median_permutation _ _ PE).
    reflexivity. }
  assert (Hc : calculate_star_count psf_results =
               calculate_star_count psf_results').
  { unfold calculate_star_count.
    rewrite (is_empty_permutation _ _ P), (Permutation_length PF). reflexivity. }
  cbv zeta. unfold calculate_all.
  cbn [m_fwhm m_fwhm_arcsec m_eccentricity m_star_count m_background].
  rewrite Hf, He, Hc. repeat split.
  rewrite !snr_amplitudes_spec.
  apply filter_permutation, Permutation_map, PF.
Qed.

Lemma calculate_all_permutation_invariant_witness :
  m_eccentricity
    (calculate_all Demo.strip
       [mkPSF 1 1 3 5 (Some 10) (Some true); mkPSF 2 2 4 4 None None] None) =
  m_eccentricity
    (calculate_all Demo.strip
       [mkPSF 2 2 4 4 None None; mkPSF 1 1 3 5 (Some 10) (Some true)] None).
Proof.
  apply (calculate_all_permutation_invariant Demo.strip
           [mkPSF 1 1 3 5 (Some 10) (Some true); mkPSF 2 2 4 4 None None]
           [mkPSF 2 2 4 4 None None; mkPSF 1 1 3 5 (Some 10) (Some true)] None).
  apply perm_swap.
Defined.

End FallbackFacts.

Section NoiseFacts.

Lemma snr_amplitudes_positive psf_results :
  Forall (fun a => 0 < a) (snr_amplitudes psf_results).
Proof.
  induction psf_results as [|s t IH]; simpl; [constructor|].
  destruct (get_fit_success s); simpl; [|exact IH].
  destruct (Rltb 0 (get_amplitude s)) eqn:E; [|exact IH].
  constructor; [now apply Rltb_true | exact IH].
Qed.

Lemma np_sum_positive l : l <> [] -> Forall (fun a => 0 < a) l -> 0 < np_sum l.
Proof.
  intros Hne H. destruct H as [|a t Ha Ht]; [congruence|].
  unfold np_sum. simpl.
  assert (0 <= fold_right Rplus 0 t).
  { clear Hne Ha. induction Ht as [|b u Hb Hu IH]; simpl; lra. }
  lra.
Qed.

Lemma np_mean_positive l : l <> [] -> Forall (fun a => 0 < a) l -> 0 < np_mean l.
Proof.
  intros Hne H. unfold np_mean. apply Rdiv_lt_0_compat.
  - now apply np_sum_positive.
  - apply lt_0_INR. destruct l; simpl; [congruence | lia].
Qed.

Lemma np_std_nonneg a : 0 <= np_std a.
Proof. unfold np_std. apply sqrt_pos. Qed.

Lemma estimate_noise_nonneg image : 0 <= _estimate_noise image.
Proof.
  unfold _estimate_noise. destruct (_ =? 0)%nat; [lra | apply np_std_nonneg].
Qed.

(** X11: the signal-to-noise ratio is never negative; it is 0.0 when no
    successful entry has a positive amplitude or when the noise estimate is
    0, and otherwise it is the mean of those amplitudes over the noise
    estimate, a positive number. *)
Theorem calculate_snr_sign (image : Image) (psf_results : list PSFResult) :
  0 <= calculate_snr image psf_results /\
  (snr_amplitudes psf_results = [] -> calculate_snr image psf_results = 0) /\
  (_estimate_noise image = 0 -> calculate_snr image psf_results = 0) /\
  (snr_amplitudes psf_results <> [] -> _estimate_noise image <> 0 ->
   calculate_snr image psf_results =
     np_mean (snr_amplitudes psf_results) / _estimate_noise image /\
   0 < calculate_snr image psf_results).
Proof.
  pose proof (estimate_noise_nonneg image) as Hn.
  pose proof (snr_amplitudes_positive psf_results) as Hp.
  unfold calculate_snr.
  destruct psf_results as [|s t] eqn:Epsf; cbn [is_empty].
  { simpl. repeat split; try lra; intros; congruence. }
  rewrite <- Epsf in *. clear Epsf.
  destruct (snr_amplitudes psf_results) as [|a u] eqn:Ea; cbn [is_empty].
  { repeat split; try lra; intros; congruence. }
  assert (Hm : 0 < np_mean (a :: u)) by (apply np_mean_positive; [discriminate | exact Hp]).
  destruct (Rleb (_estimate_noise image) 0) eqn:El.
  - apply Rleb_true in El. assert (_estimate_noise image = 0) by lra.
    repeat split; try lra; intros; try congruence.
  - apply Rleb_false in El.
    assert (0 < np_mean (a :: u) / _estimate_noise image)
      by (apply Rdiv_lt_0_compat; lra).
    repeat split; try lra; intros; try discriminate; lra.
Qed.

Lemma filter_filter {A} (p q : A -> bool) l :
  filter p (filter q l) = filter (fun a => q a && p a) l.
Proof.
  induction l as [|a t IH]; simpl; [reflexivity|].
  destruct (q a); simpl; [destruct (p a); now rewrite IH | exact IH].
Qed.

Lemma filter_true {A} (l : list A) : filter (fun _ => true) l = l.
Proof. induction l; simpl; congruence. Qed.

Lemma sigma_clip_loop_keeps iters clipped sigma :
  exists keep, _sigma_clip_loop iters clipped sigma = filter keep clipped.
Proof.
  revert clipped. induction iters as [|k IH]; intros clipped; simpl.
  - exists (fun _ => true). now rewrite filter_true.
  - destruct (Reqb (np_std clipped) 0).
    + exists (fun _ => true). now rewrite filter_true.
    + destruct (_ =? _)%nat.
      * exists (fun _ => true). now rewrite filter_true.
      * destruct (IH (filter (fun v => Rltb (Rabs (v - np_median clipped))
                                            (sigma * np_std clipped)) clipped))
          as (keep & E).
        rewrite E, filter_filter. eexists. reflexivity.
Qed.

(** X12: sigma clipping only removes values: what [_sigma_clip] returns is
    the input with some entries left out, the others in their order; so it
    is never longer than the input and holds no value the input lacks. *)
Theorem sigma_clip_keeps_a_selection (data : list R) (sigma : R) (max_iters : nat) :
  (exists keep, _sigma_clip data sigma max_iters = filter keep data) /\
  (length (_sigma_clip data sigma max_iters) <= length data)%nat /\
  incl (_sigma_clip data sigma max_iters) data.
Proof.
  unfold _sigma_clip.
  destruct (sigma_clip_loop_keeps max_iters data sigma) as (keep & E).
  split; [exists keep; exact E|]. rewrite E. split.
  - apply filter_length_le.
  - intros v Hv. apply filter_In in Hv. tauto.
Qed.

Lemma np_sum_repeat v n : np_sum (repeat v n) = INR n * v.
Proof.
  unfold np_sum. induction n as [|n IH]; [simpl; lra|].
  cbn [repeat fold_right]. rewrite IH, S_INR. lra.
Qed.

Lemma np_mean_repeat v n : np_mean (repeat v (S n)) = v.
Proof.
  unfold np_mean. rewrite np_sum_repeat, repeat_length.
  field. apply not_0_INR. lia.
Qed.

Lemma np_std_repeat v n : np_std (repeat v (S n)) = 0.
Proof.
  unfold np_std. rewrite np_mean_repeat.
  replace (map (fun x => (x - v) * (x - v)) (repeat v (S n)))
    with (repeat 0 (S n)).
  - rewrite np_mean_repeat. apply sqrt_0.
  - generalize (S n) as k. induction k; simpl; [reflexivity|].
    rewrite <- IHk. f_equal. lra.
Qed.

(** X13: on a frame whose pixels all hold the same value, sigma clipping
    removes no pixel and [calculate_background] returns that value. *)
Theorem flat_image_background (image : Image) (v : R) (n : nat) :
  ravel image = repeat v (S n) ->
  _sigma_clip (ravel image) 3.0 5 = ravel image /\
  calculate_background image = v.
Proof.
  intros Hflat.
  assert (Hclip : _sigma_clip (ravel image) 3.0 5 = repeat v (S n)).
  { rewrite Hflat. unfold _sigma_clip. cbn [_sigma_clip_loop].
    rewrite np_std_repeat.
    assert (Reqb 0 0 = true) as -> by (apply Reqb_true; reflexivity).
    reflexivity. }
  split; [now rewrite Hclip, Hflat|].
  unfold calculate_background. rewrite Hclip. apply np_median_repeat.
Qed.

Lemma flat_image_background_witness :
  calculate_background [[7; 7]; [7; 7]] = 7.
Proof.
  apply (flat_image_background [[7; 7]; [7; 7]] 7 3). reflexivity.
Defined.

End NoiseFacts.

(** ** fits_reader.py: folders, files and the image scale *)

Section FolderFacts.


Lemma insert_by_filename_perm f l :
  Permutation (insert_by_filename f l) (f :: l).
Proof.
  induction l as [|g t IH]; simpl; auto.
  destruct (String.leb (filename f) (filename g)); auto.
  rewrite IH. apply perm_swap.
Qed.

Lemma sort_by_filename_perm l : Permutation (sort_by_filename l) l.
Proof.
  induction l as [|f t IH]; simpl; auto.
  rewrite insert_by_filename_perm. auto.
Qed.




End FolderFacts.

Section FileFacts.

(** An HDU that [load_file] passes over: no data, or an array of fewer
    than two dimensions. *)
Lemma load_file_loop_skips os skipped rest :
  Forall (fun hdu => match hdu_data hdu with
                     | None | Some (Arr1 _) => True
                     | _ => False
                     end) skipped ->
  load_file_loop os (skipped ++ rest) = load_file_loop os rest.
Proof.
  induction 1 as [|hdu t Hh Ht IH]; simpl; [reflexivity|].
  destruct (hdu_data hdu) as [[a|a|a]|]; try contradiction; exact IH.
Qed.

(** X15: [load_file] raises FileNotFoundError for a path that does not
    exist, and what [fits.open] raises for a file that does not open.
    For a file that opens it passes over the HDUs without data or with an
    array of fewer than two dimensions, and returns the first array of two
    dimensions, or the first plane of the first array of three
    dimensions, with every pixel cast to float32 and the shape kept; when
    every HDU is passed over it raises ValueError. *)
Theorem load_file_first_image (os : OS) (filepath : string)
        (skipped rest : list HDU) :
  (path_exists os filepath = false ->
   load_file os filepath =
   Raise (mkExn FileNotFoundError
                ("FITS file not found: " ++ path_str os filepath)%string)) /\
  (path_exists os filepath = true ->
   (forall e, fits_open os filepath = Raise e -> load_file os filepath = Raise e) /\
   (Forall (fun hdu => match hdu_data hdu with
                       | None | Some (Arr1 _) => True
                       | _ => False
                       end) skipped ->
    (forall header image,
        fits_open os filepath =
          Ok (skipped ++ mkHDU header (Some (Arr2 image)) :: rest) ->
        load_file os filepath = Ok (map (map (float32 os)) image)) /\
    (forall header plane planes,
        fits_open os filepath =
          Ok (skipped ++ mkHDU header (Some (Arr3 (plane :: planes))) :: rest) ->
        load_file os filepath = Ok (map (map (float32 os)) plane)) /\
    (fits_open os filepath = Ok skipped ->
     load_file os filepath =
     Raise (mkExn ValueError
                  ("No image data found in FITS file: " ++ path_str os filepath)%string)))) /\
  (forall image : Image,
      shape0 (map (map (float32 os)) image) = shape0 image /\
      shape1 (map (map (float32 os)) image) = shape1 image).
Proof.
  split; [|split].
  - intros H. unfold load_file. now rewrite H.
  - intros H. unfold load_file. rewrite H. cbn [negb].
    split; [intros e E; now rewrite E|].
    intros Hskip. split; [|split].
    + intros header image E. rewrite E. cbn [bind].
      now rewrite (load_file_loop_skips os skipped _ Hskip).
    + intros header plane planes E. rewrite E. cbn [bind].
      now rewrite (load_file_loop_skips os skipped _ Hskip).
    + intros E. rewrite E. cbn [bind].
      rewrite <- (app_nil_r skipped), (load_file_loop_skips os skipped [] Hskip).
      reflexivity.
  - intros image. unfold shape0, shape1. split; [apply length_map|].
    destruct image as [|row t]; [reflexivity|]. simpl. apply length_map.
Qed.

(** A file whose first HDU has no data and whose second holds a cube of
    two planes: the first plane is returned, cast. *)
Lemma load_file_first_image_witness :
  let os := Demo.disk_os
              [("cube.fits"%string,
                Demo.FitsFile [mkHDU Demo.plain_header None;
                               mkHDU [] (Some (Arr3 [Demo.strip; [[9; 9; 9; 9; 9; 9; 9]]]))])] in
  load_file os "cube.fits" = Ok (map (map (float32 os)) Demo.strip).
Proof.
  intros os.
  destruct (load_file_first_image os "cube.fits"
              [mkHDU Demo.plain_header None] []) as (_ & H & _).
  destruct (H eq_refl) as (_ & H').
  destruct H' as (_ & Hcube & _).
  - repeat constructor.
  - exact (Hcube [] Demo.strip [[[9; 9; 9; 9; 9; 9; 9]]] eq_refl).
Defined.

(** [get_imaging_params] raises exactly when the file cannot be
    opened, with the exception of [fits.open]; no header content makes it
    raise. *)
Theorem get_imaging_params_raises_iff (os : OS) (filepath : string) (e : exn) :
  get_imaging_params os filepath = Raise e <-> fits_open os filepath = Raise e.
Proof.
  destruct (fits_open os filepath) as [hdul|e'] eqn:E.
  - assert (H : get_header os filepath = Ok (get_header_loop hdul))
      by (unfold get_header; now rewrite E).
    rewrite (get_imaging_params_eq os filepath _ H). split; discriminate.
  - assert (H : get_imaging_params os filepath = Raise e')
      by (unfold get_imaging_params, get_header; rewrite E; reflexivity).
    rewrite H. split; intros [= ->]; reflexivity.
Qed.

(** X16: an image scale that [get_imaging_params] derives is never zero; it
    is positive when the pixel size is positive; and [calculate_all] given
    that scale always reports an FWHM in arcseconds, the FWHM in pixels
    times the scale. *)
Theorem derived_image_scale_is_used (os : OS) (filepath : string)
        (params : ImagingParams) (s : R)
        (image : Image) (psf_results : list PSFResult) :
  get_imaging_params os filepath = Ok params ->
  image_scale params = Some s ->
  s <> 0 /\
  (forall p, pixel_size_um params = Some p -> 0 < p -> 0 < s) /\
  m_fwhm_arcsec (calculate_all image psf_results (image_scale params)) =
    Some (calculate_fwhm psf_results * s).
Proof.
  intros Hp Hs.
  destruct (fits_open os filepath) as [hdul|e'] eqn:E.
  2:{ unfold get_imaging_params, get_header in Hp. rewrite E in Hp. discriminate. }
  assert (H : get_header os filepath = Ok (get_header_loop hdul))
    by (unfold get_header; now rewrite E).
  rewrite (get_imaging_params_eq os filepath _ H) in Hp. cbv zeta in Hp.
  remember (first_usable os pixel_size_keys (get_header_loop hdul)) as px.
  remember (first_usable os focal_length_keys (get_header_loop hdul)) as fl.
  remember (first_usable os aperture_keys (get_header_loop hdul)) as ap.
  clear Heqpx Heqfl Heqap.
  injection Hp as <-.
  cbn [image_scale pixel_size_um] in Hs |- *.
  destruct px as [p|]; [|discriminate].
  destruct fl as [f|]; [|discriminate].
  cbn [truthy_float] in Hs |- *.
  destruct (Reqb p 0) eqn:Ep; [discriminate|].
  destruct (Reqb f 0) eqn:Ef; [discriminate|].
  destruct (Rltb 0 f) eqn:Ef'; [|discriminate].
  cbn [negb andb] in Hs |- *. injection Hs as <-.
  apply Reqb_false in Ep. apply Rltb_true in Ef'.
  assert (Hinv : 0 < / f) by (apply Rinv_0_lt_compat; exact Ef').
  assert (Hne : p / f * 206.265 <> 0).
  { unfold Rdiv. intros Hz.
    assert (p * / f = 0) by lra.
    apply Rmult_integral in H0. destruct H0; lra. }
  split; [exact Hne|]. split.
  - intros q [= <-] Hq. unfold Rdiv.
    assert (0 < p * / f) by (apply Rmult_lt_0_compat; assumption). lra.
  - rewrite fwhm_arcsec_of_scale.
    apply Reqb_false in Hne. now rewrite Hne.
Qed.

Lemma derived_image_scale_is_used_witness :
  m_fwhm_arcsec
    (calculate_all Demo.strip [] (Some ((3.76 / 400) * 206.265))) =
  Some (calculate_fwhm [] * ((3.76 / 400) * 206.265)).
Proof.
  apply (derived_image_scale_is_used
           (Demo.disk_os Demo.zero_pixel_disk) "zero.fits"
           (mkParams (Some 3.76) (Some 400) None (Some ((3.76 / 400) * 206.265)))
           ((3.76 / 400) * 206.265) Demo.strip []).
  - apply get_imaging_params_zero_pixel.
  - reflexivity.
Defined.

End FileFacts.

(** ** star_detector.py: the box, the rounding and the window *)

Section WindowFacts.

(** The constructor of the detector always leaves an odd box size:
    the requested size when it is odd, the next integer when it is even;
    the other settings are stored unchanged. *)
Theorem StarDetector_init_box_odd (fwhm thr : R) (maxs box : Z) :
  let self := StarDetector_init fwhm thr maxs box in
  (box_size self mod 2 = 1)%Z /\
  (box mod 2 = 1 -> box_size self = box)%Z /\
  (box mod 2 = 0 -> box_size self = box + 1)%Z /\
  fwhm_estimate self = fwhm /\ threshold_sigma self = thr /\ max_stars self = maxs.
Proof.
  cbn [StarDetector_init box_size fwhm_estimate threshold_sigma max_stars].
  destruct (Z.eqb_spec (box mod 2) 1) as [E|E].
  - repeat split; auto. lia.
  - repeat split; auto; try lia. Z.div_mod_to_equations. lia.
Qed.

(** [round] as [fit_psf] uses it returns an integer at distance at
    most one half from its argument, and an integer argument unchanged. *)
Theorem py_round_nearest (r : R) :
  Rabs (r - IZR (py_round r)) <= 1 / 2 /\
  forall z : Z, r = IZR z -> py_round r = z.
Proof.
  destruct (base_Int_part r) as [Hlo Hhi].
  split.
  - unfold py_round. cbv zeta.
    destruct (Rltb (r - IZR (Int_part r)) (1 / 2)) eqn:E1.
    + apply Rltb_true in E1. apply Rabs_le. lra.
    + apply Rltb_false in E1.
      destruct (Rltb (1 / 2) (r - IZR (Int_part r))) eqn:E2.
      * rewrite plus_IZR. apply Rabs_le. lra.
      * apply Rltb_false in E2.
        destruct (Z.even (Int_part r)); [|rewrite plus_IZR]; apply Rabs_le; lra.
  - intros z ->. unfold py_round. cbv zeta.
    assert (Ez : Int_part (IZR z) = z).
    { symmetry. apply Int_part_spec. lra. }
    rewrite Ez.
    assert (Rltb (IZR z - IZR z) (1 / 2) = true) as -> by (apply Rltb_true; lra).
    reflexivity.
Qed.

Lemma py_slice_nth {A} (l : list A) (a b : Z) (i : nat) (d : A) :
  (0 <= a <= b)%Z -> (b <= Z.of_nat (length l))%Z -> (Z.of_nat i < b - a)%Z ->
  nth i (py_slice l a b) d = nth (Z.to_nat a + i) l d.
Proof.
  intros Hab Hb Hi. unfold py_slice, slice_index.
  assert ((a <? 0)%Z = false) as -> by (apply Z.ltb_ge; lia).
  assert ((b <? 0)%Z = false) as -> by (apply Z.ltb_ge; lia).
  rewrite nth_firstn.
  assert ((i <? Nat.min (Z.to_nat b) (length l) - Nat.min (Z.to_nat a) (length l))%nat
          = true) as -> by (apply Nat.ltb_lt; lia).
  rewrite nth_skipn. f_equal. lia.
Qed.

(** X17: for a candidate that passes the bounds test on a rectangular
    image, the cutout [fit_psf] extracts has 2 * half_box + 1 rows and
    columns and its pixel (i, j) is the pixel (y - half_box + i,
    x - half_box + j) of the image; its centre is the pixel (y, x). *)
Theorem extract_cutout_window (image : Image) (half_box x y : Z) :
  rectangular image -> (0 <= half_box)%Z ->
  window_outside image half_box x y = false ->
  let cutout := extract_cutout image half_box x y in
  let size := Z.to_nat (2 * half_box + 1) in
  shape0 cutout = size /\ shape1 cutout = size /\ rectangular cutout /\
  (forall i j, (i < size)%nat -> (j < size)%nat ->
     pixel cutout i j =
     pixel image (Z.to_nat (y - half_box) + i) (Z.to_nat (x - half_box) + j)) /\
  pixel cutout (size / 2) (size / 2) = pixel image (Z.to_nat y) (Z.to_nat x).
Proof.
  intros Hrect Hh Hin cutout size.
  destruct (extract_cutout_shape image half_box x y Hrect Hh Hin) as [Hs0 Hrows].
  fold cutout in Hs0, Hrows. fold size in Hs0, Hrows.
  unfold window_outside in Hin.
  rewrite !orb_false_iff, !Z.ltb_ge in Hin.
  destruct Hin as [[[Hx0 Hx1] Hy0] Hy1].
  assert (Hx1' : (x + half_box < Z.of_nat (shape1 image))%Z)
    by (destruct (Z.geb_spec (x + half_box) (Z.of_nat (shape1 image)));
        [discriminate | lia]).
  assert (Hy1' : (y + half_box < Z.of_nat (shape0 image))%Z)
    by (destruct (Z.geb_spec (y + half_box) (Z.of_nat (shape0 image)));
        [discriminate | lia]).
  assert (Hpix : forall i j, (i < size)%nat -> (j < size)%nat ->
     pixel cutout i j =
     pixel image (Z.to_nat (y - half_box) + i) (Z.to_nat (x - half_box) + j)).
  { intros i j Hi Hj. unfold pixel, cutout, extract_cutout.
    rewrite (nth_indep _ [] (py_slice [] (x - half_box) (x + half_box + 1)))
      by (rewrite length_map, py_slice_length by (unfold shape0 in *; lia);
          unfold size in Hi; lia).
    rewrite (map_nth (fun row => py_slice row (x - half_box) (x + half_box + 1))).
    rewrite py_slice_nth with (l := image)
      by (unfold shape0 in *; unfold size in Hi; lia).
    assert (Hrow : length (nth (Z.to_nat (y - half_box) + i) image []) = shape1 image).
    { unfold rectangular in Hrect. rewrite Forall_forall in Hrect.
      apply Hrect, nth_In. unfold shape0 in *. unfold size in Hi. lia. }
    apply py_slice_nth; try rewrite Hrow; unfold size in Hj; lia. }
  split; [exact Hs0|]. split.
  { unfold shape1. destruct cutout as [|row rest] eqn:Ec.
    - unfold shape0 in Hs0. simpl in Hs0. unfold size in Hs0. lia.
    - inversion Hrows; subst. assumption. }
  split.
  { unfold rectangular.
    assert (E1 : shape1 cutout = size).
    { unfold shape1. destruct cutout as [|row rest] eqn:Ec.
      - unfold shape0 in Hs0. simpl in Hs0. unfold size in Hs0. lia.
      - inversion Hrows; subst. assumption. }
    rewrite E1. exact Hrows. }
  split; [exact Hpix|].
  assert (Hc : (size / 2 < size)%nat) by (apply Nat.div_lt; unfold size; lia).
  rewrite (Hpix _ _ Hc Hc).
  assert (Hhalf : (size / 2)%nat = Z.to_nat half_box).
  { unfold size. apply Nat2Z.inj. rewrite Nat2Z.inj_div, !Z2Nat.id by lia.
    simpl Z.of_nat. Z.div_mod_to_equations. lia. }
  rewrite Hhalf. f_equal; lia.
Qed.

Lemma extract_cutout_window_witness :
  shape0 (extract_cutout [[1; 2; 3]; [4; 5; 6]; [7; 8; 9]] 1 1 1) = 3%nat.
Proof.
  apply (extract_cutout_window [[1; 2; 3]; [4; 5; 6]; [7; 8; 9]] 1 1 1).
  - repeat constructor.
  - lia.
  - reflexivity.
Defined.

End WindowFacts.

Section FitOutputFacts.

(** An entry of the output of [fit_psf]: a fitted one with widths inside
    the sanity bounds, or the fallback of its candidate. *)
Lemma emitted_shape sp self image star r :
  emitted sp self image star r ->
  (fit_success r = Some true /\
   0.5 <= fwhm_x r <= IZR (box_size self) /\
   0.5 <= fwhm_y r <= IZR (box_size self) /\
   exists a, amplitude r = Some a) \/
  (fit_success r = Some false /\
   fwhm_x r = fwhm_estimate self /\ fwhm_y r = fwhm_estimate self /\
   amplitude r = Some (star_peak star)).
Proof.
  intros (_ & _ & Hbad & Hgood). unfold fit_unusable in *.
  assert (Hfall :
            fwhm_x r = fwhm_estimate self /\ fwhm_y r = fwhm_estimate self /\
            amplitude r = Some (star_peak star) /\ fit_success r = Some false ->
            fit_success r = Some false /\
            fwhm_x r = fwhm_estimate self /\ fwhm_y r = fwhm_estimate self /\
            amplitude r = Some (star_peak star)) by tauto.
  destruct (star_fit sp self image star) as [popt|e].
  - destruct (Rlt_dec (2.355 * g_sigma_x popt) 0.5) as [A|A];
      [right; apply Hfall, Hbad; tauto|].
    destruct (Rlt_dec (2.355 * g_sigma_y popt) 0.5) as [B|B];
      [right; apply Hfall, Hbad; tauto|].
    destruct (Rlt_dec (IZR (box_size self)) (2.355 * g_sigma_x popt)) as [C|C];
      [right; apply Hfall, Hbad; unfold Rgt; tauto|].
    destruct (Rlt_dec (IZR (box_size self)) (2.355 * g_sigma_y popt)) as [D|D];
      [right; apply Hfall, Hbad; unfold Rgt; tauto|].
    left. destruct Hgood as (popt' & E & Hx & Hy & Ha & Hs).
    { unfold Rgt. intros [?|[?|[?|?]]]; lra. }
    injection E as <-. rewrite Hx, Hy. repeat split; try lra; auto.
    eexists; exact Ha.
  - right. apply Hfall, Hbad. exact I.
Qed.

Lemma Forall2_right {A B} (R : A -> B -> Prop) (P : B -> Prop) l m :
  (forall a b, R a b -> P b) -> Forall2 R l m -> Forall P m.
Proof. intros H. induction 1; constructor; eauto. Qed.

(** X18: on a rectangular image and with a constructor box size of at
    least 1, [fit_psf] returns at most one entry per candidate; an entry
    marked successful has both widths between 0.5 px and the box size, an
    entry marked failed has both widths equal to the expected FWHM, and
    every entry carries the 'fit_success' and 'amplitude' keys. *)
Theorem fit_psf_entries (sp : Scipy) (fwhm thr : R) (maxs box : Z)
        (image : Image) (stars : list Candidate) :
  let self := StarDetector_init fwhm thr maxs box in
  (1 <= box)%Z -> rectangular image ->
  exists results,
    fit_psf sp self image stars = Ok results /\
    (length results <= length stars)%nat /\
    Forall (fun r =>
              (exists a, amplitude r = Some a) /\
              ((fit_success r = Some true /\
                0.5 <= fwhm_x r <= IZR (box_size self) /\
                0.5 <= fwhm_y r <= IZR (box_size self)) \/
               (fit_success r = Some false /\
                fwhm_x r = fwhm /\ fwhm_y r = fwhm)))
           results.
Proof.
  intros self Hbox Hrect.
  destruct (fit_psf_loop_spec sp fwhm thr maxs box image Hbox Hrect stars [])
    as (out & E & F).
  fold self in E, F. exists out. split; [exact E|]. split.
  - rewrite <- (Forall2_length F). apply filter_length_le.
  - eapply Forall2_right; [|exact F].
    intros star r Hem. destruct (emitted_shape _ _ _ _ _ Hem) as [H|H].
    + destruct H as (Hs & Hx & Hy & Ha). split; [exact Ha|]. left. tauto.
    + destruct H as (Hs & Hx & Hy & Ha). split; [eexists; exact Ha|]. right.
      tauto.
Qed.

Lemma fit_psf_entries_witness :
  exists results,
    fit_psf Demo.strip_scipy (StarDetector_init 5 5 2 1) Demo.strip
            [Demo.strip_star_2] = Ok results /\
    (length results <= 1)%nat.
Proof.
  destruct (fit_psf_entries Demo.strip_scipy 5 5 2 1 Demo.strip [Demo.strip_star_2])
    as (results & E & L & _).
  - lia.
  - repeat constructor.
  - exists results. split; [exact E | exact L].
Defined.

Lemma median_or_zero_between lo hi values :
  lo <= 0 <= hi -> Forall (fun v => lo <= v <= hi) values ->
  lo <= median_or_zero values <= hi.
Proof.
  intros H0 H. unfold median_or_zero.
  destruct values as [|v t]; cbn [is_empty]; [lra|].
  apply (np_median_between (fun m => lo <= m <= hi)); [discriminate | | exact H].
  intros; lra.
Qed.

(** X19: the metrics of a frame computed from what [fit_psf] returns: the
    star count is at most the number of candidates, the eccentricity stays
    below 1 by the margin the width bounds leave, and when a star counts
    the FWHM lies between 0.5 px and the box size. *)
Theorem metrics_of_fitted_stars (sp : Scipy) (fwhm thr : R) (maxs box : Z)
        (image : Image) (stars : list Candidate) :
  let self := StarDetector_init fwhm thr maxs box in
  (1 <= box)%Z -> rectangular image ->
  exists results,
    fit_psf sp self image stars = Ok results /\
    (calculate_star_count results <= length stars)%nat /\
    0 <= calculate_eccentricity results
      <= sqrt (1 - (0.5 / IZR (box_size self)) ^ 2) /\
    sqrt (1 - (0.5 / IZR (box_size self)) ^ 2) < 1 /\
    ((0 < calculate_star_count results)%nat ->
     0.5 <= calculate_fwhm results <= IZR (box_size self)).
Proof.
  intros self Hbox Hrect.
  destruct (fit_psf_loop_spec sp fwhm thr maxs box image Hbox Hrect stars [])
    as (out & E & F).
  fold self in E, F. exists out. split; [exact E|].
  assert (Hbs : 1 <= IZR (box_size self)).
  { apply IZR_le. destruct (box_size_odd fwhm thr maxs box Hbox) as [Hh Hodd].
    fold self in Hh, Hodd. lia. }
  assert (Hok : Forall (fun r => get_fit_success r = true ->
                          0.5 <= fwhm_x r <= IZR (box_size self) /\
                          0.5 <= fwhm_y r <= IZR (box_size self)) out).
  { eapply Forall2_right; [|exact F].
    intros star r Hem. destruct (emitted_shape _ _ _ _ _ Hem) as [H|H].
    - intros _. tauto.
    - destruct H as (Hs & _). unfold get_fit_success. rewrite Hs. discriminate. }
  assert (Hsucc : Forall (fun r => 0.5 <= fwhm_x r <= IZR (box_size self) /\
                                   0.5 <= fwhm_y r <= IZR (box_size self))
                         (filter get_fit_success out)).
  { apply Forall_forall. intros r Hr. apply filter_In in Hr.
    rewrite Forall_forall in Hok. apply Hok; tauto. }
  assert (Hmargin : 0 < (0.5 / IZR (box_size self)) ^ 2).
  { apply pow_lt. apply Rdiv_lt_0_compat; lra. }
  assert (Hsmall : (0.5 / IZR (box_size self)) ^ 2 <= 1).
  { assert (0.5 / IZR (box_size self) <= 1).
    { apply (Rmult_le_reg_r (IZR (box_size self))); [lra|].
      unfold Rdiv. rewrite Rmult_assoc, Rinv_l by lra. lra. }
    assert (0 < 0.5 / IZR (box_size self)) by (apply Rdiv_lt_0_compat; lra).
    replace ((0.5 / IZR (box_size self)) ^ 2)
      with ((0.5 / IZR (box_size self)) * (0.5 / IZR (box_size self))) by ring.
    nra. }
  split; [|split; [|split]].
  - unfold calculate_star_count. destruct (is_empty out); [lia|].
    etransitivity; [apply filter_length_le|].
    rewrite <- (Forall2_length F). apply filter_length_le.
  - rewrite calculate_eccentricity_median.
    + apply median_or_zero_between.
      * split; [lra | apply sqrt_pos].
      * apply Forall_map, Forall_forall. intros r Hr.
        rewrite Forall_forall in Hsucc. destruct (Hsucc r Hr) as [Hx Hy].
        split; [apply sqrt_pos | now apply spec_eccentricity_margin].
    + eapply Forall_impl; [|exact Hok]. intros r Hr Hs.
      destruct (Hr Hs). split; lra.
  - apply Rlt_le_trans with (sqrt 1); [|rewrite sqrt_1; lra].
    apply sqrt_lt_1_alt. lra.
  - intros Hcount. rewrite calculate_fwhm_median. unfold median_or_zero.
    unfold calculate_star_count in Hcount.
    destruct (is_empty out); [lia|].
    destruct (filter get_fit_success out) as [|r t] eqn:Ef; [simpl in Hcount; lia|].
    cbn [map is_empty].
    apply (np_median_between (fun v => 0.5 <= v <= IZR (box_size self)));
      [discriminate | intros; lra |].
    change (spec_fwhm r :: map spec_fwhm t) with (map spec_fwhm (r :: t)).
    apply Forall_map. eapply Forall_impl; [|exact Hsucc].
    intros a [[Hx1 Hx2] [Hy1 Hy2]]. unfold spec_fwhm. split.
    + apply Rle_trans with (sqrt (0.5 * 0.5)); [rewrite sqrt_square by lra; lra|].
      apply sqrt_le_1_alt. nra.
    + apply Rle_trans with (sqrt (IZR (box_size self) * IZR (box_size self)));
        [|rewrite sqrt_square by lra; lra].
      apply sqrt_le_1_alt. nra.
Qed.

Lemma metrics_of_fitted_stars_witness :
  exists results,
    fit_psf Demo.strip_scipy (StarDetector_init 5 5 2 1) Demo.strip
            [Demo.strip_star_2] = Ok results /\
    (calculate_star_count results <= 1)%nat.
Proof.
  destruct (metrics_of_fitted_stars Demo.strip_scipy 5 5 2 1 Demo.strip
                                    [Demo.strip_star_2])
    as (results & E & L & _).
  - lia.
  - repeat constructor.
  - exists results. split; [exact E | exact L].
Defined.

Lemma fit_psf_loop_all_outside sp self image half_box stars acc :
  (forall x y, window_outside image half_box x y = true) ->
  fit_psf_loop sp self image half_box stars acc = Ok acc.
Proof.
  intros H. induction stars as [|star rest IH]; simpl; [reflexivity|].
  now rewrite H.
Qed.

(** X20: on an image narrower or lower than the fitting box no candidate
    passes the bounds test: [fit_psf] returns the empty list, whatever
    the candidates and the solver. *)
Theorem fit_psf_small_image (sp : Scipy) (self : StarDetector) (image : Image)
        (stars : list Candidate) :
  (Z.of_nat (shape1 image) < 2 * (box_size self / 2) + 1 \/
   Z.of_nat (shape0 image) < 2 * (box_size self / 2) + 1)%Z ->
  fit_psf sp self image stars = Ok [].
Proof.
  intros Hsmall. unfold fit_psf. cbv zeta.
  apply fit_psf_loop_all_outside. intros x y. unfold window_outside.
  rewrite !orb_true_iff, !Z.ltb_lt, !Z.geb_le. lia.
Qed.

Lemma fit_psf_small_image_witness :
  fit_psf Demo.strip_scipy Demo.two_star_detector Demo.strip
          [Demo.strip_star_1; Demo.strip_star_2] = Ok [].
Proof.
  apply (fit_psf_small_image Demo.strip_scipy Demo.two_star_detector Demo.strip).
  right. simpl. lia.
Defined.

End FitOutputFacts.

(** ** star_detector.py: the two detectors and the fitted model *)

Section DetectorFacts.

Lemma sorted_prefix_dominates {A} (key : A -> R) (l : list A) (n : nat) :
  StronglySorted (desc key) l ->
  forall a b, In a (firstn n l) -> In b (skipn n l) -> key b <= key a.
Proof.
  intros S. revert n. induction S as [|x t St IH Hx]; intros n a b Ha Hb.
  - rewrite firstn_nil in Ha. contradiction.
  - destruct n as [|n]; [contradiction|]. simpl in Ha, Hb.
    destruct Ha as [<-|Ha].
    + rewrite Forall_forall in Hx. apply Hx.
      rewrite <- (firstn_skipn n t). apply in_or_app. now right.
    + exact (IH n a b Ha Hb).
Qed.

Lemma source_to_star_sorted l :
  StronglySorted (desc src_flux) l ->
  StronglySorted (desc star_flux) (map source_to_star l).
Proof.
  induction 1 as [|a t St IH Ha]; simpl; constructor; auto.
  rewrite Forall_map. eapply Forall_impl; [|exact Ha]. intros b Hb; exact Hb.
Qed.

(** X21: when photutils is used and [max_stars] is not negative, a detection
    that returns gives the brightest rows of the finder's table, brightest
    first: min(max_stars, rows) stars, each a row of the table, which
    together with the rows left out make up the table, and no row left
    out is brighter than a star kept (whatever the order among rows of
    equal flux).  A failure of the background estimation never shows: the
    detection raises only what the finder raises. *)
Theorem detect_with_photutils_top (ph : Photutils) (self : StarDetector)
        (image : Image) :
  (0 <= max_stars self)%Z ->
  match _detect_with_photutils ph self image with
  | Ok stars =>
      exists image_sub threshold found,
        DAOStarFinder ph (fwhm_estimate self) threshold image_sub = Ok found /\
        let table := match found with Some t => t | None => [] end in
        StronglySorted (desc star_flux) stars /\
        length stars = Nat.min (Z.to_nat (max_stars self)) (length table) /\
        exists left_out,
          Permutation (stars ++ left_out) (map source_to_star table) /\
          (forall kept other,
              In kept stars -> In other left_out ->
              star_flux other <= star_flux kept)
  | Raise e =>
      exists image_sub threshold,
        DAOStarFinder ph (fwhm_estimate self) threshold image_sub = Raise e
  end.
Proof.
  intros Hmax.
  destruct (_detect_with_photutils ph self image) as [stars|e] eqn:E.
  - destruct (detect_with_photutils_ranked ph self image stars Hmax E)
      as (Hsorted & Hlen & image_sub & threshold & found & Hf & Hstars).
    exists image_sub, threshold, found. split; [exact Hf|]. cbv zeta.
    set (table := match found with Some t => t | None => [] end) in *.
    set (ranked := map source_to_star (sort_desc src_flux table)) in *.
    split; [exact Hsorted|]. split.
    { rewrite Hstars, length_firstn. unfold ranked.
      now rewrite length_map, sort_desc_length. }
    exists (skipn (Z.to_nat (max_stars self)) ranked). split.
    { rewrite Hstars, firstn_skipn. unfold ranked.
      apply Permutation_map, sort_desc_perm. }
    intros kept other Hk Hl. rewrite Hstars in Hk.
    apply (sorted_prefix_dominates star_flux ranked (Z.to_nat (max_stars self)));
      [|exact Hk | exact Hl].
    apply source_to_star_sorted, sort_desc_sorted.
  - unfold _detect_with_photutils in E.
    destruct (try_except _ _) as [bg|e0] eqn:Ebg; cbn [bind] in E.
    + destruct (DAOStarFinder ph _ _ _) as [[t|]|e1] eqn:F; cbn [bind] in E;
        try discriminate.
      injection E as <-. eexists _, _. exact F.
    + exfalso. unfold try_except in Ebg.
      destruct (bind (Background2D ph image) _); discriminate.
Qed.

(** A finder that returns three sources, of flux 1, 5 and 3, and a
    detector that keeps two: two stars come back, and the source left out
    is no brighter than either. *)
Lemma detect_with_photutils_top_witness :
  exists stars left_out,
    _detect_with_photutils Demo.bright_photutils Demo.two_star_detector
                           Demo.strip = Ok stars /\
    length stars = 2%nat /\
    Permutation (stars ++ left_out)
                [mkStar 0 0 1 1; mkStar 2 0 5 5; mkStar 4 0 3 3] /\
    (forall kept other,
        In kept stars -> In other left_out -> star_flux other <= star_flux kept).
Proof.
  pose proof (detect_with_photutils_top Demo.bright_photutils
                Demo.two_star_detector Demo.strip) as H.
  assert (Hmax : (0 <= max_stars Demo.two_star_detector)%Z) by (simpl; lia).
  specialize (H Hmax).
  destruct (_detect_with_photutils Demo.bright_photutils Demo.two_star_detector
                                   Demo.strip) as [stars|e].
  - destruct H as (image_sub & threshold & found & Hf & Hs & Hlen & left_out & Hp & Hd).
    cbn [DAOStarFinder Demo.bright_photutils] in Hf. injection Hf as <-.
    exists stars, left_out. split; [reflexivity|].
    split; [exact Hlen|]. split; [exact Hp | exact Hd].
  - destruct H as (image_sub & threshold & Hf).
    cbn [DAOStarFinder Demo.bright_photutils] in Hf. discriminate.
Defined.

Lemma simple_stars_In image bkg labeled labels star :
  In star (simple_stars image bkg labeled labels) ->
  exists i, In i labels /\ simple_star image bkg labeled i = Some star.
Proof.
  induction labels as [|i rest IH]; simpl; [contradiction|].
  destruct (simple_star image bkg labeled i) as [s|] eqn:E.
  - intros [<-|H].
    + exists i. split; [now left | exact E].
    + destruct (IH H) as (j & Hj & Ej). exists j. split; [now right | exact Ej].
  - intros H. destruct (IH H) as (j & Hj & Ej). exists j. split; [now right | exact Ej].
Qed.

(** X22: without photutils and with [max_stars] not negative, the fallback
    detector returns its stars by flux, brightest first, and at most
    [max_stars] of them; each one is the star of a region whose label is
    at most the number of regions and at most [max_stars]. *)
Theorem detect_simple_output (sp : Scipy) (self : StarDetector) (image : Image) :
  (0 <= max_stars self)%Z ->
  let bkg := np_median (ravel image) in
  let smoothed :=
    gaussian_filter sp (image_sub_scalar image bkg) (fwhm_estimate self / 2.355) in
  let data_max := maximum_filter sp smoothed (py_int (fwhm_estimate self * 2)) in
  let peaks :=
    zip_with (zip_with (fun s m =>
                          Reqb s m && Rltb (threshold_sigma self * std_below_p90 image) s))
             smoothed data_max in
  let stars := _detect_simple sp self image in
  detect_stars None sp self image = Ok stars /\
  StronglySorted (desc star_flux) stars /\
  (Z.of_nat (length stars) <= max_stars self)%Z /\
  (forall star, In star stars ->
     exists i,
       (1 <= i <= snd (label sp peaks))%nat /\
       (Z.of_nat i <= max_stars self)%Z /\
       simple_star image bkg (fst (label sp peaks)) i = Some star).
Proof.
  intros Hmax bkg smoothed data_max peaks stars.
  destruct (detect_simple_ranked sp self image Hmax) as [Hs Hl].
  split; [reflexivity|]. split; [exact Hs|]. split; [exact Hl|].
  intros star Hin. unfold stars in Hin.
  rewrite (detect_simple_cuts_before_ranking sp self image Hmax) in Hin.
  cbv zeta in Hin. fold bkg in Hin. fold smoothed in Hin. fold data_max in Hin.
  fold peaks in Hin.
  eapply Permutation_in in Hin; [|apply sort_desc_perm].
  destruct (simple_stars_In _ _ _ _ _ Hin) as (i & Hi & Ei).
  exists i. apply in_seq in Hi. repeat split; try lia. exact Ei.
Qed.

Lemma detect_simple_output_witness :
  (Z.of_nat (length (_detect_simple Demo.strip_scipy Demo.two_star_detector
                                    Demo.strip)) <= 2)%Z.
Proof.
  apply (detect_simple_output Demo.strip_scipy Demo.two_star_detector Demo.strip).
  simpl. lia.
Defined.

Lemma gaussian_exponent_nonneg (p : GaussParams) x y :
  g_sigma_x p <> 0 -> g_sigma_y p <> 0 ->
  0 <= (x - g_x0 p) ^ 2 / (2 * g_sigma_x p ^ 2) +
       (y - g_y0 p) ^ 2 / (2 * g_sigma_y p ^ 2).
Proof.
  intros Hx Hy.
  assert (Hsx : 0 < 2 * g_sigma_x p ^ 2)
    by (assert (0 < g_sigma_x p ^ 2) by (simpl; nra); lra).
  assert (Hsy : 0 < 2 * g_sigma_y p ^ 2)
    by (assert (0 < g_sigma_y p ^ 2) by (simpl; nra); lra).
  apply Rplus_le_le_0_compat; unfold Rdiv; apply Rmult_le_pos;
    try apply pow2_ge_0; left; apply Rinv_0_lt_compat; assumption.
Qed.

Lemma exp_le (a b : R) : a <= b -> exp a <= exp b.
Proof.
  intros [H| ->]; [left; now apply exp_increasing | lra].
Qed.

(** X23: for widths that are not zero, the fitted model [_gaussian_2d]
    takes the value offset + amplitude at its centre and the same value at
    the mirror images of a point about the centre; for an amplitude that
    is not negative it stays between offset and offset + amplitude, and
    it does not increase when a point moves away from the centre along
    x. *)
Theorem gaussian_2d_shape (p : GaussParams) :
  g_sigma_x p <> 0 -> g_sigma_y p <> 0 ->
  _gaussian_2d (g_x0 p, g_y0 p) p = g_offset p + g_amplitude p /\
  (forall x x' y y',
      x - g_x0 p = - (x' - g_x0 p) -> y - g_y0 p = - (y' - g_y0 p) ->
      _gaussian_2d (x, y) p = _gaussian_2d (x', y') p /\
      _gaussian_2d (x, y) p = _gaussian_2d (x', y) p /\
      _gaussian_2d (x, y) p = _gaussian_2d (x, y') p) /\
  (0 <= g_amplitude p ->
   forall x y,
     g_offset p <= _gaussian_2d (x, y) p <= g_offset p + g_amplitude p) /\
  (0 <= g_amplitude p ->
   forall x x' y,
     (x - g_x0 p) ^ 2 <= (x' - g_x0 p) ^ 2 ->
     _gaussian_2d (x', y) p <= _gaussian_2d (x, y) p).
Proof.
  intros Hx Hy. unfold _gaussian_2d. cbn [fst snd].
  split; [|split; [|split]].
  - replace (- ((g_x0 p - g_x0 p) ^ 2 / (2 * g_sigma_x p ^ 2) +
                (g_y0 p - g_y0 p) ^ 2 / (2 * g_sigma_y p ^ 2))) with 0.
    + rewrite exp_0. lra.
    + unfold Rdiv. ring.
  - intros x x' y y' Ex Ey.
    assert (Sx : (x - g_x0 p) ^ 2 = (x' - g_x0 p) ^ 2) by (rewrite Ex; ring).
    assert (Sy : (y - g_y0 p) ^ 2 = (y' - g_y0 p) ^ 2) by (rewrite Ey; ring).
    rewrite Sx, Sy. repeat split.
  - intros Ha x y.
    pose proof (gaussian_exponent_nonneg p x y Hx Hy) as Ht.
    set (t := (x - g_x0 p) ^ 2 / (2 * g_sigma_x p ^ 2) +
              (y - g_y0 p) ^ 2 / (2 * g_sigma_y p ^ 2)) in *.
    pose proof (exp_pos (- t)) as Hpos.
    assert (Hle : exp (- t) <= 1) by (rewrite <- exp_0; apply exp_le; lra).
    nra.
  - intros Ha x x' y Hd.
    assert (Hsx : 0 < 2 * g_sigma_x p ^ 2)
      by (assert (0 < g_sigma_x p ^ 2) by (simpl; nra); lra).
    assert (Hq : (x - g_x0 p) ^ 2 / (2 * g_sigma_x p ^ 2) <=
                 (x' - g_x0 p) ^ 2 / (2 * g_sigma_x p ^ 2)).
    { unfold Rdiv. apply Rmult_le_compat_r; [|exact Hd].
      left. now apply Rinv_0_lt_compat. }
    apply Rplus_le_compat_l, Rmult_le_compat_l; [exact Ha|].
    apply exp_le. lra.
Qed.

Lemma gaussian_2d_shape_witness :
  1 <= _gaussian_2d (3, 4) (mkGauss 10 7 7 2 2 1) <= 1 + 10.
Proof.
  destruct (gaussian_2d_shape (mkGauss 10 7 7 2 2 1)) as (_ & _ & H & _);
    [simpl; lra | simpl; lra |].
  apply (H ltac:(simpl; lra) 3 4).
Defined.

End DetectorFacts.

(** ** analyzer.py: workers, results and progress *)

Section CountFacts.

Lemma fit_psf_loop_length sp self image half_box stars acc out :
  fit_psf_loop sp self image half_box stars acc = Ok out ->
  (length out <= length acc + length stars)%nat.
Proof.
  revert acc. induction stars as [|star rest IH]; intros acc; simpl.
  - intros [= <-]. lia.
  - destruct (window_outside _ _ _ _).
    + intros H. apply IH in H. lia.
    + destruct (_fit_gaussian_2d sp self _) as [[fit|]|e]; cbn [bind];
        try discriminate; intros H; apply IH in H; rewrite length_app in H;
        simpl in H; lia.
Qed.

Lemma fit_psf_length sp self image stars out :
  fit_psf sp self image stars = Ok out -> (length out <= length stars)%nat.
Proof.
  unfold fit_psf. intros H. apply fit_psf_loop_length in H. simpl in H. lia.
Qed.

Lemma detect_stars_capped photutils sp self image stars :
  (0 <= max_stars self)%Z ->
  detect_stars photutils sp self image = Ok stars ->
  (Z.of_nat (length stars) <= max_stars self)%Z.
Proof.
  intros Hmax. unfold detect_stars. destruct photutils as [ph|].
  - intros H. apply (detect_with_photutils_ranked ph self image stars Hmax H).
  - intros [= <-]. apply (detect_simple_ranked sp self image Hmax).
Qed.

Lemma calculate_star_count_le psf_results :
  (calculate_star_count psf_results <= length psf_results)%nat.
Proof.
  unfold calculate_star_count. destruct (is_empty psf_results); [lia|].
  apply filter_length_le.
Qed.

End CountFacts.

Section ResultFacts.

Variable libs : Libs.

(** X24: the worker of the parallel mode never raises.  Its result names
    the file it was given; it carries metrics exactly when it carries no
    error; and when it carries metrics (and [max_stars] is not negative)
    the number of stars counted is at most the number fitted, which is at
    most the number detected, which is at most [max_stars]. *)
Theorem analyze_single_file_result (args : WorkerArgs) :
  (0 <= arg_max_stars args)%Z ->
  exists r,
    _analyze_single_file libs args = Ok r /\
    result_filepath r = arg_filepath args /\
    result_filename r = path_name (libs_os libs) (arg_filepath args) /\
    (result_metrics r = None <-> result_error r <> None) /\
    counts_ordered (arg_max_stars args) r.
Proof.
  intros Hmax. unfold _analyze_single_file. cbv zeta.
  destruct (load_file (libs_os libs) (arg_filepath args)) as [image|e];
    cbn [bind try_except].
  2:{ eexists. split; [reflexivity|]. cbn. repeat split; try congruence; auto. }
  destruct (detect_stars _ _ _ image) as [stars|e] eqn:Ed; cbn [bind try_except].
  2:{ eexists. split; [reflexivity|]. cbn. repeat split; try congruence; auto. }
  destruct (fit_psf _ _ image stars) as [psf|e] eqn:Ef; cbn [bind try_except].
  2:{ eexists. split; [reflexivity|]. cbn. repeat split; try congruence; auto. }
  eexists. split; [reflexivity|].
  cbn [result_filepath result_filename result_metrics result_error counts_ordered].
  split; [reflexivity|]. split; [reflexivity|]. split.
  - split; [discriminate | intros H; exfalso; now apply H].
  - split; [apply calculate_star_count_le|].
    split; [exact (fit_psf_length _ _ _ _ _ Ef)|].
    exact (detect_stars_capped _ _
             (StarDetector_init (arg_fwhm_estimate args) (arg_threshold_sigma args)
                                (arg_max_stars args) 15) _ _ Hmax Ed).
Qed.

End ResultFacts.

Lemma analyze_single_file_result_witness :
  exists r,
    _analyze_single_file Demo.batch_libs (mkArgs "broken.fits" 5 5 500 None) = Ok r /\
    result_filepath r = "broken.fits"%string.
Proof.
  destruct (analyze_single_file_result Demo.batch_libs
              (mkArgs "broken.fits" 5 5 500 None)) as (r & E & P & _).
  - simpl. lia.
  - exists r. split; [exact E | exact P].
Defined.

Section WorkerCountFacts.

(** X25: the constructor of the analyzer always leaves at least one worker
    and, on a machine with at least one core, never more workers than
    cores; without an explicit request it takes all the cores but two.
    The detector it builds shares its settings and has the box size 15. *)
Theorem SubframeAnalyzer_init_workers (libs : Libs) (fwhm thr : R) (maxs : Z)
        (requested : option Z) :
  let self := SubframeAnalyzer_init libs fwhm thr maxs requested in
  (1 <= num_workers self)%Z /\
  (1 <= cpu_count libs -> num_workers self <= cpu_count libs)%Z /\
  (forall n, requested = Some n -> 1 <= n <= cpu_count libs ->
             num_workers self = n)%Z /\
  (requested = None -> 3 <= cpu_count libs ->
   num_workers self = cpu_count libs - 2)%Z /\
  star_detector self = StarDetector_init fwhm thr maxs 15 /\
  box_size (star_detector self) = 15%Z /\
  an_fwhm_estimate self = fwhm /\ an_threshold_sigma self = thr /\
  an_max_stars self = maxs.
Proof.
  cbn [SubframeAnalyzer_init num_workers star_detector an_fwhm_estimate
       an_threshold_sigma an_max_stars].
  repeat split; try lia.
  - intros n -> Hn. lia.
  - intros -> Hc. lia.
Qed.

End WorkerCountFacts.

Section ProgressFacts.

Variable libs : Libs.
Variable self : SubframeAnalyzer.

Lemma analyze_sequential_loop_log files i total cb image_scale acc log :
  snd (_analyze_sequential_loop libs self files i total cb image_scale acc log) =
  log ++ (if cb
          then map (fun nf => (fst nf, total, filename (snd nf)))
                   (combine (seq (S i) (length files)) files)
          else []).
Proof.
  revert i acc log. induction files as [|f rest IH]; intros i acc log.
  - cbn. destruct cb; now rewrite app_nil_r.
  - cbn [_analyze_sequential_loop length seq combine map]. rewrite IH.
    destruct cb; [|reflexivity].
    rewrite <- app_assoc. cbn [app fst snd].
    replace (i + 1)%nat with (S i) by lia. reflexivity.
Qed.

Lemma analyze_single_file_filename args r :
  _analyze_single_file libs args = Ok r ->
  result_filename r = path_name (libs_os libs) (arg_filepath args).
Proof.
  unfold _analyze_single_file. cbv zeta.
  destruct (load_file _ _) as [image|e]; cbn [bind try_except];
    [|now intros [= <-]].
  destruct (detect_stars _ _ _ image) as [stars|e]; cbn [bind try_except];
    [|now intros [= <-]].
  destruct (fit_psf _ _ image stars) as [psf|e]; cbn [bind try_except];
    now intros [= <-].
Qed.

Lemma analyze_parallel_loop_log args completed total cb acc log :
  exists rs,
    _analyze_parallel_loop (map (_analyze_single_file libs) args)
                           completed total cb acc log =
    Ok (acc ++ rs,
        log ++ (if cb
                then map (fun na => (fst na, total,
                                     path_name (libs_os libs) (arg_filepath (snd na))))
                         (combine (seq (S completed) (length args)) args)
                else [])).
Proof.
  revert completed acc log.
  induction args as [|a rest IH]; intros completed acc log.
  - exists []. cbn. destruct cb; now rewrite !app_nil_r.
  - cbn [map _analyze_parallel_loop length seq combine].
    destruct (analyze_single_file_total libs a) as (r & E & _). rewrite E.
    cbn [bind].
    destruct (IH (completed + 1)%nat (acc ++ [r])
                 (if cb then log ++ [((completed + 1)%nat, total, result_filename r)]
                  else log)) as (rs & E').
    exists (r :: rs). rewrite E', <- app_assoc. cbn [app]. f_equal. f_equal.
    destruct cb; [|reflexivity].
    rewrite <- app_assoc. cbn [app fst snd]. 
    rewrite (analyze_single_file_filename a r E).
    replace (completed + 1)%nat with (S completed) by lia. reflexivity.
Qed.

(** X26: without a progress callback nothing is reported.  With one, the
    sequential mode reports each file once, in the order of the files, as
    (position counted from 1, total, the file's 'filename' entry); the
    parallel mode reports, for every order in which the workers finish,
    each file once, in the order of the files, as (count from 1, total,
    name of the file's path). *)
Theorem progress_reports (files : list FileInfo) (total : nat) (workers : Z)
        (image_scale : option R) (schedule : list nat) :
  Permutation schedule (seq 0 (length files)) ->
  snd (_analyze_sequential libs self files total false image_scale) = [] /\
  snd (_analyze_sequential libs self files total true image_scale) =
    map (fun nf => (fst nf, total, filename (snd nf)))
        (combine (seq 1 (length files)) files) /\
  (exists rs, _analyze_parallel libs self files total workers false image_scale
                                schedule = Ok (rs, [])) /\
  (exists rs, _analyze_parallel libs self files total workers true image_scale
                                schedule =
              Ok (rs, map (fun nf => (fst nf, total,
                                      path_name (libs_os libs) (path (snd nf))))
                          (combine (seq 1 (length files)) files))).
Proof.
  intros P. unfold _analyze_sequential. rewrite !analyze_sequential_loop_log.
  split; [reflexivity|]. split; [reflexivity|].
  unfold _analyze_parallel. cbv zeta.
  rewrite pool_imap_ordered by (rewrite length_map; exact P).
  split.
  - destruct (analyze_parallel_loop_log
                (map (fun f => mkArgs (path f) (an_fwhm_estimate self)
                                      (an_threshold_sigma self) (an_max_stars self)
                                      image_scale) files)
                0%nat total false [] []) as (rs & E).
    exists rs. exact E.
  - destruct (analyze_parallel_loop_log
                (map (fun f => mkArgs (path f) (an_fwhm_estimate self)
                                      (an_threshold_sigma self) (an_max_stars self)
                                      image_scale) files)
                0%nat total true [] []) as (rs & E).
    exists rs. rewrite E. cbn [app]. do 2 f_equal.
    rewrite length_map.
    generalize 1%nat as k. clear. induction files as [|f t IH]; intros k;
      [reflexivity|].
    cbn [map length seq combine fst snd arg_filepath]. now rewrite IH.
Qed.

End ProgressFacts.

Lemma progress_reports_witness :
  snd (_analyze_sequential Demo.batch_libs Demo.batch_analyzer
         [Demo.plain_file; Demo.broken_file] 2 true None) =
  [(1%nat, 2%nat, "plain.fits"%string); (2%nat, 2%nat, "broken.fits"%string)].
Proof.
  apply (progress_reports Demo.batch_libs Demo.batch_analyzer
           [Demo.plain_file; Demo.broken_file] 2 1 None [1; 0]%nat).
  apply perm_swap.
Defined.

Section BatchFacts.

Variable libs : Libs.

Lemma valid_metrics_nil rs :
  valid_metrics rs = [] <-> Forall (fun r => result_metrics r = None) rs.
Proof.
  induction rs as [|r t IH]; simpl; [split; constructor|].
  destruct (result_metrics r) eqn:E.
  - split; [discriminate|]. intros H. inversion H; congruence.
  - rewrite IH. split; [now constructor | intros H; now inversion H].
Qed.

Lemma calculate_all_metric_stats_nil l :
  calculate_all_metric_stats l = [] <-> l = [].
Proof.
  split; [|intros ->; reflexivity].
  unfold calculate_all_metric_stats. destruct l as [|m t]; [reflexivity|].
  cbn [is_empty]. destruct (existsb _ _); discriminate.
Qed.

(** X27: when the header of the first file can be read, [analyze_files]
    returns for every order in which the workers finish: 'total_files' is
    the number of files, 'results' holds one result per file in the order
    of the files, 'imaging_params' are those of the first file, the
    statistics are computed from the results that carry metrics (and are
    empty exactly when no file could be analysed), and 'workers_used' is
    the configured number when the parallel mode ran and 1 otherwise. *)
Theorem analyze_files_batch (self : SubframeAnalyzer) (files : list FileInfo)
        (cb use_parallel : bool) (schedule : list nat)
        (first : FileInfo) (rest : list FileInfo) (params : ImagingParams) :
  files = first :: rest ->
  get_imaging_params (libs_os libs) (path first) = Ok params ->
  Permutation schedule (seq 0 (length files)) ->
  exists batch log,
    analyze_files libs self files cb use_parallel schedule = Ok (batch, log) /\
    total_files batch = length files /\
    length (results batch) = length files /\
    map result_filepath (results batch) = map path files /\
    imaging_params batch = Some params /\
    folder batch = None /\
    statistics batch = calculate_all_metric_stats (valid_metrics (results batch)) /\
    (statistics batch = [] <->
     Forall (fun r => result_metrics r = None) (results batch)) /\
    workers_used batch =
      (if use_parallel && (num_workers self >? 1)%Z && (1 <? length files)%nat
       then num_workers self else 1%Z).
Proof.
  intros -> Hparams P. unfold analyze_files. rewrite Hparams. cbn [bind].
  destruct (use_parallel && (num_workers self >? 1)%Z
            && (1 <? length (first :: rest))%nat).
  - destruct (analyze_parallel_ordered libs self (first :: rest)
                (length (first :: rest)) (num_workers self) cb
                (image_scale params) schedule P)
      as (rs & log & E & O & _).
    rewrite E. cbn [bind fst snd].
    eexists _, _. split; [reflexivity|].
    cbn [total_files results imaging_params folder statistics workers_used].
    split; [reflexivity|]. split.
    { rewrite <- (length_map result_filepath), O, length_map. reflexivity. }
    split; [exact O|]. repeat split; try reflexivity.
    + intros H. apply calculate_all_metric_stats_nil in H.
      now apply valid_metrics_nil.
    + intros H. apply calculate_all_metric_stats_nil. now apply valid_metrics_nil.
  - cbn [bind fst snd].
    eexists _, _. split; [reflexivity|].
    cbn [total_files results imaging_params folder statistics workers_used].
    pose proof (analyze_sequential_ordered libs self (first :: rest)
                  (length (first :: rest)) cb (image_scale params)) as O.
    split; [reflexivity|]. split.
    { rewrite <- (length_map result_filepath), O, length_map. reflexivity. }
    split; [exact O|]. repeat split; try reflexivity.
    + intros H. apply calculate_all_metric_stats_nil in H.
      now apply valid_metrics_nil.
    + intros H. apply calculate_all_metric_stats_nil. now apply valid_metrics_nil.
Qed.

End BatchFacts.

Lemma analyze_files_batch_witness :
  exists batch log,
    analyze_files Demo.batch_libs Demo.batch_analyzer
                  [Demo.plain_file; Demo.broken_file] true true [1; 0]%nat
    = Ok (batch, log) /\
    length (results batch) = 2%nat.
Proof.
  destruct (analyze_files_batch Demo.batch_libs Demo.batch_analyzer
              [Demo.plain_file; Demo.broken_file] true true [1; 0]%nat
              Demo.plain_file [Demo.broken_file] (mkParams None None None None))
    as (batch & log & E & _ & L & _).
  - reflexivity.
  - apply plain_params.
  - apply perm_swap.
  - exists batch, log. split; [exact E | exact L].
Defined.

Section AgreementFacts.

Variable libs : Libs.
Variables fwhm thr : R.
Variable maxs : Z.
Variable requested : option Z.

(** X28: when the first file yields an image scale and every 'filename'
    entry is the name of its path, the sequential and the parallel mode
    return the same results and the same statistics, for every order in
    which the workers finish. *)
Theorem analyze_files_modes_agree (files : list FileInfo) (cb cb' : bool)
        (schedule schedule' : list nat)
        (first : FileInfo) (rest : list FileInfo)
        (params : ImagingParams) (s : R) :
  let self := SubframeAnalyzer_init libs fwhm thr maxs requested in
  files = first :: rest ->
  get_imaging_params (libs_os libs) (path first) = Ok params ->
  image_scale params = Some s ->
  Forall (fun f => filename f = path_name (libs_os libs) (path f)) files ->
  Permutation schedule (seq 0 (length files)) ->
  exists seq_batch seq_log par_batch par_log,
    analyze_files libs self files cb' false schedule' = Ok (seq_batch, seq_log) /\
    analyze_files libs self files cb true schedule = Ok (par_batch, par_log) /\
    results seq_batch = results par_batch /\
    statistics seq_batch = statistics par_batch /\
    total_files seq_batch = total_files par_batch /\
    imaging_params seq_batch = imaging_params par_batch.
Proof.
  intros self -> Hparams Hs Hnames P.
  unfold analyze_files. rewrite Hparams. cbn [bind andb]. rewrite Hs.
  destruct ((num_workers self >? 1)%Z && (1 <? length (first :: rest))%nat).
  - destruct (modes_agree_with_batch_scale libs fwhm thr maxs requested
                (first :: rest) (length (first :: rest)) (num_workers self)
                cb cb' s schedule Hnames P) as (log & E).
    fold self in E. rewrite E. cbn [bind fst snd].
    eexists _, _, _, _. split; [reflexivity|]. split; [reflexivity|].
    cbn [results statistics total_files imaging_params]. repeat split.
  - cbn [bind fst snd].
    eexists _, _, _, _. split; [reflexivity|]. split; [reflexivity|].
    cbn [results statistics total_files imaging_params].
    assert (E : fst (_analyze_sequential libs self (first :: rest)
                       (length (first :: rest)) cb' (Some s)) =
                fst (_analyze_sequential libs self (first :: rest)
                       (length (first :: rest)) cb (Some s)))
      by (now rewrite !analyze_sequential_results).
    rewrite E. repeat split.
Qed.

End AgreementFacts.

Lemma analyze_files_modes_agree_witness :
  exists seq_batch seq_log par_batch par_log,
    analyze_files Demo.batch_libs Demo.batch_analyzer
                  [Demo.scaled_file; Demo.plain_file] false false [0; 1]%nat
      = Ok (seq_batch, seq_log) /\
    analyze_files Demo.batch_libs Demo.batch_analyzer
                  [Demo.scaled_file; Demo.plain_file] false true [1; 0]%nat
      = Ok (par_batch, par_log) /\
    results seq_batch = results par_batch.
Proof.
  destruct (analyze_files_modes_agree Demo.batch_libs 5 5 500 None
              [Demo.scaled_file; Demo.plain_file] false false
              [1; 0]%nat [0; 1]%nat Demo.scaled_file [Demo.plain_file]
              (mkParams (Some 3.76) (Some 400) None (Some ((3.76 / 400) * 206.265)))
              ((3.76 / 400) * 206.265))
    as (b1 & l1 & b2 & l2 & E1 & E2 & R & _).
  - reflexivity.
  - apply scaled_params.
  - reflexivity.
  - repeat constructor.
  - apply perm_swap.
  - exists b1, l1, b2, l2. split; [exact E1|]. split; [exact E2 | exact R].
Defined.

Section OutlierLookupFacts.

Lemma outliers_from_objects_ok i values stats threshold acc :
  Forall (fun v => v <> None) values ->
  outliers_from_objects i values stats threshold acc =
  Ok (acc ++ outliers_from i (map as_float64 values) stats threshold).
Proof.
  intros H. revert i acc.
  induction H as [|v t Hv Ht IH]; intros i acc; simpl.
  - now rewrite app_nil_r.
  - destruct v as [val|]; [|congruence]. cbn [as_float64].
    rewrite IH.
    destruct (isfinite val && is_outlier val stats threshold);
      [rewrite <- app_assoc|]; reflexivity.
Qed.

Lemma outliers_from_objects_raises i values stats threshold acc :
  In None values ->
  exists e,
    outliers_from_objects i values stats threshold acc = Raise e /\
    exn_cls e = TypeError.
Proof.
  revert i acc. induction values as [|v t IH]; intros i acc Hin; [destruct Hin|].
  destruct v as [val|].
  - destruct Hin as [Hin|Hin]; [discriminate|]. simpl. apply IH, Hin.
  - simpl. eexists. split; reflexivity.
Qed.

(** X29: [get_outliers] raises TypeError as soon as an analysed frame
    holds None under the metric asked for, which happens for 'fwhm_arcsec'
    and a frame analysed without an image scale, and for no other metric.
    Otherwise it returns positions of the results in increasing order,
    and only positions of results that carry metrics with a finite value
    for the metric: a file that failed is never flagged.  For a name that
    is not a metric it returns the empty list. *)
Theorem get_outliers_raises_or_flags (results : list FileResult)
        (metric : string) (sigma_threshold : R) :
  let holds_none := fun r =>
    match result_metrics r with
    | Some m => match metric_value metric m with
                | Some None => true
                | _ => false
                end
    | None => false
    end in
  (existsb holds_none results = true ->
   exists e, get_outliers results metric sigma_threshold = Raise e /\
             exn_cls e = TypeError) /\
  (existsb holds_none results = false ->
   exists flagged,
     get_outliers results metric sigma_threshold = Ok flagged /\
     StronglySorted lt flagged /\
     (forall k, In k flagged ->
        exists r m v,
          nth_error results k = Some r /\ result_metrics r = Some m /\
          metric_value metric m = Some (Some (Finite v)))) /\
  (forall r m,
     result_metrics r = Some m ->
     (holds_none r = true <->
      metric = "fwhm_arcsec"%string /\ m_fwhm_arcsec m = None)) /\
  ((forall m, metric_value metric m = None) ->
   get_outliers results metric sigma_threshold = Ok []).
Proof.
  intros holds_none.
  assert (Hnone_in : existsb holds_none results = true <->
                     In None (outlier_values results metric)).
  { unfold outlier_values. rewrite existsb_exists, in_map_iff. unfold holds_none.
    split.
    - intros (r & Hr & Hv). exists r. split; [|exact Hr].
      destruct (result_metrics r) as [m|]; [|discriminate].
      destruct (metric_value metric m) as [[v|]|]; try discriminate. reflexivity.
    - intros (r & Hv & Hr). exists r. split; [exact Hr|].
      destruct (result_metrics r) as [m|]; [|discriminate].
      destruct (metric_value metric m) as [[v|]|]; try discriminate. reflexivity. }
  assert (Hok : existsb holds_none results = false ->
     exists flagged,
       get_outliers results metric sigma_threshold = Ok flagged /\
       flagged = outliers_from 0 (map as_float64 (outlier_values results metric))
                   (calculate_bands (map as_float64 (outlier_values results metric)))
                   sigma_threshold).
  { intros E. unfold get_outliers. eexists.
    rewrite outliers_from_objects_ok; [split; reflexivity|].
    apply Forall_forall. intros v Hv ->.
    apply Hnone_in in Hv. congruence. }
  assert (Hflag : forall k,
     In k (outliers_from 0 (map as_float64 (outlier_values results metric))
             (calculate_bands (map as_float64 (outlier_values results metric)))
             sigma_threshold) ->
     exists r m v,
       nth_error results k = Some r /\ result_metrics r = Some m /\
       metric_value metric m = Some (Some (Finite v))).
  { intros k Hk. apply outliers_from_In in Hk.
    destruct Hk as (j & val & -> & Hj & Hf & _). simpl.
    unfold outlier_values in Hj. rewrite !nth_error_map in Hj.
    destruct (nth_error results j) as [r|] eqn:Er; [|discriminate].
    cbn [option_map] in Hj. injection Hj as Hval.
    exists r.
    destruct (result_metrics r) as [m|]; [|subst val; discriminate].
    destruct (metric_value metric m) as [[w|]|] eqn:Em;
      cbn [as_float64] in Hval; try (subst val; discriminate).
    subst w. destruct val as [v| | |]; try discriminate.
    exists m, v. repeat split. exact Em. }
  split; [|split; [|split]].
  - intros E. unfold get_outliers.
    apply outliers_from_objects_raises, Hnone_in, E.
  - intros E. destruct (Hok E) as (flagged & Hget & ->).
    eexists. split; [exact Hget|]. split; [apply outliers_from_increasing|].
    exact Hflag.
  - intros r m Hm. unfold holds_none. rewrite Hm. unfold metric_value.
    destruct (String.eqb metric "fwhm") eqn:E1.
    { apply String.eqb_eq in E1. subst metric. split; [discriminate|].
      intros [H _]. discriminate. }
    destruct (String.eqb metric "fwhm_arcsec") eqn:E2.
    { apply String.eqb_eq in E2. subst metric.
      destruct (m_fwhm_arcsec m); split; try discriminate; try tauto.
      intros [_ H]. discriminate. }
    apply String.eqb_neq in E2.
    destruct (String.eqb metric "eccentricity");
      [split; [discriminate | tauto]|].
    destruct (String.eqb metric "snr"); [split; [discriminate | tauto]|].
    destruct (String.eqb metric "star_count"); [split; [discriminate | tauto]|].
    destruct (String.eqb metric "background"); split; try discriminate; tauto.
  - intros Hnone.
    assert (E : existsb holds_none results = false).
    { destruct (existsb holds_none results) eqn:E; [|reflexivity].
      apply existsb_exists in E. destruct E as (r & _ & Hr).
      unfold holds_none in Hr. destruct (result_metrics r) as [m|]; [|discriminate].
      rewrite Hnone in Hr. discriminate. }
    destruct (Hok E) as (flagged & Hget & Hfl). rewrite Hget. f_equal.
    destruct flagged as [|k t]; [reflexivity|].
    destruct (Hflag k) as (r & m & v & _ & _ & Hm); [rewrite <- Hfl; now left|].
    rewrite Hnone in Hm. discriminate.
Qed.

(** Two analysed frames, the second without an image scale: asking for
    the outliers of 'fwhm_arcsec' raises. *)
Lemma get_outliers_raises_or_flags_witness :
  exists e,
    get_outliers
      [Analyzed "a.fits" "a.fits" (mkMetrics 3 (Some 6) 0 10 5 100) 5 5;
       Analyzed "b.fits" "b.fits" (mkMetrics 3 None 0 10 5 100) 5 5]
      "fwhm_arcsec" 2 = Raise e /\
    exn_cls e = TypeError.
Proof.
  destruct (get_outliers_raises_or_flags
              [Analyzed "a.fits" "a.fits" (mkMetrics 3 (Some 6) 0 10 5 100) 5 5;
               Analyzed "b.fits" "b.fits" (mkMetrics 3 None 0 10 5 100) 5 5]
              "fwhm_arcsec" 2) as (H & _).
  apply H. reflexivity.
Defined.

End OutlierLookupFacts.

Section FolderBatchFacts.

Variable libs : Libs.
Variable self : SubframeAnalyzer.

(** X30: [analyze_folder] raises FileNotFoundError for a folder that does
    not exist and ValueError for a path that is not a directory.  On a
    directory without a supported file it returns the empty batch (no
    file, no result, no statistics, no worker) under the folder's name.
    Whenever it returns, the batch carries the folder's name and as many
    files and results as the directory has supported entries. *)
Theorem analyze_folder_structure (folder_path : string) (cb use_parallel : bool)
        (schedule : list nat) :
  let os := libs_os libs in
  let supported := fun filepath =>
    existsb (String.eqb (str_lower os (path_suffix os filepath)))
            [".fits"; ".fit"; ".fts"]%string in
  let entries := filter supported (path_iterdir os folder_path) in
  (path_exists os folder_path = false ->
   analyze_folder libs self folder_path cb use_parallel schedule =
   Raise (mkExn FileNotFoundError ("Folder not found: " ++ folder_path)%string)) /\
  (path_exists os folder_path = true -> path_is_dir os folder_path = false ->
   analyze_folder libs self folder_path cb use_parallel schedule =
   Raise (mkExn ValueError ("Path is not a directory: " ++ folder_path)%string)) /\
  (path_exists os folder_path = true -> path_is_dir os folder_path = true ->
   entries = [] ->
   analyze_folder libs self folder_path cb use_parallel schedule =
   Ok (mkBatch 0 [] [] 0 None (Some folder_path), [])) /\
  (Permutation schedule (seq 0 (length entries)) ->
   forall batch log,
     analyze_folder libs self folder_path cb use_parallel schedule = Ok (batch, log) ->
     folder batch = Some folder_path /\
     total_files batch = length entries /\
     length (results batch) = length entries).
Proof.
  intros os supported entries.
  unfold analyze_folder, load_folder, SUPPORTED_EXTENSIONS.
  fold os. fold supported. fold entries.
  split; [|split; [|split]].
  - intros ->. reflexivity.
  - intros -> ->. reflexivity.
  - intros He Hd Hnone. rewrite He, Hd, Hnone. reflexivity.
  - intros P batch log.
    destruct (path_exists os folder_path); cbn [negb]; [|discriminate].
    destruct (path_is_dir os folder_path); cbn [negb bind]; [|discriminate].
    set (files := sort_by_filename
                    (map (fun filepath => mkFile (path_str os filepath)
                                                 (path_name os filepath)) entries)).
    assert (Hlen : length files = length entries).
    { unfold files. rewrite (Permutation_length (sort_by_filename_perm _)).
      apply length_map. }
    destruct files as [|first rest] eqn:Ef.
    + cbn [analyze_files bind fst snd]. intros [= <- <-].
      cbn [folder total_files results]. simpl in Hlen. rewrite <- Hlen.
      repeat split.
    + destruct (get_imaging_params os (path first)) as [params|e] eqn:Ep.
      2:{ unfold analyze_files. fold os. rewrite Ep. discriminate. }
      rewrite <- Hlen in P.
      destruct (analyze_files_contained libs self (first :: rest) cb use_parallel
                  schedule first rest params eq_refl Ep P)
        as (b & l & E & Ht & Hr & _).
      rewrite E. cbn [bind fst snd]. intros [= <- <-].
      cbn [folder total_files results]. rewrite <- Hlen.
      split; [reflexivity|]. split; [exact Ht|]. now rewrite Hr.
Qed.

End FolderBatchFacts.

Lemma analyze_folder_structure_witness :
  analyze_folder Demo.batch_libs Demo.batch_analyzer "nowhere" false false [] =
  Raise (mkExn FileNotFoundError "Folder not found: nowhere").
Proof.
  apply (analyze_folder_structure Demo.batch_libs Demo.batch_analyzer
           "nowhere" false false []).
  reflexivity.
Defined.
